(** * HybridSearch AI: a shallow embedding of the request pipeline

    The development follows the three source files of the repository:
    - [src/app.py]: rate limiter, result cache, web search, answer
      generators, history and the Flask routes [search] and [switch_mode];
    - [src/search/web_search.py]: [WebSearch] with its Serper/DuckDuckGo
      fallback;
    - [src/models/llm_handler.py]: [LLMHandler].

    Conventions of the embedding.
    - Process-wide dictionaries ([search_cache], [rate_limit_tracker]) and
      the Flask session are finite maps with string keys.
    - Every reading of [time.time()] is an explicit integer argument (clock
      ticks); [secrets.token_hex] and [datetime.now()] are explicit
      arguments as well.
    - Every outbound call (Serper, DuckDuckGo, Groq, OpenAI, Ollama) is an
      explicit outcome value: what the call returns or raises if the code
      performs it.
    - Python exceptions are an error type; a function that can raise
      returns a sum.
    - A Python [str] is held as its UTF-8 encoding, one [ascii] per
      byte.  Equality, concatenation and the replacement of an ASCII
      pattern read the same on the encoding; [str.strip()] is decoded
      character by character. *)

From Stdlib Require Import ZArith String Ascii List Lia Bool.
From stdpp Require Import base gmap list strings fin_maps pretty.
Import ListNotations.

Local Open Scope string_scope.
Local Open Scope list_scope.
Local Open Scope Z_scope.

(** ** Python built-ins used by the source *)

Module Py.

(** [l[:n]]: a non-negative bound keeps the first [n] elements, a
    negative one drops the last [-n]. *)
Definition slice_to {A : Type} (n : Z) (l : list A) : list A :=
  if 0 <=? n then take (Z.to_nat n) l
  else take (length l - Z.to_nat (- n))%nat l.

(** [sep.join(l)]. *)
Fixpoint join (sep : string) (l : list string) : string :=
  match l with
  | [] => ""
  | [x] => x
  | x :: rest => x +:+ sep +:+ join sep rest
  end.

(** [len(l)] as a Python integer. *)
Definition len {A : Type} (l : list A) : Z := Z.of_nat (length l).

(** Truth value of an optional string: [None] and [''] are falsy. *)
Definition truthy (o : option string) : bool :=
  match o with
  | Some (String _ _) => true
  | _ => false
  end.

(** The code points for which [str.isspace] holds: the characters
    [str.strip()] removes (the ASCII ones, then U+0085, U+00A0, U+1680,
    U+2000 to U+200A, U+2028, U+2029, U+202F, U+205F and U+3000). *)
Definition white_space : list N :=
  [9; 10; 11; 12; 13; 28; 29; 30; 31; 32; 133; 160; 5760;
   8192; 8193; 8194; 8195; 8196; 8197; 8198; 8199; 8200; 8201; 8202;
   8232; 8233; 8239; 8287; 12288]%N.

(** The UTF-8 encoding of a code point. *)
Definition utf8 (cp : N) : list ascii :=
  if (cp <? 128)%N then [ascii_of_N cp]
  else if (cp <? 2048)%N then
    [ascii_of_N (192 + cp / 64); ascii_of_N (128 + cp mod 64)]
  else if (cp <? 65536)%N then
    [ascii_of_N (224 + cp / 4096); ascii_of_N (128 + (cp / 64) mod 64);
     ascii_of_N (128 + cp mod 64)]
  else
    [ascii_of_N (240 + cp / 262144); ascii_of_N (128 + (cp / 4096) mod 64);
     ascii_of_N (128 + (cp / 64) mod 64); ascii_of_N (128 + cp mod 64)].

(** The white-space characters as they occur in a text. *)
Definition space_chars : list (list ascii) := utf8 <$> white_space.

(** [strip_prefix char l]: what follows [char] in [l], when [l] starts
    with it. *)
Fixpoint strip_prefix (char l : list ascii) : option (list ascii) :=
  match char, l with
  | [], _ => Some l
  | c :: char', d :: l' => if Ascii.eqb c d then strip_prefix char' l' else None
  | _ :: _, [] => None
  end.

(** [drop_char chars l]: [l] without its first character, when that is
    one of [chars]. *)
Fixpoint drop_char (chars : list (list ascii)) (l : list ascii) : option (list ascii) :=
  match chars with
  | [] => None
  | char :: rest =>
      match strip_prefix char l with
      | Some l' => Some l'
      | None => drop_char rest l
      end
  end.

(** The scan from the left end: characters of [chars] are dropped
    until another one, or the end, is met.  [fuel] bounds the number of
    characters dropped; the length of [l] is always enough. *)
Fixpoint lstrip_from (chars : list (list ascii)) (fuel : nat) (l : list ascii)
    : list ascii :=
  match fuel with
  | O => l
  | S fuel' =>
      match drop_char chars l with
      | Some l' => lstrip_from chars fuel' l'
      | None => l
      end
  end.

Definition lstrip_bytes (l : list ascii) : list ascii :=
  lstrip_from space_chars (length l) l.

(** The scan from the right end is the scan from the left of the
    reversed text, for the reversed characters. *)
Definition rstrip_bytes (l : list ascii) : list ascii :=
  rev (lstrip_from (@rev ascii <$> space_chars) (length l) (rev l)).

(** [s.strip()]: white space is removed at both ends. *)
Definition strip (s : string) : string :=
  string_of_list_ascii (rstrip_bytes (lstrip_bytes (list_ascii_of_string s))).

(** A text all of whose characters are white space (the empty text
    included). *)
Fixpoint all_from (chars : list (list ascii)) (fuel : nat) (l : list ascii) : bool :=
  match l, fuel with
  | [], _ => true
  | _ :: _, O => false
  | _ :: _, S fuel' =>
      match drop_char chars l with
      | Some l' => all_from chars fuel' l'
      | None => false
      end
  end.

Definition all_space (s : string) : bool :=
  all_from space_chars (String.length s) (list_ascii_of_string s).

End Py.

(** ** Data model *)

(** A search hit as the dictionaries built by [search_web] and
    [WebSearch]. *)
Record SourceResult := mkSource {
  title : string;
  snippet : string;
  url : string;
  source : string
}.

(** An entry of [search_history]. *)
Record HistoryEntry := mkHistory {
  h_query : string;
  h_mode : string;
  h_timestamp : string
}.

(** ** Rate limiting ([src/app.py], lines 82-123) *)

Definition RATE_LIMIT_SEARCHES : Z := 50.
Definition RATE_LIMIT_WINDOW : Z := 3600.

(** [rate_limit_tracker[user_id]] on a [defaultdict(list)]: a missing key
    reads as the empty list. *)
Definition tracker_get (user_id : string) (tracker : gmap string (list Z)) : list Z :=
  default [] (tracker !! user_id).

Definition check_rate_limit (now : Z) (user_id : string)
    (tracker : gmap string (list Z)) : (bool * Z) * gmap string (list Z) :=
  let kept := filter (λ ts, now - ts < RATE_LIMIT_WINDOW) (tracker_get user_id tracker) in
  let tracker' := <[user_id := kept]> tracker in
  if Py.len kept >=? RATE_LIMIT_SEARCHES
  then ((false, 0), tracker')
  else ((true, RATE_LIMIT_SEARCHES - Py.len kept), tracker').

Definition record_search (now : Z) (user_id : string)
    (tracker : gmap string (list Z)) : gmap string (list Z) :=
  <[user_id := tracker_get user_id tracker ++ [now]]> tracker.

(** [record_search] once for each reading of the clock, oldest first. *)
Definition record_all (times : list Z) (user_id : string)
    (tracker : gmap string (list Z)) : gmap string (list Z) :=
  foldl (λ t now, record_search now user_id t) tracker times.

(** ** Exceptions *)

(** The exception classes the source distinguishes in its [except]
    clauses.  [ConnectTimeout] is both a [Timeout] and a
    [ConnectionError] in [requests]; [HTTPError] is what
    [raise_for_status] raises on a non-2xx answer. *)
Inductive ExnClass :=
  | ReadTimeout | ConnectTimeout | ConnectionError | HTTPError
  | OtherRequestException
  | TimeoutExpired | FileNotFoundError | KeyError
  | OtherException.

(** A raised exception: its class and [str(e)]. *)
Record PyExn := mkExn { exn_class : ExnClass; exn_str : string }.

(** [isinstance(e, requests.exceptions.Timeout)] *)
Definition is_Timeout (e : PyExn) : bool :=
  match exn_class e with
  | ReadTimeout | ConnectTimeout => true
  | _ => false
  end.

(** [isinstance(e, requests.exceptions.ConnectionError)] *)
Definition is_ConnectionError (e : PyExn) : bool :=
  match exn_class e with
  | ConnectTimeout | ConnectionError => true
  | _ => false
  end.

(** [isinstance(e, requests.exceptions.RequestException)] *)
Definition is_RequestException (e : PyExn) : bool :=
  match exn_class e with
  | ReadTimeout | ConnectTimeout | ConnectionError | HTTPError
  | OtherRequestException => true
  | _ => false
  end.

(** The result of running code that may raise. *)
Definition Raises (A : Type) : Type := PyExn + A.

(** ** Result cache ([src/app.py], lines 125-146) *)

(** [f"{func.__name__}:{str(args)}:{str(kwargs)}"] *)
Definition cache_key (func_name str_args str_kwargs : string) : string :=
  func_name +:+ ":" +:+ str_args +:+ ":" +:+ str_kwargs.

Section CacheResult.
(** [V]: the values [func] returns; [W]: whatever [func] reads and
    changes outside the cache. *)
Context {V W : Type}.

(** The tail of [wrapper]: call [func], store its result with a fresh
    reading of the clock, return it.  An exception of [func] leaves
    the cache as it is. *)
Definition call_and_store (cache_key : string) (func : W → Raises V * W)
    (t_store : Z) (search_cache : gmap string (V * Z)) (w : W)
    : Raises V * gmap string (V * Z) * W :=
  match func w with
  | (inr result, w') => (inr result, <[cache_key := (result, t_store)]> search_cache, w')
  | (inl e, w') => (inl e, search_cache, w')
  end.

(** [wrapper] of [cache_result(duration)], for one call whose key is
    [cache_key]; [t_check] and [t_store] are the two readings of
    [time.time()]. *)
Definition cache_result (duration : Z) (cache_key : string)
    (func : W → Raises V * W) (t_check t_store : Z)
    (search_cache : gmap string (V * Z)) (w : W)
    : Raises V * gmap string (V * Z) * W :=
  match search_cache !! cache_key with
  | Some (cached_data, timestamp) =>
      if t_check - timestamp <? duration
      then (inr cached_data, search_cache, w)
      else call_and_store cache_key func t_store search_cache w
  | None => call_and_store cache_key func t_store search_cache w
  end.

(** Instrumentation: [func] with a counter of its invocations. *)
Definition counted (func : W → Raises V * W) : nat * W → Raises V * (nat * W) :=
  λ '(n, w), let '(r, w') := func w in (r, (S n, w')).
End CacheResult.

(** ** Payloads of the search providers *)

(** An entry of the ["organic"] array of a Serper answer; a field is
    [None] when the key is absent. *)
Record OrganicItem := mkOrganic {
  o_title : option string;
  o_snippet : option string;
  o_link : option string
}.

Record KnowledgeGraph := mkKG {
  kg_title : option string;
  kg_description : option string;
  kg_website : option string
}.

Record SerperData := mkSerper {
  organic : option (list OrganicItem);
  knowledgeGraph : option KnowledgeGraph
}.

(** A hit of [DDGS().text]. *)
Record DdgHit := mkDdg {
  d_title : option string;
  d_body : option string;
  d_href : option string
}.

(** ** Web search of the application ([src/app.py], lines 150-206) *)

Definition api_key_not_configured : SourceResult :=
  mkSource "API Key Not Configured"
    "Please add SERPER_API_KEY to your .env file. Get one at https://serper.dev"
    "https://serper.dev" "Error".

Definition no_results_found : SourceResult :=
  mkSource "No Results Found" "Try a different search query." "#" "Serper".

Definition search_timeout : SourceResult :=
  mkSource "Search Timeout"
    "The search request took too long. Please try again." "#" "Error".

Definition search_error (e : PyExn) : SourceResult :=
  mkSource "Search Error" ("Unable to perform search: " +:+ exn_str e) "#" "Error".

Definition organic_source (item : OrganicItem) : SourceResult :=
  mkSource (default "No title" (o_title item))
           (default "No description available" (o_snippet item))
           (default "#" (o_link item))
           "Serper".

(** The body of [search_web].  [serper_key] is [API_KEYS['serper']];
    [post query num] is the outcome of [requests.post] followed by
    [raise_for_status] and [json], should the code perform it: the
    decoded payload, or the exception raised on the way to it (by one
    of the three calls, or by [results.get] and [item.get] on a payload
    that is not an object holding objects). *)
Definition search_web (serper_key : option string)
    (post : string → Z → Raises SerperData) (query : string)
    : Raises (list SourceResult) :=
  if negb (Py.truthy serper_key) then inr [api_key_not_configured]
  else
    match post query 5 with
    | inr results =>
        let sources := organic_source <$> Py.slice_to 5 (default [] (organic results)) in
        match sources with
        | [] => inr [no_results_found]
        | _ => inr sources
        end
    | inl e =>
        if is_Timeout e then inr [search_timeout]
        else if is_RequestException e then inr [search_error e]
        else inl e
    end.

(** ** [WebSearch] ([src/search/web_search.py]) *)

Module WebSearch.

Inductive Provider := Serper | DuckDuckGo.

(** The object: its only attribute. *)
Record t := mk { serper_key : option string }.

Definition __init__ (environ : gmap string string) : t :=
  {| serper_key := environ !! "SERPER_API_KEY" |}.

(** Computations that may raise and that log every outbound call, in
    the order the calls are made. *)
Definition M (A : Type) : Type := list Provider → Raises A * list Provider.

Definition ret {A} (a : A) : M A := λ log, (inr a, log).

Definition raise {A} (e : PyExn) : M A := λ log, (inl e, log).

Definition bind {A B} (m : M A) (k : A → M B) : M B :=
  λ log, match m log with
         | (inr a, log') => k a log'
         | (inl e, log') => (inl e, log')
         end.

(** [try: m except Exception as e: handler e] *)
Definition try_except {A} (m : M A) (handler : PyExn → M A) : M A :=
  λ log, match m log with
         | (inl e, log') => handler e log'
         | r => r
         end.

(** An outbound call to provider [p] whose outcome is [outcome]. *)
Definition call {A} (p : Provider) (outcome : Raises A) : M A :=
  λ log, (outcome, log ++ [p]).

Notation "'let*' x ':=' m 'in' k" := (bind m (λ x, k))
  (at level 10, x name, m at level 100, k at level 200).

(** The two providers as seen from the code: the outcome of the HTTP
    exchange for a query and a result count, and of [DDGS().text]. *)
Record Providers := mkProviders {
  serper_post : string → Z → Raises SerperData;
  ddgs_text : string → Z → Raises (list DdgHit)
}.

Definition organic_result (r : OrganicItem) : SourceResult :=
  mkSource (default "" (o_title r)) (default "" (o_snippet r))
           (default "" (o_link r)) "Google (via Serper)".

Definition _search_serper (net : Providers) (self : t)
    (query : string) (max_results : Z) : M (list SourceResult) :=
  let* data := call Serper (serper_post net query max_results) in
  let results := organic_result <$> Py.slice_to max_results (default [] (organic data)) in
  ret match knowledgeGraph data with
      | Some kg =>
          if Py.len results <? max_results then
            match kg_description kg with
            | Some description =>
                mkSource (default "" (kg_title kg)) description
                         (default "" (kg_website kg)) "Knowledge Graph"
                :: results
            | None => results
            end
          else results
      | None => results
      end.

(** [r[key]] on a hit: a missing key raises [KeyError]. *)
Definition getitem (field : option string) (key : string) : Raises string :=
  match field with
  | Some v => inr v
  | None => inl (mkExn KeyError ("'" +:+ key +:+ "'"))
  end.

Definition hit_result (r : DdgHit) : Raises SourceResult :=
  match getitem (d_title r) "title" with
  | inl e => inl e
  | inr t =>
      match getitem (d_body r) "body" with
      | inl e => inl e
      | inr b =>
          match getitem (d_href r) "href" with
          | inl e => inl e
          | inr h => inr (mkSource t b h "DuckDuckGo")
          end
      end
  end.

(** The list comprehension of [_search_duckduckgo]: it stops at the
    first hit that raises. *)
Fixpoint hit_results (hits : list DdgHit) : Raises (list SourceResult) :=
  match hits with
  | [] => inr []
  | r :: rest =>
      match hit_result r with
      | inl e => inl e
      | inr s =>
          match hit_results rest with
          | inl e => inl e
          | inr l => inr (s :: l)
          end
      end
  end.

Definition _search_duckduckgo (net : Providers) (self : t)
    (query : string) (max_results : Z) : M (list SourceResult) :=
  try_except
    (let* ddgs_results := call DuckDuckGo (ddgs_text net query max_results) in
     λ log, (hit_results ddgs_results, log))
    (λ _, ret []).

(** [search]: [Some results] stands for the [return results] inside
    the [try], [None] for falling out of the [if self.serper_key]
    block. *)
Definition search (net : Providers) (self : t)
    (query : string) (max_results : Z) : M (list SourceResult) :=
  let* returned :=
    (if Py.truthy (serper_key self) then
       try_except
         (let* results := _search_serper net self query max_results in
          ret match results with
              | [] => None
              | _ => Some results
              end)
         (λ _, ret None)
     else ret None) in
  match returned with
  | Some results => ret results
  | None => _search_duckduckgo net self query max_results
  end.

End WebSearch.

(** ** Configuration of the application ([src/app.py], lines 21-80) *)

(** [os.getenv(name, default)] *)
Definition getenv (environ : gmap string string) (name default_value : string) : string :=
  default default_value (environ !! name).

Module PyStr.
(** [s.replace(old, new)] for a non-empty [old]: [skip] counts the
    characters of a match still to be passed over. *)
Fixpoint replace_from (old new : string) (skip : nat) (s : string) : string :=
  match s with
  | EmptyString => EmptyString
  | String c rest =>
      match skip with
      | S k => replace_from old new k rest
      | O =>
          if String.prefix old s
          then new +:+ replace_from old new (String.length old - 1)%nat rest
          else String c (replace_from old new 0%nat rest)
      end
  end.

Definition replace (old new s : string) : string := replace_from old new 0%nat s.

(** The line feed of Python's ["\n"]. *)
Definition NL : string := String (ascii_of_nat 10) EmptyString.
End PyStr.

Record ModelConfig := mkModelConfig {
  backend : string;
  model : string;
  display_name : string
}.

Definition groq_config (environ : gmap string string) : ModelConfig :=
  mkModelConfig "Groq API"
    (getenv environ "GROQ_MODEL" "llama-3.3-70b-versatile")
    (PyStr.replace "-versatile" ""
       (getenv environ "GROQ_MODEL" "llama-3.3-70b-versatile")).

Definition openai_config (environ : gmap string string) : ModelConfig :=
  mkModelConfig "OpenAI"
    (getenv environ "OPENAI_MODEL" "gpt-4o-mini")
    (getenv environ "OPENAI_MODEL" "gpt-4o-mini").

Definition local_config (environ : gmap string string) : ModelConfig :=
  mkModelConfig "Ollama"
    (getenv environ "LOCAL_MODEL" "llama2")
    (getenv environ "LOCAL_MODEL" "llama2").

Definition MODEL_CONFIGS (environ : gmap string string) : gmap string ModelConfig :=
  <["groq" := groq_config environ]>
  (<["openai" := openai_config environ]>
  (<["local" := local_config environ]> ∅)).

(** [MODEL_CONFIGS[mode]['model']] for the three literal keys the
    generators use; the key is always present. *)
Definition config_model (environ : gmap string string) (mode : string) : string :=
  match MODEL_CONFIGS environ !! mode with
  | Some config => model config
  | None => ""
  end.

(** [API_KEYS]: the three environment variables, [None] when unset. *)
Definition API_KEYS (environ : gmap string string) (name : string) : option string :=
  if String.eqb name "serper" then environ !! "SERPER_API_KEY"
  else if String.eqb name "groq" then environ !! "GROQ_API_KEY"
  else if String.eqb name "openai" then environ !! "OPENAI_API_KEY"
  else None.

(** ** Answer generators ([src/app.py], lines 208-325) *)

(** What the local daemon answers: the status and the decoded
    ["response"] field of the body ([None] when absent), or the
    exception [json()] raises. *)
Record OllamaResponse := mkOllama {
  status_code : Z;
  json_response : Raises (option string)
}.

(** The model services as seen from the code: the outcome of each
    call for the arguments the code passes. *)
Record Backends := mkBackends {
  groq_chat : string → string → string → Raises string;
  openai_chat : string → string → string → Raises string;
  ollama_generate : string → string → Raises OllamaResponse
}.

(** The list comprehension and the join shared by the three
    generators. *)
Definition render_source (s : SourceResult) : string :=
  "**" +:+ title s +:+ "**: " +:+ snippet s.

Definition build_context (sources : list SourceResult) : string :=
  Py.join (PyStr.NL +:+ PyStr.NL)
    (render_source <$> filter (λ s, source s ≠ "Error") sources).

Definition hosted_prompt_head : string :=
  "You are a helpful AI assistant. Based on the following sources, provide a comprehensive and well-structured answer to this question: ".

Definition hosted_prompt_tail : string :=
  PyStr.NL +:+ PyStr.NL +:+
  "Instructions:" +:+ PyStr.NL +:+
  "- Provide a detailed, informative answer" +:+ PyStr.NL +:+
  "- Use bullet points and clear structure" +:+ PyStr.NL +:+
  "- Cite information naturally" +:+ PyStr.NL +:+
  "- If sources are insufficient, acknowledge limitations" +:+ PyStr.NL +:+
  "- Be accurate and objective" +:+ PyStr.NL +:+ PyStr.NL +:+
  "Answer:".

Definition sources_header : string :=
  PyStr.NL +:+ PyStr.NL +:+ "Sources:" +:+ PyStr.NL.

(** The prompt of [generate_answer_groq] and [generate_answer_openai]. *)
Definition hosted_prompt (query : string) (sources : list SourceResult) : string :=
  hosted_prompt_head +:+ query +:+ sources_header +:+ build_context sources
  +:+ hosted_prompt_tail.

Definition local_prompt_head : string :=
  "Based on the following sources, answer this question: ".

Definition local_prompt_tail : string :=
  PyStr.NL +:+ PyStr.NL +:+ "Provide a comprehensive answer:".

(** The prompt of [generate_answer_local]. *)
Definition local_prompt (query : string) (sources : list SourceResult) : string :=
  local_prompt_head +:+ query +:+ sources_header +:+ build_context sources
  +:+ local_prompt_tail.

Definition check_key_hint : string :=
  PyStr.NL +:+ PyStr.NL +:+ "Please check your API key or try a different model.".

Definition generate_answer_groq (environ : gmap string string) (llm : Backends)
    (query : string) (sources : list SourceResult) : string :=
  if negb (Py.truthy (API_KEYS environ "groq")) then
    "Error: Groq API key not configured. Please add GROQ_API_KEY to your .env file."
  else
    match groq_chat llm (default "" (API_KEYS environ "groq"))
            (config_model environ "groq") (hosted_prompt query sources) with
    | inr content => content
    | inl e => "Error generating answer with Groq: " +:+ exn_str e +:+ check_key_hint
    end.

Definition generate_answer_openai (environ : gmap string string) (llm : Backends)
    (query : string) (sources : list SourceResult) : string :=
  if negb (Py.truthy (API_KEYS environ "openai")) then
    "Error: OpenAI API key not configured. Please add OPENAI_API_KEY to your .env file."
  else
    match openai_chat llm (default "" (API_KEYS environ "openai"))
            (config_model environ "openai") (hosted_prompt query sources) with
    | inr content => content
    | inl e => "Error generating answer with OpenAI: " +:+ exn_str e +:+ check_key_hint
    end.

(** The two [except] clauses of [generate_answer_local]. *)
Definition local_handler (e : PyExn) : string :=
  if is_ConnectionError e then
    "Error: Cannot connect to Ollama. Make sure Ollama is running locally (http://localhost:11434)"
  else "Error generating answer with Ollama: " +:+ exn_str e.

Definition generate_answer_local (environ : gmap string string) (llm : Backends)
    (query : string) (sources : list SourceResult) : string :=
  match ollama_generate llm (config_model environ "local") (local_prompt query sources) with
  | inr response =>
      if status_code response =? 200 then
        match json_response response with
        | inr body => default "No response generated" body
        | inl e => local_handler e
        end
      else "Error: Ollama returned status code " +:+ pretty (status_code response)
  | inl e => local_handler e
  end.

Definition generate_answer (environ : gmap string string) (llm : Backends)
    (query : string) (sources : list SourceResult) (mode : string) : string :=
  if String.eqb mode "openai" then generate_answer_openai environ llm query sources
  else if String.eqb mode "local" then generate_answer_local environ llm query sources
  else generate_answer_groq environ llm query sources.

(** ** History and session ([src/app.py], lines 84-88 and 327-358) *)

(** [add_to_history]: [now] is [datetime.now()] already formatted. *)
Definition add_to_history (MAX_HISTORY : Z) (query mode now : string)
    (search_history : list HistoryEntry) : list HistoryEntry :=
  Py.slice_to MAX_HISTORY (mkHistory query mode now :: search_history).

(** Several insertions, the first of the list first. *)
Definition add_all (MAX_HISTORY : Z) (entries : list HistoryEntry)
    (search_history : list HistoryEntry) : list HistoryEntry :=
  foldl (λ h e, add_to_history MAX_HISTORY (h_query e) (h_mode e) (h_timestamp e) h)
        search_history entries.

(** [get_user_id]: [token] is the value [secrets.token_hex(16)] returns
    if it is called. *)
Definition get_user_id (token : string) (session : gmap string string)
    : string * gmap string string :=
  match session !! "user_id" with
  | Some user_id => (user_id, session)
  | None => (token, <["user_id" := token]> session)
  end.

Definition get_current_mode (session : gmap string string) : string :=
  default "groq" (session !! "ai_mode").

Record ModelInfo := mkModelInfo {
  mi_backend : string;
  mi_model : string;
  mi_mode : string;
  mi_status : string
}.

(** [get_model_info(mode)] with an explicit [mode]. *)
Definition get_model_info (environ : gmap string string) (mode : string) : ModelInfo :=
  let config := default (groq_config environ) (MODEL_CONFIGS environ !! mode) in
  mkModelInfo (backend config) (display_name config) mode "active".

(** ** Routes ([src/app.py], lines 110-123 and 378-467) *)

(** The process-wide state. *)
Record AppState := mkApp {
  search_cache : gmap string (list SourceResult * Z);
  search_history : list HistoryEntry;
  rate_limit_tracker : gmap string (list Z)
}.

(** What a view returns: a rendered template or a JSON body, with its
    status. *)
Inductive Response :=
  | ErrorPage (error : string) (status : Z)
  | ResultsPage (query answer : string) (sources : list SourceResult)
                (model_info : ModelInfo) (rate_limit_remaining : Z)
  | SwitchFailed (error : string)
  | SwitchDone (mode backend model : string).

Definition status (r : Response) : Z :=
  match r with
  | ErrorPage _ code => code
  | ResultsPage _ _ _ _ _ => 200
  | SwitchFailed _ => 400
  | SwitchDone _ _ _ => 200
  end.

(** Module constants and built-ins the routes rely on: the process
    environment, [MAX_HISTORY] as parsed from it, and [repr] on
    strings (it only enters the cache key). *)
Record Runtime := mkRuntime {
  environ : gmap string string;
  MAX_HISTORY : Z;
  repr : string → string
}.

(** One POST to [/search]: the form field, and everything the outside
    world contributes while it is served. *)
Record SearchRequest := mkSearchRequest {
  form_query : option string;
  token : string;
  t_check : Z;
  t_record : Z;
  t_recheck : Z;
  t_cache_check : Z;
  t_cache_store : Z;
  datetime_now : string;
  serper : string → Z → Raises SerperData;
  llm : Backends
}.

Definition View : Type :=
  SearchRequest → gmap string string → AppState
  → Response * gmap string string * AppState.

(** [search_web] under [@cache_result(duration=3600)]. *)
Definition search_web_cached (rt : Runtime) (req : SearchRequest) (query : string)
    (cache : gmap string (list SourceResult * Z))
    : Raises (list SourceResult) * gmap string (list SourceResult * Z) :=
  fst (cache_result 3600
         (cache_key "search_web" ("(" +:+ repr rt query +:+ ",)") "{}")
         (λ w : unit, (search_web (API_KEYS (environ rt) "serper") (serper req) query, w))
         (t_cache_check req) (t_cache_store req) cache tt).

(** The undecorated view [search]. *)
Definition search (rt : Runtime) : View :=
  λ req session app,
    let query := Py.strip (default "" (form_query req)) in
    if String.eqb query "" then
      (ErrorPage "Please enter a search query" 400, session, app)
    else
      let mode := get_current_mode session in
      let model_info := get_model_info (environ rt) mode in
      let '(user_id, session) := get_user_id (token req) session in
      let '((_, remaining), tracker) :=
        check_rate_limit (t_recheck req) user_id (rate_limit_tracker app) in
      match search_web_cached rt req query (search_cache app) with
      | (inr sources, cache) =>
          let answer := generate_answer (environ rt) (llm req) query sources mode in
          (ResultsPage query answer sources model_info remaining,
           session,
           mkApp cache
                 (add_to_history (MAX_HISTORY rt) query mode (datetime_now req)
                    (search_history app))
                 tracker)
      | (inl e, cache) =>
          (ErrorPage ("An error occurred: " +:+ exn_str e) 500,
           session,
           mkApp cache (search_history app) tracker)
      end.

Definition rate_limit_decorator (func : View) : View :=
  λ req session app,
    let '(user_id, session) := get_user_id (token req) session in
    let '((allowed, remaining), tracker) :=
      check_rate_limit (t_check req) user_id (rate_limit_tracker app) in
    if negb allowed then
      (ErrorPage "Rate limit exceeded. Please try again in an hour." 429,
       session,
       mkApp (search_cache app) (search_history app) tracker)
    else
      func req session
        (mkApp (search_cache app) (search_history app)
               (record_search (t_record req) user_id tracker)).

(** The view registered for [POST /search]: [search] under
    [@rate_limit_decorator]. *)
Definition search_route (rt : Runtime) : View :=
  rate_limit_decorator (search rt).

(** [POST /switch_mode]; [form_mode] is the form field, if sent. *)
Definition switch_mode (rt : Runtime) (form_mode : option string)
    (session : gmap string string) : Response * gmap string string :=
  let mode := default "groq" form_mode in
  match MODEL_CONFIGS (environ rt) !! mode with
  | None => (SwitchFailed ("Invalid mode: " +:+ mode), session)
  | Some config =>
      (SwitchDone mode (backend config) (display_name config),
       <["ai_mode" := mode]> session)
  end.

(** A run of [POST /search] requests of one session.  Before each
    request the process-wide state may have been changed by the
    requests of other clients: [others]. *)
Fixpoint serve (rt : Runtime) (reqs : list ((AppState → AppState) * SearchRequest))
    (session : gmap string string) (app : AppState)
    : list Response * gmap string string * AppState :=
  match reqs with
  | [] => ([], session, app)
  | (others, req) :: rest =>
      let '(r, session', app') := search_route rt req session (others app) in
      let '(rs, session'', app'') := serve rt rest session' app' in
      (r :: rs, session'', app'')
  end.

(** ** [LLMHandler] ([src/models/llm_handler.py]) *)

Module LLMHandler.

(** What [subprocess.run] returns. *)
Record Completed := mkCompleted {
  returncode : Z;
  stdout : string;
  stderr : string
}.

(** The client libraries and the [ollama] executable as seen from
    the code.  A client object is represented by the key it was
    built with. *)
Record Sdk := mkSdk {
  Groq : option string → Raises (option string);
  OpenAI : option string → Raises (option string);
  groq_create : option string → string → string → Z → Raises string;
  openai_create : option string → string → string → Z → Raises string;
  ollama_run : string → string → Raises Completed
}.

(** The object; a client attribute is [None] when [__init__] did not
    set it. *)
Record t := mk {
  mode : string;
  model : string;
  groq_client : option (option string);
  openai_client : option (option string)
}.

Definition __init__ (sdk : Sdk) (environ : gmap string string) : Raises t :=
  let mode := getenv environ "LLM_MODE" "local" in
  if String.eqb mode "groq" then
    match Groq sdk (environ !! "GROQ_API_KEY") with
    | inr client => inr (mk mode (getenv environ "GROQ_MODEL" "llama3-8b-8192") (Some client) None)
    | inl e => inl e
    end
  else if String.eqb mode "openai" then
    match OpenAI sdk (environ !! "OPENAI_API_KEY") with
    | inr client => inr (mk mode (getenv environ "OPENAI_MODEL" "gpt-3.5-turbo") None (Some client))
    | inl e => inl e
    end
  else inr (mk mode (getenv environ "LOCAL_MODEL" "llama3.2:3b") None None).

Definition _generate_local (sdk : Sdk) (self : t) (prompt : string) : string :=
  match ollama_run sdk (model self) prompt with
  | inr result =>
      if returncode result =? 0 then Py.strip (stdout result)
      else "Error: " +:+ stderr result
  | inl e =>
      match exn_class e with
      | TimeoutExpired => "Error: Request timed out. Try a shorter prompt or faster model."
      | FileNotFoundError => "Error: Ollama not installed. Please install from https://ollama.com"
      | _ => "Error with local model: " +:+ exn_str e
      end
  end.

(** Reading an attribute [__init__] did not set raises. *)
Definition attribute (name : string) (a : option (option string)) : Raises (option string) :=
  match a with
  | Some client => inr client
  | None => inl (mkExn OtherException
                   ("'LLMHandler' object has no attribute '" +:+ name +:+ "'"))
  end.

Definition _generate_groq (sdk : Sdk) (self : t) (prompt : string) (max_tokens : Z)
    : Raises string :=
  match attribute "groq_client" (groq_client self) with
  | inr client => groq_create sdk client (model self) prompt max_tokens
  | inl e => inl e
  end.

Definition _generate_openai (sdk : Sdk) (self : t) (prompt : string) (max_tokens : Z)
    : Raises string :=
  match attribute "openai_client" (openai_client self) with
  | inr client => openai_create sdk client (model self) prompt max_tokens
  | inl e => inl e
  end.

(** [generate]: [None] is Python's [None], the value of a call that
    ends without a [return]. *)
Definition generate (sdk : Sdk) (self : t) (prompt context : string) (max_tokens : Z)
    : option string :=
  let full_prompt :=
    match context with
    | EmptyString => prompt
    | _ => context +:+ PyStr.NL +:+ PyStr.NL +:+ prompt
    end in
  let body : Raises (option string) :=
    if String.eqb (mode self) "local" then
      inr (Some (_generate_local sdk self full_prompt))
    else if String.eqb (mode self) "groq" then
      match _generate_groq sdk self full_prompt max_tokens with
      | inr answer => inr (Some answer)
      | inl e => inl e
      end
    else if String.eqb (mode self) "openai" then
      match _generate_openai sdk self full_prompt max_tokens with
      | inr answer => inr (Some answer)
      | inl e => inl e
      end
    else inr None in
  match body with
  | inr r => r
  | inl e => Some ("Error generating response: " +:+ exn_str e)
  end.

End LLMHandler.


(** ** Remaining helpers and views of [src/app.py] *)

(** [validate_api_keys] (lines 42-61): the keys it lists as missing
    (what it prints) and the value it returns. *)
Definition validate_api_keys (environ : gmap string string) : list string * bool :=
  let missing_keys :=
    (if negb (Py.truthy (API_KEYS environ "serper")) then ["SERPER_API_KEY"] else [])
    ++ (if negb (Py.truthy (API_KEYS environ "groq")) then ["GROQ_API_KEY"] else []) in
  match missing_keys with
  | [] => (missing_keys, true)
  | _ => (missing_keys, false)
  end.

(** What [index] (lines 362-376) hands to its template; [search_info]
    is a constant dictionary. *)
Record IndexPage := mkIndexPage {
  ix_model_info : ModelInfo;
  ix_history : list HistoryEntry
}.

Definition index (rt : Runtime) (session : gmap string string) (app : AppState)
    : IndexPage :=
  mkIndexPage (get_model_info (environ rt) (get_current_mode session))
              (Py.slice_to 5 (search_history app)).

(** [history] (lines 441-447): the list and its length. *)
Definition history (app : AppState) : list HistoryEntry * Z :=
  (search_history app, Py.len (search_history app)).

(** [clear_cache] and [clear_history] (lines 449-467). *)
Definition clear_cache (app : AppState) : AppState :=
  mkApp ∅ (search_history app) (rate_limit_tracker app).

Definition clear_history (app : AppState) : AppState :=
  mkApp (search_cache app) [] (rate_limit_tracker app).

(** The body of [stats] (lines 469-482); [available_modes] is the key
    order of the [MODEL_CONFIGS] literal. *)
Record Stats := mkStats {
  cache_size : Z;
  history_size : Z;
  current_mode : string;
  available_modes : list string;
  stats_remaining : Z;
  rate_limit_max : Z
}.

Definition stats (token : string) (now : Z)
    (session : gmap string string) (app : AppState)
    : Stats * gmap string string * AppState :=
  let '(user_id, session) := get_user_id token session in
  let '((_, remaining), tracker) :=
    check_rate_limit now user_id (rate_limit_tracker app) in
  (mkStats (Z.of_nat (size (search_cache app)))
           (Py.len (search_history app))
           (get_current_mode session)
           ["groq"; "openai"; "local"]
           remaining
           RATE_LIMIT_SEARCHES,
   session,
   mkApp (search_cache app) (search_history app) tracker).

(** ** [WebSearch.get_search_stats] ([src/search/web_search.py], lines 89-104) *)

Record SearchStats := mkSearchStats {
  ss_primary : string;
  ss_fallback : string;
  ss_status : string
}.

Definition get_search_stats (self : WebSearch.t) : SearchStats :=
  if Py.truthy (WebSearch.serper_key self)
  then mkSearchStats "Serper API (Google)" "DuckDuckGo" "Active"
  else mkSearchStats "DuckDuckGo" "None" "Active (Free)".

(** ** Vocabulary of the statements *)

(** The three generator functions [generate_answer] can hand the
    request to. *)
Inductive Backend := Groq | OpenAI | Ollama.

Definition run_backend (b : Backend) (environ : gmap string string) (llm : Backends)
    (query : string) (sources : list SourceResult) : string :=
  match b with
  | Groq => generate_answer_groq environ llm query sources
  | OpenAI => generate_answer_openai environ llm query sources
  | Ollama => generate_answer_local environ llm query sources
  end.

(** Every cached result of [search_web] is a non-empty list of at most
    five entries. *)
Definition cache_ok (cache : gmap string (list SourceResult * Z)) : Prop :=
  ∀ key sources timestamp,
    cache !! key = Some (sources, timestamp) → sources ≠ [] ∧ Py.len sources <= 5.


(** * Properties *)

(** ** Python built-ins *)

Example strip_example : Py.strip "   capital of France  " = "capital of France".
Proof. reflexivity. Qed.

Example strip_blank_example : Py.strip "    " = "".
Proof. reflexivity. Qed.

Example utf8_example :
  Py.utf8 160 = [ascii_of_nat 194; ascii_of_nat 160]
  ∧ Py.utf8 12288 = [ascii_of_nat 227; ascii_of_nat 128; ascii_of_nat 128].
Proof. by split. Qed.

(** A no-break space (U+00A0) at either end is white space for
    [strip], as is a text made of an ideographic space (U+3000). *)
Example strip_unicode_example :
  let nbsp := string_of_list_ascii (Py.utf8 160) in
  let ideographic := string_of_list_ascii (Py.utf8 12288) in
  Py.strip (nbsp +:+ "Paris." +:+ nbsp +:+ " ") = "Paris."
  ∧ Py.strip (ideographic +:+ nbsp) = ""
  ∧ Py.all_space (ideographic +:+ nbsp) = true.
Proof. by vm_compute. Qed.

Example slice_to_example : Py.slice_to 2 [1; 2; 3] = [1; 2].
Proof. reflexivity. Qed.

Example slice_to_negative_example : Py.slice_to (-1) [1; 2; 3] = [1; 2].
Proof. reflexivity. Qed.

Example join_example : Py.join ", " ["a"; "b"; "c"] = "a, b, c".
Proof. reflexivity. Qed.

Example replace_example :
  PyStr.replace "-versatile" "" "llama-3.3-70b-versatile" = "llama-3.3-70b".
Proof. reflexivity. Qed.

Lemma slice_to_nonneg {A} (n : Z) (l : list A) :
  0 <= n → Py.slice_to n l = take (Z.to_nat n) l.
Proof.
  intros Hn. unfold Py.slice_to.
  destruct (0 <=? n) eqn:E; [done | lia].
Qed.

Lemma slice_to_length {A} (n : Z) (l : list A) :
  0 <= n → Py.len (Py.slice_to n l) <= n.
Proof.
  intros Hn. rewrite slice_to_nonneg by done.
  unfold Py.len. rewrite length_take. lia.
Qed.

(** *** [str.strip] *)

Section Scan.
Variable chars : list (list ascii).
Hypothesis chars_nonempty : Forall (λ char, char ≠ []) chars.

Lemma strip_prefix_Some (char l r : list ascii) :
  Py.strip_prefix char l = Some r ↔ l = char ++ r.
Proof.
  revert l. induction char as [|c char IH]; intros l; simpl.
  - split; [by intros [= ->] | by intros ->].
  - destruct l as [|d l]; [by split|].
    destruct (Ascii.eqb_spec c d) as [->|Hcd].
    + rewrite IH. split; [by intros -> | by intros [= ->]].
    + split; [done | intros [= -> _]; by destruct Hcd].
Qed.

Lemma drop_char_Some (l r : list ascii) :
  Py.drop_char chars l = Some r → ∃ char, char ∈ chars ∧ l = char ++ r.
Proof.
  clear chars_nonempty. induction chars as [|char rest IH]; simpl; [done|].
  destruct (Py.strip_prefix char l) as [l'|] eqn:E.
  - intros [= ->]. apply strip_prefix_Some in E. exists char. split; [left | done].
  - intros H. destruct (IH H) as (char' & Hin & ->). exists char'. split; [by right | done].
Qed.

Lemma drop_char_is_Some (char r : list ascii) :
  char ∈ chars → is_Some (Py.drop_char chars (char ++ r)).
Proof.
  clear chars_nonempty. induction chars as [|char' rest IH]; simpl.
  - by intros ?%elem_of_nil.
  - intros Hin. destruct (Py.strip_prefix char' (char ++ r)) as [l'|] eqn:E; [by eexists|].
    apply elem_of_cons in Hin as [->|Hin]; [|by apply IH].
    assert (Py.strip_prefix char' (char' ++ r) = Some r) as H by by apply strip_prefix_Some.
    rewrite H in E. discriminate E.
Qed.

Lemma drop_char_length (l r : list ascii) :
  Py.drop_char chars l = Some r → (length r < length l)%nat.
Proof.
  intros (char & Hin & ->)%drop_char_Some.
  rewrite Forall_forall in chars_nonempty. specialize (chars_nonempty char Hin).
  rewrite length_app. destruct char; [done | simpl; lia].
Qed.

Lemma drop_char_nil : Py.drop_char chars [] = None.
Proof.
  destruct (Py.drop_char chars []) as [r|] eqn:E; [|done].
  apply drop_char_length in E. simpl in E. lia.
Qed.

(** The length of the text is enough fuel. *)
Lemma lstrip_from_fuel (n m : nat) (l : list ascii) :
  (length l ≤ n)%nat → (length l ≤ m)%nat →
  Py.lstrip_from chars n l = Py.lstrip_from chars m l.
Proof.
  revert m l. induction n as [|n IH]; intros m l Hn Hm.
  - destruct l; [|simpl in Hn; lia]. destruct m; simpl; [done|]. by rewrite drop_char_nil.
  - destruct m as [|m].
    + destruct l; [|simpl in Hm; lia]. simpl. by rewrite drop_char_nil.
    + simpl. destruct (Py.drop_char chars l) as [r|] eqn:E; [|done].
      apply drop_char_length in E. apply IH; lia.
Qed.

(** The scan stops in front of a character that is not in [chars], or
    at the end. *)
Lemma lstrip_from_done (n : nat) (l : list ascii) :
  (length l ≤ n)%nat → Py.drop_char chars (Py.lstrip_from chars n l) = None.
Proof.
  revert l. induction n as [|n IH]; intros l Hn.
  - destruct l; [|simpl in Hn; lia]. simpl. apply drop_char_nil.
  - simpl. destruct (Py.drop_char chars l) as [r|] eqn:E; [|done].
    apply drop_char_length in E. apply IH. lia.
Qed.

Lemma lstrip_from_stable (n : nat) (l : list ascii) :
  Py.drop_char chars l = None → Py.lstrip_from chars n l = l.
Proof. intros H. destruct n; simpl; [done|]. by rewrite H. Qed.

(** What the scan returns is the end of the text. *)
Lemma lstrip_from_suffix (n : nat) (l : list ascii) :
  ∃ dropped, l = dropped ++ Py.lstrip_from chars n l.
Proof.
  clear chars_nonempty. revert l. induction n as [|n IH]; intros l; simpl.
  - by exists [].
  - destruct (Py.drop_char chars l) as [r|] eqn:E; [|by exists []].
    apply drop_char_Some in E as (char & _ & ->).
    destruct (IH r) as [dropped Hr]. exists (char ++ dropped).
    by rewrite <- app_assoc, <- Hr.
Qed.

Lemma all_from_lstrip (n : nat) (l : list ascii) :
  (length l ≤ n)%nat →
  Py.all_from chars n l = true ↔ Py.lstrip_from chars n l = [].
Proof.
  revert l. induction n as [|n IH]; intros l Hn.
  - destruct l; [by split|simpl in Hn; lia].
  - destruct l as [|c l]; [simpl; by rewrite drop_char_nil|].
    cbn [Py.all_from Py.lstrip_from].
    destruct (Py.drop_char chars (c :: l)) as [r|] eqn:E; [|by split].
    apply drop_char_length in E. apply IH. simpl in *. lia.
Qed.

End Scan.

(** A text that the scan from the right consumes entirely starts with
    a character of [chars]. *)
Lemma rstrip_all_head (chars : list (list ascii)) (n : nat) (x : list ascii) :
  Forall (λ char, char ≠ []) chars →
  (length x ≤ n)%nat →
  Py.lstrip_from (@rev ascii <$> chars) n x = [] →
  x = [] ∨ ∃ char r, char ∈ chars ∧ rev x = char ++ r.
Proof.
  intros Hne.
  assert (Hne' : Forall (λ char, char ≠ []) (@rev ascii <$> chars)).
  { apply Forall_fmap. eapply Forall_impl; [exact Hne|].
    intros char Hc Hr. apply Hc. simpl in Hr. apply (f_equal (@rev ascii)) in Hr.
    by rewrite rev_involutive in Hr. }
  revert x. induction n as [|n IH]; intros x Hn; simpl.
  - intros ->. by left.
  - destruct (Py.drop_char (@rev ascii <$> chars) x) as [rest|] eqn:E; [|intros ->; by left].
    intros Hrest. right.
    pose proof (drop_char_length _ Hne' _ _ E) as Hlen.
    apply drop_char_Some in E as (char' & Hin & ->).
    apply list_elem_of_fmap in Hin as (char & -> & Hin).
    rewrite rev_app_distr, rev_involutive.
    destruct (IH rest ltac:(lia) Hrest) as [->|(char2 & r2 & Hin2 & Hr2)].
    + exists char, []. split; [done|]. by rewrite app_nil_r.
    + exists char2, (r2 ++ char). split; [done|]. by rewrite Hr2, <- app_assoc.
Qed.

Lemma space_chars_nonempty : Forall (λ char, char ≠ []) Py.space_chars.
Proof. vm_compute. repeat (constructor; [done|]). constructor. Qed.

Lemma space_chars_rev_nonempty : Forall (λ char, char ≠ []) (@rev ascii <$> Py.space_chars).
Proof. vm_compute. repeat (constructor; [done|]). constructor. Qed.

Lemma length_list_ascii_of_string (s : string) :
  length (list_ascii_of_string s) = String.length s.
Proof. induction s as [|c s IH]; simpl; [done | by rewrite IH]. Qed.

Lemma all_space_lstrip (s : string) :
  Py.all_space s = true ↔ Py.lstrip_bytes (list_ascii_of_string s) = [].
Proof.
  unfold Py.all_space, Py.lstrip_bytes. rewrite <- length_list_ascii_of_string.
  apply all_from_lstrip; [apply space_chars_nonempty | done].
Qed.

(** After [lstrip] the text does not start with white space. *)
Lemma lstrip_bytes_done (l : list ascii) :
  Py.drop_char Py.space_chars (Py.lstrip_bytes l) = None.
Proof. apply lstrip_from_done; [apply space_chars_nonempty | done]. Qed.

(** [rstrip] keeps a beginning of the text. *)
Lemma rstrip_bytes_prefix (l : list ascii) :
  ∃ dropped, l = Py.rstrip_bytes l ++ dropped.
Proof.
  unfold Py.rstrip_bytes.
  destruct (lstrip_from_suffix (@rev ascii <$> Py.space_chars) (length l) (rev l)) as [d Hd].
  exists (rev d). rewrite <- rev_app_distr, <- Hd. by rewrite rev_involutive.
Qed.

Lemma string_of_list_ascii_nil (l : list ascii) :
  string_of_list_ascii l = "" ↔ l = [].
Proof. destruct l; by split. Qed.

(** The stripped text is empty exactly when the text is white space
    only. *)
Lemma strip_empty_iff s : Py.strip s = "" ↔ Py.all_space s = true.
Proof.
  unfold Py.strip. rewrite string_of_list_ascii_nil, all_space_lstrip.
  set (m := Py.lstrip_bytes (list_ascii_of_string s)).
  split.
  - intros Hr. unfold Py.rstrip_bytes in Hr.
    apply (f_equal (@rev ascii)) in Hr. rewrite rev_involutive in Hr. simpl in Hr.
    destruct (rstrip_all_head Py.space_chars (length m) (rev m) space_chars_nonempty)
      as [Hm|(char & r & Hin & Hm)]; [by rewrite length_rev | exact Hr | |].
    + apply (f_equal (@rev ascii)) in Hm. by rewrite rev_involutive in Hm.
    + rewrite rev_involutive in Hm.
      pose proof (lstrip_bytes_done (list_ascii_of_string s)) as Hdone. fold m in Hdone.
      destruct (drop_char_is_Some Py.space_chars char r Hin) as [x Hx].
      rewrite <- Hm, Hdone in Hx. discriminate Hx.
  - by intros ->.
Qed.

Lemma strip_all_space s : Py.all_space s = true → Py.strip s = "".
Proof. apply strip_empty_iff. Qed.

(** Stripping a stripped text changes nothing. *)
Lemma strip_idemp s : Py.strip (Py.strip s) = Py.strip s.
Proof.
  unfold Py.strip. rewrite list_ascii_of_string_of_list_ascii. f_equal.
  set (m := Py.lstrip_bytes (list_ascii_of_string s)).
  set (r := Py.rstrip_bytes m).
  assert (Hhead : Py.drop_char Py.space_chars r = None).
  { destruct (Py.drop_char Py.space_chars r) as [r'|] eqn:E; [|done].
    apply drop_char_Some in E as (char & Hin & Hr).
    destruct (rstrip_bytes_prefix m) as [d Hm]. fold r in Hm.
    destruct (drop_char_is_Some Py.space_chars char (r' ++ d) Hin) as [x Hx].
    rewrite app_assoc, <- Hr, <- Hm in Hx.
    unfold m in Hx. by rewrite lstrip_bytes_done in Hx. }
  unfold Py.lstrip_bytes at 1. rewrite lstrip_from_stable by done.
  unfold r at 1, Py.rstrip_bytes at 1. fold r.
  assert (Hr : rev r = Py.lstrip_from (@rev ascii <$> Py.space_chars) (length m) (rev m)).
  { unfold r, Py.rstrip_bytes. by rewrite rev_involutive. }
  rewrite lstrip_from_stable.
  - by rewrite rev_involutive.
  - rewrite Hr. apply lstrip_from_done; [apply space_chars_rev_nonempty|].
    by rewrite length_rev.
Qed.

(** ** Rate limiter *)

Lemma tracker_get_insert (user_id : string) (l : list Z) (tracker : gmap string (list Z)) :
  tracker_get user_id (<[user_id := l]> tracker) = l.
Proof. unfold tracker_get. by rewrite lookup_insert_eq. Qed.

Lemma tracker_get_insert_ne (u v : string) (l : list Z) (tracker : gmap string (list Z)) :
  u ≠ v → tracker_get v (<[u := l]> tracker) = tracker_get v tracker.
Proof. intros H. unfold tracker_get. by rewrite lookup_insert_ne. Qed.

Lemma check_rate_limit_tracker now user_id tracker :
  snd (check_rate_limit now user_id tracker)
  = <[user_id := filter (λ ts, now - ts < RATE_LIMIT_WINDOW) (tracker_get user_id tracker)]> tracker.
Proof. unfold check_rate_limit. by case (_ >=? _). Qed.

Lemma check_rate_limit_verdict now user_id tracker :
  let kept := filter (λ ts, now - ts < RATE_LIMIT_WINDOW) (tracker_get user_id tracker) in
  fst (check_rate_limit now user_id tracker)
  = (Py.len kept <? RATE_LIMIT_SEARCHES, Z.max 0 (RATE_LIMIT_SEARCHES - Py.len kept)).
Proof.
  intros kept. unfold check_rate_limit. fold kept.
  destruct (Py.len kept >=? RATE_LIMIT_SEARCHES) eqn:E; simpl.
  - apply Z.geb_le in E.
    replace (Py.len kept <? RATE_LIMIT_SEARCHES) with false
      by (symmetry; apply Z.ltb_ge; lia).
    f_equal. lia.
  - rewrite Z.geb_leb in E. apply Z.leb_gt in E.
    replace (Py.len kept <? RATE_LIMIT_SEARCHES) with true
      by (symmetry; apply Z.ltb_lt; lia).
    f_equal. lia.
Qed.

Lemma record_all_get times user_id tracker :
  tracker_get user_id (record_all times user_id tracker)
  = tracker_get user_id tracker ++ times.
Proof.
  revert tracker. induction times as [|t times IH]; intros tracker; simpl.
  - by rewrite app_nil_r.
  - unfold record_all in *. simpl. rewrite IH.
    unfold record_search. rewrite tracker_get_insert.
    by rewrite <- app_assoc.
Qed.

Lemma filter_all {A} (P : A → Prop) `{∀ x, Decision (P x)} (l : list A) :
  Forall P l → filter P l = l.
Proof.
  induction 1 as [|x l Hx Hl IH]; [done|].
  rewrite filter_cons_True by done. by rewrite IH.
Qed.

Lemma filter_none {A} (P : A → Prop) `{∀ x, Decision (P x)} (l : list A) :
  Forall (λ x, ¬ P x) l → filter P l = [].
Proof.
  induction 1 as [|x l Hx Hl IH]; [done|].
  by rewrite filter_cons_False.
Qed.

(** C3. [check_rate_limit] first prunes the record of the identity to
    the timestamps [ts] with [now - ts < RATE_LIMIT_WINDOW], so every
    timestamp older than [now - RATE_LIMIT_WINDOW] is gone; it allows the
    request exactly when fewer than [RATE_LIMIT_SEARCHES] timestamps
    survive, and reports [max(0, limit - surviving)] as remaining.  After
    [RATE_LIMIT_SEARCHES] requests recorded within the window the check
    refuses; once the window has passed for every timestamp of the
    record it allows again, with the full quota. *)
Theorem check_rate_limit_sliding_window
    (now : Z) (user_id : string) (tracker : gmap string (list Z)) :
  let old := tracker_get user_id tracker in
  let result := check_rate_limit now user_id tracker in
  let kept := tracker_get user_id (snd result) in
  let allowed := fst (fst result) in
  let remaining := snd (fst result) in
  kept = filter (λ ts, now - ts < RATE_LIMIT_WINDOW) old
  ∧ (∀ ts, ts ∈ kept ↔ ts ∈ old ∧ now - RATE_LIMIT_WINDOW < ts)
  ∧ (∀ ts, ts < now - RATE_LIMIT_WINDOW → ts ∉ kept)
  ∧ (allowed = true ↔ Py.len kept < RATE_LIMIT_SEARCHES)
  ∧ remaining = Z.max 0 (RATE_LIMIT_SEARCHES - Py.len kept)
  ∧ (∀ times,
       Py.len times = RATE_LIMIT_SEARCHES →
       Forall (λ ts, now - ts < RATE_LIMIT_WINDOW) times →
       fst (check_rate_limit now user_id (record_all times user_id tracker)) = (false, 0))
  ∧ (Forall (λ ts, RATE_LIMIT_WINDOW <= now - ts) old →
       allowed = true ∧ remaining = RATE_LIMIT_SEARCHES ∧ kept = [])
  ∧ (∀ times later,
       Py.len times = RATE_LIMIT_SEARCHES →
       Forall (λ ts, now - ts < RATE_LIMIT_WINDOW) times →
       Forall (λ ts, RATE_LIMIT_WINDOW <= later - ts) (old ++ times) →
       let denied := check_rate_limit now user_id (record_all times user_id tracker) in
       fst denied = (false, 0)
       ∧ fst (check_rate_limit later user_id (snd denied)) = (true, RATE_LIMIT_SEARCHES)).
Proof.
  intros old result kept allowed remaining.
  assert (Hkept : kept = filter (λ ts, now - ts < RATE_LIMIT_WINDOW) old).
  { unfold kept, result. by rewrite check_rate_limit_tracker, tracker_get_insert. }
  assert (Hres : fst result
                 = (Py.len kept <? RATE_LIMIT_SEARCHES,
                    Z.max 0 (RATE_LIMIT_SEARCHES - Py.len kept))).
  { unfold result. rewrite check_rate_limit_verdict. by rewrite Hkept. }
  assert (Hfull : ∀ times t,
             Py.len times = RATE_LIMIT_SEARCHES →
             Forall (λ ts, t - ts < RATE_LIMIT_WINDOW) times →
             fst (check_rate_limit t user_id (record_all times user_id tracker)) = (false, 0)).
  { intros times t Hlen Hin. rewrite check_rate_limit_verdict. cbv zeta.
    rewrite record_all_get, filter_app, (filter_all _ times) by done.
    set (n := Py.len (filter _ (tracker_get user_id tracker) ++ times)).
    assert (RATE_LIMIT_SEARCHES <= n).
    { unfold n, Py.len in *. rewrite length_app. lia. }
    f_equal; [apply Z.ltb_ge; lia | lia]. }
  assert (Hidle : ∀ t (tr : gmap string (list Z)),
             Forall (λ ts, RATE_LIMIT_WINDOW <= t - ts) (tracker_get user_id tr) →
             filter (λ ts, t - ts < RATE_LIMIT_WINDOW) (tracker_get user_id tr) = []).
  { intros t tr Hall. apply filter_none.
    eapply Forall_impl; [exact Hall|]. simpl. lia. }
  split; [exact Hkept|].
  split.
  { intros ts. rewrite Hkept, list_elem_of_filter. split; intros [? ?]; split; try done; lia. }
  split.
  { intros ts Hts. rewrite Hkept, list_elem_of_filter. lia. }
  split.
  { unfold allowed. rewrite Hres. simpl. apply Z.ltb_lt. }
  split.
  { unfold remaining. by rewrite Hres. }
  split.
  { intros times. apply Hfull. }
  split.
  { intros Hall. pose proof (Hidle now tracker Hall) as Hnil. fold old in Hnil.
    rewrite <- Hkept in Hnil.
    unfold allowed, remaining. rewrite Hres, Hnil. by vm_compute. }
  intros times later Hlen Hin Hlater denied.
  split; [by apply Hfull|].
  rewrite check_rate_limit_verdict. cbv zeta.
  unfold denied. rewrite check_rate_limit_tracker, tracker_get_insert.
  rewrite record_all_get. fold old.
  rewrite filter_none; [by vm_compute|].
  apply Forall_forall. intros ts [_ Hts]%list_elem_of_filter.
  rewrite Forall_forall in Hlater. specialize (Hlater ts Hts). lia.
Qed.

Lemma check_rate_limit_sliding_window_witness :
  fst (check_rate_limit 100 "u" (record_all (replicate 50 10) "u" ∅)) = (false, 0)
  ∧ fst (check_rate_limit 4000 "u"
           (snd (check_rate_limit 100 "u" (record_all (replicate 50 10) "u" ∅))))
    = (true, RATE_LIMIT_SEARCHES).
Proof.
  pose proof (check_rate_limit_sliding_window 100 "u" ∅) as H.
  cbv zeta in H. destruct H as (_ & _ & _ & _ & _ & _ & _ & H).
  apply (H (replicate 50 10) 4000).
  - reflexivity.
  - apply Forall_replicate. vm_compute. reflexivity.
  - apply Forall_replicate. vm_compute. discriminate.
Defined.

(** ** History *)

Lemma take_app_take {A} (l k : list A) (n m : nat) :
  (n ≤ m)%nat → take n (l ++ take m k) = take n (l ++ k).
Proof.
  revert n. induction l as [|x l IH]; intros n Hnm; simpl.
  - rewrite take_take. f_equal. lia.
  - destruct n as [|n]; [done|]. simpl. f_equal. apply IH. lia.
Qed.

Lemma add_to_history_entry (cap : Z) (e : HistoryEntry) (h : list HistoryEntry) :
  add_to_history cap (h_query e) (h_mode e) (h_timestamp e) h = Py.slice_to cap (e :: h).
Proof. by destruct e. Qed.

Lemma add_all_snoc (cap : Z) (entries : list HistoryEntry) (e : HistoryEntry)
    (h : list HistoryEntry) :
  add_all cap (entries ++ [e]) h = Py.slice_to cap (e :: add_all cap entries h).
Proof. unfold add_all. by rewrite foldl_snoc, add_to_history_entry. Qed.

Lemma add_all_take (cap : Z) (entries h : list HistoryEntry) :
  0 <= cap → entries ≠ [] →
  add_all cap entries h = take (Z.to_nat cap) (reverse entries ++ h).
Proof.
  intros Hcap. induction entries as [|e entries IH] using rev_ind; [done|].
  intros _. rewrite add_all_snoc, slice_to_nonneg, reverse_snoc by done.
  destruct entries as [|e0 entries]; [done|].
  rewrite IH by done.
  change (e :: take ?n ?l) with ([e] ++ take n l).
  by rewrite take_app_take.
Qed.

(** C5. With a non-negative cap [MAX_HISTORY], every insertion leaves
    at most [MAX_HISTORY] entries: the new entry first, then the former
    entries in their order, cut at the cap.  A run of insertions leaves
    the entries inserted last, the newest first.  After
    [MAX_HISTORY + 5] insertions into an empty history exactly
    [MAX_HISTORY] entries remain, all but the first five inserted, and
    whatever is inserted later, the first five never come back. *)
Theorem add_to_history_cap (MAX_HISTORY : Z) (Hcap : 0 <= MAX_HISTORY) :
  (∀ query mode now h,
     let h' := add_to_history MAX_HISTORY query mode now h in
     Py.len h' <= MAX_HISTORY
     ∧ h' = take (Z.to_nat MAX_HISTORY) (mkHistory query mode now :: h))
  ∧ (∀ entries h,
       Py.len (add_all MAX_HISTORY entries h) <= Z.max MAX_HISTORY (Py.len h))
  ∧ (∀ entries,
       add_all MAX_HISTORY entries [] = take (Z.to_nat MAX_HISTORY) (reverse entries)
       ∧ Py.len (add_all MAX_HISTORY entries []) <= MAX_HISTORY)
  ∧ (∀ entries,
       Py.len entries = MAX_HISTORY + 5 →
       add_all MAX_HISTORY entries [] = reverse (drop 5 entries)
       ∧ Py.len (add_all MAX_HISTORY entries []) = MAX_HISTORY
       ∧ ∀ more,
           add_all MAX_HISTORY (entries ++ more) []
           = add_all MAX_HISTORY (drop 5 entries ++ more) []).
Proof.
  assert (Hone : ∀ query mode now h,
             add_to_history MAX_HISTORY query mode now h
             = take (Z.to_nat MAX_HISTORY) (mkHistory query mode now :: h)).
  { intros. unfold add_to_history. by rewrite slice_to_nonneg. }
  assert (Hrun : ∀ entries,
             add_all MAX_HISTORY entries [] = take (Z.to_nat MAX_HISTORY) (reverse entries)).
  { intros [|e entries].
    - by destruct (Z.to_nat MAX_HISTORY).
    - rewrite add_all_take by done. by rewrite app_nil_r. }
  split.
  { intros query mode now h h'. split; [|apply Hone].
    unfold h', add_to_history. by apply slice_to_length. }
  split.
  { intros entries h. destruct entries as [|e entries].
    - unfold add_all. simpl. lia.
    - rewrite add_all_take by done. unfold Py.len. rewrite length_take. lia. }
  split.
  { intros entries. split; [apply Hrun|].
    rewrite Hrun. unfold Py.len. rewrite length_take. lia. }
  intros entries Hlen. unfold Py.len in Hlen.
  assert (Hdrop : take (Z.to_nat MAX_HISTORY) (reverse entries) = reverse (drop 5 entries)).
  { rewrite reverse_drop. f_equal. lia. }
  split; [by rewrite Hrun|].
  split.
  { rewrite Hrun, Hdrop. unfold Py.len. rewrite length_reverse, length_drop. lia. }
  intros more. rewrite !Hrun, !reverse_app.
  rewrite <- (take_app_take (reverse more) (reverse entries) _ (Z.to_nat MAX_HISTORY)) by lia.
  by rewrite Hdrop.
Qed.

Lemma add_to_history_cap_witness :
  let entries := (λ n, mkHistory (pretty n) "groq" "2024-01-01 00:00:00") <$> seq 0 15 in
  0 <= 10
  ∧ add_all 10 entries [] = reverse (drop 5 entries)
  ∧ Py.len (add_all 10 entries []) = 10.
Proof.
  intros entries. split; [lia|].
  destruct (add_to_history_cap 10 ltac:(lia)) as (_ & _ & _ & H).
  destruct (H entries) as (H1 & H2 & _); [reflexivity|].
  split; [exact H1 | exact H2].
Defined.

(** ** Dispatch of the answer generator *)

Lemma MODEL_CONFIGS_lookup (environ : gmap string string) (mode : string) :
  MODEL_CONFIGS environ !! mode
  = if decide (mode = "groq") then Some (groq_config environ)
    else if decide (mode = "openai") then Some (openai_config environ)
    else if decide (mode = "local") then Some (local_config environ)
    else None.
Proof.
  unfold MODEL_CONFIGS.
  destruct (decide (mode = "groq")) as [->|Hg]; [apply lookup_insert_eq|].
  rewrite lookup_insert_ne by done.
  destruct (decide (mode = "openai")) as [->|Ho]; [apply lookup_insert_eq|].
  rewrite lookup_insert_ne by done.
  destruct (decide (mode = "local")) as [->|Hl]; [apply lookup_insert_eq|].
  by rewrite lookup_insert_ne.
Qed.

Lemma MODEL_CONFIGS_None (environ : gmap string string) (mode : string) :
  MODEL_CONFIGS environ !! mode = None
  ↔ mode ≠ "groq" ∧ mode ≠ "openai" ∧ mode ≠ "local".
Proof.
  rewrite MODEL_CONFIGS_lookup.
  destruct (decide (mode = "groq")); [split; [done | tauto]|].
  destruct (decide (mode = "openai")); [split; [done | tauto]|].
  destruct (decide (mode = "local")); [split; [done | tauto]|].
  tauto.
Qed.

Lemma generate_answer_run (mode : string) environ llm query sources :
  generate_answer environ llm query sources mode
  = run_backend
      (if String.eqb mode "openai" then OpenAI
       else if String.eqb mode "local" then Ollama else Groq)
      environ llm query sources.
Proof.
  unfold generate_answer.
  by destruct (String.eqb mode "openai"), (String.eqb mode "local").
Qed.

(** The three generators can be told apart: with both keys configured
    and services that answer with their own name, their answers
    differ. *)
Lemma run_backend_inj (b b' : Backend) :
  (∀ environ llm query sources,
     run_backend b environ llm query sources = run_backend b' environ llm query sources) →
  b = b'.
Proof.
  intros H.
  specialize (H (<["GROQ_API_KEY" := "k"]> (<["OPENAI_API_KEY" := "k"]> ∅))
                (mkBackends (λ _ _ _, inr "groq") (λ _ _ _, inr "openai")
                            (λ _ _, inr (mkOllama 200 (inr (Some "local")))))
                "" []).
  destruct b, b'; try reflexivity; vm_compute in H; discriminate H.
Qed.

(** C7. For every mode exactly one of the three generators answers
    the request, whatever the environment, the services, the query and
    the sources: ['openai'] selects [generate_answer_openai], ['local']
    selects [generate_answer_local], every other value selects
    [generate_answer_groq]; in particular every value that is not a key
    of [MODEL_CONFIGS] goes to [generate_answer_groq]. *)
Theorem generate_answer_dispatch (mode : string) :
  ∃ b : Backend,
    ((mode = "openai" ∧ b = OpenAI)
     ∨ (mode = "local" ∧ b = Ollama)
     ∨ (mode ≠ "openai" ∧ mode ≠ "local" ∧ b = Groq))
    ∧ (∀ environ llm query sources,
         generate_answer environ llm query sources mode
         = run_backend b environ llm query sources)
    ∧ (∀ b',
         (∀ environ llm query sources,
            generate_answer environ llm query sources mode
            = run_backend b' environ llm query sources) →
         b' = b)
    ∧ (∀ environ, MODEL_CONFIGS environ !! mode = None → b = Groq).
Proof.
  exists (if String.eqb mode "openai" then OpenAI
          else if String.eqb mode "local" then Ollama else Groq).
  split.
  { destruct (String.eqb_spec mode "openai") as [->|Ho]; [by left|].
    destruct (String.eqb_spec mode "local") as [->|Hl]; [by right; left|].
    by right; right. }
  split; [intros; apply generate_answer_run|].
  split.
  { intros b' Hb'. apply run_backend_inj. intros.
    by rewrite <- Hb', generate_answer_run. }
  intros environ (_ & Ho & Hl)%MODEL_CONFIGS_None.
  destruct (String.eqb_spec mode "openai"); [done|].
  by destruct (String.eqb_spec mode "local").
Qed.

Lemma generate_answer_dispatch_witness :
  generate_answer ∅ (mkBackends (λ _ _ _, inr "g") (λ _ _ _, inr "o")
                                 (λ _ _, inl (mkExn ConnectionError "refused")))
                  "q" [] "mistral"
  = generate_answer_groq ∅ (mkBackends (λ _ _ _, inr "g") (λ _ _ _, inr "o")
                                        (λ _ _, inl (mkExn ConnectionError "refused")))
                         "q" [].
Proof.
  destruct (generate_answer_dispatch "mistral") as (b & _ & Hrun & _ & Hnone).
  rewrite Hrun, (Hnone ∅); [reflexivity|].
  apply MODEL_CONFIGS_None. repeat split; discriminate.
Defined.

(** ** [LLMHandler] *)

(** C10. An [LLMHandler] whose mode is none of ['local'], ['groq'],
    ['openai'] returns [None] from [generate], for every prompt,
    context and token limit: no answer and no error string.  The
    constructor accepts such a mode: it builds no client and selects
    the model as it does for ['local']. *)
Theorem generate_unknown_mode (sdk : LLMHandler.Sdk) :
  (∀ self prompt context max_tokens,
     LLMHandler.mode self ≠ "local" →
     LLMHandler.mode self ≠ "groq" →
     LLMHandler.mode self ≠ "openai" →
     LLMHandler.generate sdk self prompt context max_tokens = None)
  ∧ (∀ environ : gmap string string,
       let mode := getenv environ "LLM_MODE" "local" in
       mode ≠ "local" → mode ≠ "groq" → mode ≠ "openai" →
       ∃ self,
         LLMHandler.__init__ sdk environ = inr self
         ∧ LLMHandler.mode self = mode
         ∧ LLMHandler.model self = getenv environ "LOCAL_MODEL" "llama3.2:3b"
         ∧ LLMHandler.groq_client self = None
         ∧ LLMHandler.openai_client self = None
         ∧ ∀ prompt context max_tokens,
             LLMHandler.generate sdk self prompt context max_tokens = None).
Proof.
  assert (Hgen : ∀ self prompt context max_tokens,
             LLMHandler.mode self ≠ "local" →
             LLMHandler.mode self ≠ "groq" →
             LLMHandler.mode self ≠ "openai" →
             LLMHandler.generate sdk self prompt context max_tokens = None).
  { intros self prompt context max_tokens Hl Hg Ho. unfold LLMHandler.generate.
    destruct (String.eqb_spec (LLMHandler.mode self) "local"); [done|].
    destruct (String.eqb_spec (LLMHandler.mode self) "groq"); [done|].
    by destruct (String.eqb_spec (LLMHandler.mode self) "openai"). }
  split; [exact Hgen|].
  intros environ mode Hl Hg Ho.
  eexists. unfold LLMHandler.__init__. fold mode.
  destruct (String.eqb_spec mode "groq"); [done|].
  destruct (String.eqb_spec mode "openai"); [done|].
  repeat split. intros. by apply Hgen.
Qed.

Lemma generate_unknown_mode_witness :
  let sdk := LLMHandler.mkSdk (λ key, inr key) (λ key, inr key)
               (λ _ _ _ _, inr "answer") (λ _ _ _ _, inr "answer")
               (λ _ _, inr (LLMHandler.mkCompleted 0 "answer" "")) in
  LLMHandler.__init__ sdk {[ "LLM_MODE" := "ollama" ]}
  = inr (LLMHandler.mk "ollama" "llama3.2:3b" None None)
  ∧ LLMHandler.generate sdk (LLMHandler.mk "ollama" "llama3.2:3b" None None)
      "What is Rocq?" "" 500 = None.
Proof.
  intros sdk. split; [reflexivity|].
  apply (proj1 (generate_unknown_mode sdk)); discriminate.
Defined.

(** ** [WebSearch]: fallback *)

Lemma _search_serper_run net self query max_results log :
  ∃ r, WebSearch._search_serper net self query max_results log
       = (r, log ++ [WebSearch.Serper])
     ∧ (∀ e, WebSearch.serper_post net query max_results = inl e → r = inl e)
     ∧ (∀ data, WebSearch.serper_post net query max_results = inr data →
                ∃ results, r = inr results).
Proof.
  unfold WebSearch._search_serper, WebSearch.bind, WebSearch.call, WebSearch.ret.
  destruct (WebSearch.serper_post net query max_results) as [e|data];
    eexists; (split; [reflexivity|]); split; intros ? [=]; subst; eauto.
Qed.

Lemma _search_duckduckgo_run net self query max_results log :
  WebSearch._search_duckduckgo net self query max_results log
  = (inr match WebSearch.ddgs_text net query max_results with
         | inr hits =>
             match WebSearch.hit_results hits with
             | inr results => results
             | inl _ => []
             end
         | inl _ => []
         end,
     log ++ [WebSearch.DuckDuckGo]).
Proof.
  unfold WebSearch._search_duckduckgo, WebSearch.try_except, WebSearch.bind,
    WebSearch.call, WebSearch.ret.
  destruct (WebSearch.ddgs_text net query max_results) as [e|hits]; [done|].
  by destruct (WebSearch.hit_results hits).
Qed.

Lemma search_run net self query max_results log :
  WebSearch.search net self query max_results log
  = if Py.truthy (WebSearch.serper_key self) then
      match WebSearch._search_serper net self query max_results log with
      | (inr (r :: results), log') => (inr (r :: results), log')
      | (_, log') => WebSearch._search_duckduckgo net self query max_results log'
      end
    else WebSearch._search_duckduckgo net self query max_results log.
Proof.
  unfold WebSearch.search, WebSearch.bind, WebSearch.try_except, WebSearch.ret.
  destruct (Py.truthy (WebSearch.serper_key self)); [|done].
  destruct (WebSearch._search_serper net self query max_results log)
    as [[e|[|r results]] log']; done.
Qed.

(** C2. [WebSearch.search] never raises: for every query it returns a
    list.  With a Serper key configured the Serper call is made first;
    a non-empty Serper result is returned as it is; when the Serper
    call raises (time-out, non-2xx status, network error or anything
    else) or gives no result, DuckDuckGo is called next and its result
    is returned.  Without a key DuckDuckGo is the only call.  When the
    DuckDuckGo call raises, or one of its hits lacks a field, the result
    is the empty list.

    [search_web] of [src/app.py] is another matter.  It has one
    provider and no fallback: without a key, on a time-out and on any
    other [requests] exception (non-2xx status, network error) it
    returns a single entry tagged ["Error"]; when the provider finds
    nothing it returns the single placeholder ["No Results Found"]; an
    exception that is not a [requests] exception propagates to the
    caller, and that is the only way [search_web] raises. *)
Theorem search_never_raises (net : WebSearch.Providers) (self : WebSearch.t)
    (query : string) (max_results : Z) (log : list WebSearch.Provider)
    (serper_key : option string) (post : string → Z → Raises SerperData) :
  let primary := fst (WebSearch._search_serper net self query max_results log) in
  let secondary := fst (WebSearch._search_duckduckgo net self query max_results []) in
  let out := WebSearch.search net self query max_results log in
  let web := search_web serper_key post query in
  (∃ results, fst out = inr results)
  ∧ (∃ results, secondary = inr results)
  ∧ (Py.truthy (WebSearch.serper_key self) = true →
       (∃ rest, snd out = log ++ WebSearch.Serper :: rest)
       ∧ (∀ r results, primary = inr (r :: results) →
            out = (inr (r :: results), log ++ [WebSearch.Serper]))
       ∧ (∀ e, WebSearch.serper_post net query max_results = inl e →
            primary = inl e
            ∧ out = (secondary, log ++ [WebSearch.Serper; WebSearch.DuckDuckGo]))
       ∧ (primary = inr [] →
            out = (secondary, log ++ [WebSearch.Serper; WebSearch.DuckDuckGo])))
  ∧ (Py.truthy (WebSearch.serper_key self) = false →
       out = (secondary, log ++ [WebSearch.DuckDuckGo]))
  ∧ (∀ e, WebSearch.ddgs_text net query max_results = inl e → secondary = inr [])
  ∧ (∀ hits e,
       WebSearch.ddgs_text net query max_results = inr hits →
       WebSearch.hit_results hits = inl e →
       secondary = inr [])
  ∧ (Py.truthy serper_key = false → web = inr [api_key_not_configured])
  ∧ (Py.truthy serper_key = true →
       (∀ e, post query 5 = inl e →
          (is_Timeout e = true → web = inr [search_timeout])
          ∧ (is_Timeout e = false → is_RequestException e = true →
               web = inr [search_error e])
          ∧ (is_Timeout e = false → is_RequestException e = false → web = inl e))
       ∧ (∀ data, post query 5 = inr data →
            default [] (organic data) = [] → web = inr [no_results_found]))
  ∧ (∀ e, web = inl e →
       Py.truthy serper_key = true ∧ post query 5 = inl e
       ∧ is_RequestException e = false)
  ∧ source api_key_not_configured = "Error"
  ∧ source search_timeout = "Error"
  ∧ (∀ e, source (search_error e) = "Error").
Proof.
  intros primary secondary out web.
  destruct (_search_serper_run net self query max_results log) as (r & Hs & Hfail & _).
  assert (Hp : primary = r) by (unfold primary; by rewrite Hs).
  assert (Hout : out = if Py.truthy (WebSearch.serper_key self) then
                         match r with
                         | inr (x :: results) => (inr (x :: results), log ++ [WebSearch.Serper])
                         | _ => (secondary, log ++ [WebSearch.Serper; WebSearch.DuckDuckGo])
                         end
                       else (secondary, log ++ [WebSearch.DuckDuckGo])).
  { unfold out, secondary. rewrite search_run, Hs, !_search_duckduckgo_run. simpl.
    rewrite <- app_assoc. simpl.
    destruct (Py.truthy _); [|done]. by destruct r as [e|[|x results]]. }
  assert (Hsec : ∃ results, secondary = inr results).
  { unfold secondary. rewrite _search_duckduckgo_run. eauto. }
  split.
  { rewrite Hout. destruct Hsec as [l ->].
    destruct (Py.truthy _); [|eauto].
    destruct r as [e|[|x results]]; simpl; eauto. }
  split; [exact Hsec|].
  split.
  { intros Hkey. rewrite Hout, Hkey, Hp. split.
    { destruct r as [e|[|x results]]; simpl; eauto. }
    split.
    { by intros x results ->. }
    split.
    { intros e He. by rewrite (Hfail e He). }
    by intros ->. }
  split.
  { intros Hkey. by rewrite Hout, Hkey. }
  split.
  { intros e He. unfold secondary. by rewrite _search_duckduckgo_run, He. }
  split.
  { intros hits e Hhits He. unfold secondary.
    by rewrite _search_duckduckgo_run, Hhits, He. }
  split.
  { intros Hkey. unfold web, search_web. by rewrite Hkey. }
  split.
  { intros Hkey. split.
    - intros e He. unfold web, search_web. rewrite Hkey, He. simpl.
      split; [by intros ->|]. split; [by intros -> ->|by intros -> ->].
    - intros data Hdata Hnone. unfold web, search_web.
      by rewrite Hkey, Hdata, Hnone. }
  split.
  { intros e. unfold web, search_web.
    destruct (Py.truthy serper_key); simpl; [|done].
    destruct (post query 5) as [e'|data].
    - destruct (is_Timeout e'); [done|].
      destruct (is_RequestException e') eqn:E; [done|]. by intros [= <-].
    - by destruct (organic_source <$> _). }
  by repeat split.
Qed.

Lemma search_never_raises_witness :
  let net := WebSearch.mkProviders
               (λ _ _, inl (mkExn HTTPError "500 Server Error"))
               (λ _ _, inl (mkExn OtherException "rate limited")) in
  let post : string → Z → Raises SerperData :=
    λ _ _, inl (mkExn HTTPError "500 Server Error") in
  WebSearch.search net (WebSearch.mk (Some "key")) "capital of France" 5 []
  = (inr [], [WebSearch.Serper; WebSearch.DuckDuckGo])
  ∧ search_web (Some "key") post "capital of France"
    = inr [mkSource "Search Error" "Unable to perform search: 500 Server Error" "#" "Error"].
Proof.
  intros net post.
  pose proof (search_never_raises net (WebSearch.mk (Some "key"))
                "capital of France" 5 [] (Some "key") post) as H.
  cbv zeta in H.
  destruct H as (_ & _ & Hkey & _ & Hddg & _ & _ & Hweb & _).
  split.
  - destruct (Hkey eq_refl) as (_ & _ & Hfail & _).
    destruct (Hfail _ eq_refl) as [_ ->].
    by rewrite (Hddg _ eq_refl).
  - destruct (Hweb eq_refl) as [Hraise _].
    destruct (Hraise _ eq_refl) as (_ & Herror & _).
    by rewrite (Herror eq_refl eq_refl).
Defined.

(** Against C2 as stated: [search_web] has no secondary provider.  A
    non-2xx answer of Serper gives a diagnostic entry, not the result
    of a fallback and not the empty list; and an exception that is not
    a [requests] exception (here the [AttributeError] of [results.get]
    when the body Serper sent is a JSON array) matches no [except]
    clause and escapes [search_web]. *)
Lemma search_web_no_fallback :
  let failing : string → Z → Raises SerperData :=
    λ _ _, inl (mkExn HTTPError "500 Server Error") in
  let malformed : string → Z → Raises SerperData :=
    λ _ _, inl (mkExn OtherException "'list' object has no attribute 'get'") in
  search_web (Some "key") failing "capital of France"
  = inr [mkSource "Search Error" "Unable to perform search: 500 Server Error" "#" "Error"]
  ∧ search_web (Some "key") failing "capital of France" ≠ inr []
  ∧ search_web (Some "key") malformed "capital of France"
    = inl (mkExn OtherException "'list' object has no attribute 'get'")
  ∧ ¬ (∃ results, search_web (Some "key") malformed "capital of France" = inr results).
Proof.
  intros failing malformed.
  split; [reflexivity|]. split; [done|]. split; [reflexivity|].
  by intros [results H].
Qed.

(** ** Prompt construction *)

Lemma filter_idemp {A} (P : A → Prop) `{∀ x, Decision (P x)} (l : list A) :
  filter P (filter P l) = filter P l.
Proof.
  apply filter_all, Forall_forall. by intros x [? _]%list_elem_of_filter.
Qed.

Lemma build_context_filter (sources sources' : list SourceResult) :
  filter (λ s, source s ≠ "Error") sources' = filter (λ s, source s ≠ "Error") sources →
  build_context sources' = build_context sources.
Proof. unfold build_context. by intros ->. Qed.

Lemma run_backend_context (b : Backend) environ llm query (sources sources' : list SourceResult) :
  build_context sources' = build_context sources →
  run_backend b environ llm query sources' = run_backend b environ llm query sources.
Proof.
  intros Hc. destruct b; simpl;
    unfold generate_answer_groq, generate_answer_openai, generate_answer_local,
      hosted_prompt, local_prompt; by rewrite Hc.
Qed.

(** C8. For every source list the context the generators put in
    their prompt is the [**title**: snippet] renderings of the sources
    whose tag is not ["Error"], in their order, joined by two line
    feeds; the prompt of the hosted generators and the prompt of the
    local generator are their fixed texts around the query and that
    context.  Sources tagged ["Error"] contribute nothing: two source
    lists with the same untagged entries give the same context, the same
    prompts and, for every backend, the same answer.

    Each generator hands exactly that prompt to its service.  With its
    key configured, the Groq generator and the OpenAI generator return
    what the service replies to the hosted prompt; the local generator
    returns the response Ollama gives, with status 200, to the local
    prompt.  What a service would reply to any other prompt plays no
    part in the answer. *)
Theorem prompt_context_skips_errors (query : string) (sources : list SourceResult) :
  let usable := filter (λ s, source s ≠ "Error") sources in
  let context :=
    Py.join (PyStr.NL +:+ PyStr.NL)
      ((λ s, "**" +:+ title s +:+ "**: " +:+ snippet s) <$> usable) in
  let hosted :=
    hosted_prompt_head +:+ query +:+ sources_header +:+ context +:+ hosted_prompt_tail in
  let local :=
    local_prompt_head +:+ query +:+ sources_header +:+ context +:+ local_prompt_tail in
  build_context sources = context
  ∧ hosted_prompt query sources = hosted
  ∧ local_prompt query sources = local
  ∧ Forall (λ s, source s ≠ "Error") usable
  ∧ (∀ sources',
       filter (λ s, source s ≠ "Error") sources' = usable →
       build_context sources' = context
       ∧ hosted_prompt query sources' = hosted_prompt query sources
       ∧ local_prompt query sources' = local_prompt query sources
       ∧ ∀ b environ llm,
           run_backend b environ llm query sources'
           = run_backend b environ llm query sources)
  ∧ (∀ environ llm mode,
       generate_answer environ llm query sources mode
       = generate_answer environ llm query usable mode)
  ∧ (∀ environ llm reply,
       Py.truthy (API_KEYS environ "groq") = true →
       groq_chat llm (default "" (API_KEYS environ "groq")) (config_model environ "groq")
         hosted = inr reply →
       generate_answer_groq environ llm query sources = reply)
  ∧ (∀ environ llm reply,
       Py.truthy (API_KEYS environ "openai") = true →
       openai_chat llm (default "" (API_KEYS environ "openai"))
         (config_model environ "openai") hosted = inr reply →
       generate_answer_openai environ llm query sources = reply)
  ∧ (∀ environ llm reply,
       ollama_generate llm (config_model environ "local") local
       = inr (mkOllama 200 (inr (Some reply))) →
       generate_answer_local environ llm query sources = reply)
  ∧ (∀ environ llm llm',
       groq_chat llm (default "" (API_KEYS environ "groq")) (config_model environ "groq")
         hosted
       = groq_chat llm' (default "" (API_KEYS environ "groq"))
           (config_model environ "groq") hosted →
       generate_answer_groq environ llm query sources
       = generate_answer_groq environ llm' query sources)
  ∧ (∀ environ llm llm',
       openai_chat llm (default "" (API_KEYS environ "openai"))
         (config_model environ "openai") hosted
       = openai_chat llm' (default "" (API_KEYS environ "openai"))
           (config_model environ "openai") hosted →
       generate_answer_openai environ llm query sources
       = generate_answer_openai environ llm' query sources)
  ∧ (∀ environ llm llm',
       ollama_generate llm (config_model environ "local") local
       = ollama_generate llm' (config_model environ "local") local →
       generate_answer_local environ llm query sources
       = generate_answer_local environ llm' query sources).
Proof.
  intros usable context hosted local.
  assert (Hhosted : hosted_prompt query sources = hosted) by reflexivity.
  assert (Hlocal : local_prompt query sources = local) by reflexivity.
  split; [reflexivity|].
  split; [exact Hhosted|].
  split; [exact Hlocal|].
  split.
  { apply Forall_forall. by intros s [? _]%list_elem_of_filter. }
  split.
  { intros sources' Hsame.
    pose proof (build_context_filter sources sources' Hsame) as Hc.
    split; [exact Hc|].
    split; [unfold hosted_prompt; by rewrite Hc|].
    split; [unfold local_prompt; by rewrite Hc|].
    intros b environ llm. by apply run_backend_context. }
  split.
  { intros environ llm mode. rewrite !generate_answer_run.
    symmetry. apply run_backend_context, build_context_filter, filter_idemp. }
  split.
  { intros environ llm reply Hkey Hreply. unfold generate_answer_groq.
    by rewrite Hkey, Hhosted, Hreply. }
  split.
  { intros environ llm reply Hkey Hreply. unfold generate_answer_openai.
    by rewrite Hkey, Hhosted, Hreply. }
  split.
  { intros environ llm reply Hreply. unfold generate_answer_local.
    by rewrite Hlocal, Hreply. }
  split.
  { intros environ llm llm' Hsame. unfold generate_answer_groq.
    by rewrite Hhosted, Hsame. }
  split.
  { intros environ llm llm' Hsame. unfold generate_answer_openai.
    by rewrite Hhosted, Hsame. }
  intros environ llm llm' Hsame. unfold generate_answer_local.
  by rewrite Hlocal, Hsame.
Qed.

Lemma prompt_context_skips_errors_witness :
  let sources :=
    [ mkSource "Paris" "Capital of France" "https://a.example" "Serper";
      mkSource "Search Timeout" "The search request took too long. Please try again."
               "#" "Error";
      mkSource "France" "A country in Europe" "https://b.example" "Serper" ] in
  let context :=
    "**Paris**: Capital of France" +:+ PyStr.NL +:+ PyStr.NL
    +:+ "**France**: A country in Europe" in
  let echo := mkBackends (λ _ _ prompt, inr prompt) (λ _ _ prompt, inr prompt)
                (λ _ prompt, inr (mkOllama 200 (inr (Some prompt)))) in
  let environ : gmap string string := {[ "GROQ_API_KEY" := "gk" ]} in
  build_context sources = context
  ∧ generate_answer_groq environ echo "capital?" sources
    = hosted_prompt_head +:+ "capital?" +:+ sources_header +:+ context
      +:+ hosted_prompt_tail
  ∧ generate_answer_local environ echo "capital?" sources
    = local_prompt_head +:+ "capital?" +:+ sources_header +:+ context
      +:+ local_prompt_tail.
Proof.
  intros sources context echo environ.
  pose proof (prompt_context_skips_errors "capital?"
                [ mkSource "Paris" "Capital of France" "https://a.example" "Serper";
                  mkSource "France" "A country in Europe" "https://b.example" "Serper" ])
    as H.
  cbv zeta in H. destruct H as (_ & _ & _ & _ & Hsame & _).
  destruct (Hsame sources eq_refl) as [Hcontext _].
  pose proof (prompt_context_skips_errors "capital?" sources) as H.
  cbv zeta in H. destruct H as (_ & _ & _ & _ & _ & _ & Hgroq & _ & Hlocal & _).
  split; [exact Hcontext|].
  split.
  - rewrite (Hgroq environ echo _ eq_refl eq_refl). reflexivity.
  - rewrite (Hlocal environ echo _ eq_refl). reflexivity.
Defined.

(** ** Size of the search results *)

Lemma search_web_shape (key : option string) (post : string → Z → Raises SerperData)
    (query : string) :
  match search_web key post query with
  | inr sources => sources ≠ [] ∧ Py.len sources <= 5
  | inl e => Py.truthy key = true ∧ post query 5 = inl e ∧ is_RequestException e = false
  end.
Proof.
  unfold search_web. destruct (Py.truthy key); simpl; [|split; [done | by vm_compute]].
  destruct (post query 5) as [e|results].
  - destruct (is_Timeout e); [split; [done | by vm_compute]|].
    destruct (is_RequestException e) eqn:E; [split; [done | by vm_compute]|done].
  - pose proof (slice_to_length 5 (default [] (organic results)) ltac:(lia)) as Hlen.
    unfold Py.len in *.
    destruct (organic_source <$> Py.slice_to 5 (default [] (organic results)))
      as [|s sources] eqn:E.
    + split; [done | by vm_compute].
    + split; [done|]. rewrite <- E, length_fmap. exact Hlen.
Qed.

Lemma search_web_cached_shape (rt : Runtime) (req : SearchRequest) (query : string)
    (cache : gmap string (list SourceResult * Z)) :
  cache_ok cache →
  match search_web_cached rt req query cache with
  | (inr sources, cache') => sources ≠ [] ∧ Py.len sources <= 5 ∧ cache_ok cache'
  | (inl e, cache') => cache' = cache
  end.
Proof.
  intros Hok. unfold search_web_cached, cache_result, call_and_store.
  set (key := cache_key _ _ _).
  pose proof (search_web_shape (API_KEYS (environ rt) "serper") (serper req) query) as Hnew.
  assert (Hstore :
    match (let '(r, c, _) :=
             match search_web (API_KEYS (environ rt) "serper") (serper req) query with
             | inr result => (inr result, <[key := (result, t_cache_store req)]> cache, tt)
             | inl e => (inl e, cache, tt)
             end in (r, c)) with
    | (inr sources, cache') => sources ≠ [] ∧ Py.len sources <= 5 ∧ cache_ok cache'
    | (inl e, cache') => cache' = cache
    end).
  { destruct (search_web _ _ _) as [e|sources]; [done|].
    destruct Hnew as [Hne Hlen].
    split; [exact Hne|]. split; [exact Hlen|].
    intros k v ts. destruct (decide (key = k)) as [<-|Hk].
    - rewrite lookup_insert_eq. by intros [= <- <-].
    - rewrite lookup_insert_ne by done. apply Hok. }
  destruct (cache !! key) as [[cached_data timestamp]|] eqn:Hc.
  - destruct (t_cache_check req - timestamp <? 3600).
    + simpl. destruct (Hok _ _ _ Hc). done.
    + destruct (search_web _ _ _); exact Hstore.
  - destruct (search_web _ _ _); exact Hstore.
Qed.

Lemma _search_serper_length net self query max_results log results :
  0 <= max_results →
  fst (WebSearch._search_serper net self query max_results log) = inr results →
  Py.len results <= max_results.
Proof.
  intros Hmax. unfold WebSearch._search_serper, WebSearch.bind, WebSearch.call, WebSearch.ret.
  destruct (WebSearch.serper_post net query max_results) as [e|data]; [done|]. simpl.
  set (organic_hits := WebSearch.organic_result <$> _).
  assert (Hlen : Py.len organic_hits <= max_results).
  { unfold organic_hits, Py.len. rewrite length_fmap. by apply slice_to_length. }
  intros [= <-].
  destruct (knowledgeGraph data) as [kg|]; [|done].
  destruct (Py.len organic_hits <? max_results) eqn:E; [|done].
  destruct (kg_description kg); [|done].
  apply Z.ltb_lt in E. unfold Py.len in *. simpl. lia.
Qed.

Lemma hit_results_length hits results :
  WebSearch.hit_results hits = inr results → length results = length hits.
Proof.
  revert results. induction hits as [|r hits IH]; intros results; simpl.
  - by intros [= <-].
  - destruct (WebSearch.hit_result r); [done|].
    destruct (WebSearch.hit_results hits) as [|l]; [done|].
    intros [= <-]. simpl. f_equal. by apply IH.
Qed.

(** C9 as amended.  [search_web] of the application returns, for every
    query, a non-empty list of at most five entries (search hits, or one
    placeholder or diagnostic entry), unless an exception that is not a
    [requests] exception escapes from the HTTP call; under its cache it
    keeps doing so, every cached result being such a list.
    [WebSearch.search] returns at most [max_results] entries when the
    result comes from Serper, and otherwise the hits DuckDuckGo
    returned, one entry per hit, or the empty list. *)
Theorem search_results_size :
  (∀ key post query,
     match search_web key post query with
     | inr sources => sources ≠ [] ∧ Py.len sources <= 5
     | inl e => Py.truthy key = true ∧ post query 5 = inl e ∧ is_RequestException e = false
     end)
  ∧ cache_ok ∅
  ∧ (∀ rt req query cache,
       cache_ok cache →
       match search_web_cached rt req query cache with
       | (inr sources, cache') => sources ≠ [] ∧ Py.len sources <= 5 ∧ cache_ok cache'
       | (inl e, cache') => cache' = cache
       end)
  ∧ (∀ net self query max_results log,
       0 <= max_results →
       ∃ results,
         fst (WebSearch.search net self query max_results log) = inr results
         ∧ ((results ≠ [] ∧ Py.len results <= max_results
             ∧ fst (WebSearch._search_serper net self query max_results log) = inr results)
            ∨ (∃ hits, WebSearch.ddgs_text net query max_results = inr hits
                       ∧ WebSearch.hit_results hits = inr results
                       ∧ length results = length hits)
            ∨ results = [])).
Proof.
  split; [apply search_web_shape|].
  split; [intros key sources ts; by rewrite lookup_empty|].
  split; [apply search_web_cached_shape|].
  intros net self query max_results log Hmax.
  rewrite search_run.
  assert (Hsecond : ∀ log',
    ∃ results,
      fst (WebSearch._search_duckduckgo net self query max_results log') = inr results
      ∧ ((∃ hits, WebSearch.ddgs_text net query max_results = inr hits
                  ∧ WebSearch.hit_results hits = inr results
                  ∧ length results = length hits)
         ∨ results = [])).
  { intros log'. rewrite _search_duckduckgo_run. eexists. split; [reflexivity|].
    destruct (WebSearch.ddgs_text net query max_results) as [e|hits]; [by right|].
    destruct (WebSearch.hit_results hits) as [e|results] eqn:E; [by right|].
    left. exists hits. repeat split; try done. by apply hit_results_length. }
  assert (Hweaken : ∀ log',
    ∃ results,
      fst (WebSearch._search_duckduckgo net self query max_results log') = inr results
      ∧ ((results ≠ [] ∧ Py.len results <= max_results
          ∧ fst (WebSearch._search_serper net self query max_results log) = inr results)
         ∨ (∃ hits, WebSearch.ddgs_text net query max_results = inr hits
                    ∧ WebSearch.hit_results hits = inr results
                    ∧ length results = length hits)
         ∨ results = [])).
  { intros log'. destruct (Hsecond log') as (results & H1 & H2). eauto. }
  destruct (Py.truthy (WebSearch.serper_key self)); [|apply Hweaken].
  pose proof (_search_serper_length net self query max_results log) as Hlen.
  destruct (WebSearch._search_serper net self query max_results log)
    as [[e|[|r results]] log'] eqn:E; [apply Hweaken | apply Hweaken |].
  exists (r :: results). split; [done|]. left.
  split; [done|]. split; [by apply Hlen | done].
Qed.

Lemma search_results_size_witness :
  let net := WebSearch.mkProviders
               (λ _ _, inr (mkSerper (Some [mkOrganic (Some "Paris") None None]) None))
               (λ _ _, inr []) in
  0 <= 5
  ∧ ∃ results,
      fst (WebSearch.search net (WebSearch.mk (Some "key")) "capital of France" 5 [])
      = inr results
      ∧ Py.len results <= 5.
Proof.
  intros net. split; [lia|].
  destruct search_results_size as (_ & _ & _ & H).
  destruct (H net (WebSearch.mk (Some "key")) "capital of France" 5 [] ltac:(lia))
    as (results & Hr & Hcase).
  exists results. split; [exact Hr|].
  destruct Hcase as [(_ & Hlen & _)|[(hits & [= <-] & [= <-] & _)| ->]];
    [exact Hlen | by vm_compute | by vm_compute].
Defined.

(** Against C9 as stated: without a Serper key and with DuckDuckGo
    failing, [WebSearch.search] returns the empty list. *)
Lemma search_returns_empty :
  let net := WebSearch.mkProviders
               (λ _ _, inl (mkExn HTTPError "403 Forbidden"))
               (λ _ _, inl (mkExn OtherException "rate limited")) in
  let out := fst (WebSearch.search net (WebSearch.mk None) "capital of France" 5 []) in
  out = inr []
  ∧ ¬ (∃ results, out = inr results ∧ results ≠ [] ∧ Py.len results <= 5).
Proof.
  intros net out. split; [reflexivity|].
  intros (results & [= <-] & Hne & _). by apply Hne.
Qed.

(** ** Result cache *)

Lemma cache_result_hit {V W : Type} duration key (func : W → Raises V * W)
    t_check t_store (cache : gmap string (V * Z)) w v ts :
  cache !! key = Some (v, ts) → t_check - ts < duration →
  cache_result duration key func t_check t_store cache w = (inr v, cache, w).
Proof.
  intros Hk Hts. unfold cache_result. rewrite Hk.
  by replace (t_check - ts <? duration) with true by (symmetry; apply Z.ltb_lt; lia).
Qed.

Lemma cache_result_expired {V W : Type} duration key (func : W → Raises V * W)
    t_check t_store (cache : gmap string (V * Z)) w v ts :
  cache !! key = Some (v, ts) → duration <= t_check - ts →
  cache_result duration key func t_check t_store cache w
  = call_and_store key func t_store cache w.
Proof.
  intros Hk Hts. unfold cache_result. rewrite Hk.
  by replace (t_check - ts <? duration) with false by (symmetry; apply Z.ltb_ge; lia).
Qed.

Lemma cache_result_miss {V W : Type} duration key (func : W → Raises V * W)
    t_check t_store (cache : gmap string (V * Z)) w :
  cache !! key = None →
  cache_result duration key func t_check t_store cache w
  = call_and_store key func t_store cache w.
Proof. intros Hk. unfold cache_result. by rewrite Hk. Qed.

Lemma call_and_store_counted {V W : Type} key (func : W → Raises V * W)
    t_store (cache : gmap string (V * Z)) n w :
  call_and_store key (counted func) t_store cache (n, w)
  = match func w with
    | (inr result, w') => (inr result, <[key := (result, t_store)]> cache, (S n, w'))
    | (inl e, w') => (inl e, cache, (S n, w'))
    end.
Proof.
  unfold call_and_store, counted. by destruct (func w) as [[e|result] w'].
Qed.

(** C4 as amended.  Two calls for the same key, the second starting
    after the first has returned and less than [duration] after it
    started, invoke [func] at most once.  When the first call finds no
    entry or an expired one, it stores the value [func] returns under
    the key with the clock reading taken after the computation,
    replacing any former entry, and the second call returns that same
    value without invoking [func].  When the first call returns a
    cached entry, the second returns the same value if the entry is
    still valid at its time, and otherwise calls [func] and stores and
    returns what it computes. *)
Theorem cache_result_round_trip {V W : Type} (duration : Z) (key : string)
    (func : W → Raises V * W) (t1 t1' t2 t2' : Z)
    (cache : gmap string (V * Z)) (n : nat) (w : W) :
  t1 <= t1' → t1' <= t2 → t2 - t1 < duration →
  let first := cache_result duration key (counted func) t1 t1' cache (n, w) in
  let second :=
    cache_result duration key (counted func) t2 t2' (snd (fst first)) (snd first) in
  ∀ v1, fst (fst first) = inr v1 →
    (fst (snd second) ≤ S n)%nat
    ∧ ((cache !! key = None ∨ ∃ v ts, cache !! key = Some (v, ts) ∧ duration <= t1 - ts) →
         fst (func w) = inr v1
         ∧ first = (inr v1, <[key := (v1, t1')]> cache, (S n, snd (func w)))
         ∧ second = (inr v1, <[key := (v1, t1')]> cache, (S n, snd (func w))))
    ∧ (∀ v ts, cache !! key = Some (v, ts) → t1 - ts < duration →
         v1 = v
         ∧ first = (inr v, cache, (n, w))
         ∧ (t2 - ts < duration → second = (inr v, cache, (n, w)))
         ∧ (duration <= t2 - ts →
              second = call_and_store key (counted func) t2' cache (n, w)
              ∧ fst (snd second) = S n)).
Proof.
  intros H1 H2 H3 first second v1 Hv1.
  assert (Hcompute :
    (cache !! key = None ∨ ∃ v ts, cache !! key = Some (v, ts) ∧ duration <= t1 - ts) →
    fst (func w) = inr v1
    ∧ first = (inr v1, <[key := (v1, t1')]> cache, (S n, snd (func w)))
    ∧ second = (inr v1, <[key := (v1, t1')]> cache, (S n, snd (func w)))).
  { intros Hcase.
    assert (Hfirst : first = call_and_store key (counted func) t1' cache (n, w)).
    { destruct Hcase as [Hnone|(v & ts & Hsome & Hold)].
      - unfold first. by apply cache_result_miss.
      - unfold first. by eapply cache_result_expired. }
    rewrite call_and_store_counted in Hfirst.
    destruct (func w) as [[e|result] w'] eqn:Hf.
    { rewrite Hfirst in Hv1. discriminate Hv1. }
    rewrite Hfirst in Hv1. injection Hv1 as ->.
    split; [done|]. split; [exact Hfirst|].
    unfold second. rewrite Hfirst. simpl.
    apply cache_result_hit with (ts := t1'); [apply lookup_insert_eq | lia]. }
  assert (Hcached : ∀ v ts, cache !! key = Some (v, ts) → t1 - ts < duration →
    v1 = v
    ∧ first = (inr v, cache, (n, w))
    ∧ (t2 - ts < duration → second = (inr v, cache, (n, w)))
    ∧ (duration <= t2 - ts →
         second = call_and_store key (counted func) t2' cache (n, w)
         ∧ fst (snd second) = S n)).
  { intros v ts Hsome Hvalid.
    assert (Hfirst : first = (inr v, cache, (n, w))).
    { unfold first. by eapply cache_result_hit. }
    split; [rewrite Hfirst in Hv1; by injection Hv1|].
    split; [exact Hfirst|].
    split.
    - intros Hstill. unfold second. rewrite Hfirst. by eapply cache_result_hit.
    - intros Hgone.
      assert (Hsecond : second = call_and_store key (counted func) t2' cache (n, w)).
      { unfold second. rewrite Hfirst. by eapply cache_result_expired. }
      split; [exact Hsecond|].
      rewrite Hsecond, call_and_store_counted.
      by destruct (func w) as [[e|result] w']. }
  split; [|split; [exact Hcompute | exact Hcached]].
  destruct (cache !! key) as [[v ts]|] eqn:Hk.
  - destruct (Z.lt_ge_cases (t1 - ts) duration) as [Hvalid|Hold].
    + destruct (Hcached v ts eq_refl Hvalid) as (_ & _ & Hstill & Hgone).
      destruct (Z.lt_ge_cases (t2 - ts) duration) as [Hv2|Hv2].
      * rewrite (Hstill Hv2). simpl. lia.
      * destruct (Hgone Hv2) as [_ ->]. lia.
    + destruct Hcompute as (_ & _ & ->); [right; eauto|]. simpl. lia.
  - destruct Hcompute as (_ & _ & ->); [by left|]. simpl. lia.
Qed.

Lemma cache_result_round_trip_witness :
  let func := λ w : Z, (inr w, w + 1) : Raises Z * Z in
  let first := cache_result 3600 "search_web:('q',):{}" (counted func) 100 101 ∅ (0%nat, 7) in
  let second :=
    cache_result 3600 "search_web:('q',):{}" (counted func) 200 201
      (snd (fst first)) (snd first) in
  (100 <= 101 ∧ 101 <= 200 ∧ 200 - 100 < 3600)
  ∧ fst (fst first) = inr 7
  ∧ fst (fst second) = inr 7
  ∧ (fst (snd second) ≤ 1)%nat.
Proof.
  intros func first second. split; [lia|].
  assert (Hv : fst (fst first) = inr 7) by (vm_compute; reflexivity).
  destruct (cache_result_round_trip 3600 "search_web:('q',):{}" func 100 101 200 201
              ∅ 0%nat 7 ltac:(lia) ltac:(lia) ltac:(lia) 7 Hv)
    as (Hcount & Hcompute & _).
  destruct (Hcompute (or_introl (lookup_empty _))) as (_ & Hfirst & Hsecond).
  split; [exact Hv|]. split; [|exact Hcount].
  unfold second, first. by rewrite Hsecond.
Defined.

(** Against C4 as stated: under a duration of ten, a call at time 0
    computes and stores a value; a call at time 9 returns it from the
    cache; a call at time 12, three seconds after the previous one,
    finds the entry expired, invokes [func] and returns a different
    value. *)
Lemma cache_result_stale_entry :
  let func := λ w : Z, (inr w, w + 1) : Raises Z * Z in
  let call (t : Z) (st : Raises Z * gmap string (Z * Z) * (nat * Z)) :=
    cache_result 10 "k" (counted func) t t (snd (fst st)) (snd st) in
  let zeroth := call 0 (inr 0, ∅, (0%nat, 7)) in
  let first := call 9 zeroth in
  let second := call 12 first in
  12 - 9 < 10
  ∧ fst (fst zeroth) = inr 7
  ∧ fst (fst first) = inr 7
  ∧ fst (fst second) = inr 8
  ∧ fst (fst first) ≠ fst (fst second)
  ∧ fst (snd first) = fst (snd zeroth)
  ∧ fst (snd second) = S (fst (snd first)).
Proof.
  intros func call zeroth first second.
  split; [lia|]. split; [by vm_compute|]. split; [by vm_compute|].
  split; [by vm_compute|]. split; [vm_compute; discriminate|].
  split; by vm_compute.
Qed.

(** ** The [/search] route *)

Lemma get_user_id_mode (token : string) (session : gmap string string) :
  snd (get_user_id token session) !! "ai_mode" = session !! "ai_mode".
Proof.
  unfold get_user_id. destruct (session !! "user_id"); [done|].
  simpl. by rewrite lookup_insert_ne.
Qed.

Lemma search_blank (rt : Runtime) (req : SearchRequest)
    (session : gmap string string) (app : AppState) :
  Py.all_space (default "" (form_query req)) = true →
  search rt req session app = (ErrorPage "Please enter a search query" 400, session, app).
Proof. intros Hq. unfold search. by rewrite strip_all_space. Qed.

Lemma rate_limit_decorator_run (func : View) (req : SearchRequest)
    (session : gmap string string) (app : AppState) :
  let user_id := fst (get_user_id (token req) session) in
  let session' := snd (get_user_id (token req) session) in
  let kept := filter (λ ts, t_check req - ts < RATE_LIMIT_WINDOW)
                (tracker_get user_id (rate_limit_tracker app)) in
  rate_limit_decorator func req session app
  = if Py.len kept <? RATE_LIMIT_SEARCHES then
      func req session'
        (mkApp (search_cache app) (search_history app)
           (<[user_id := kept ++ [t_record req]]>
              (<[user_id := kept]> (rate_limit_tracker app))))
    else
      (ErrorPage "Rate limit exceeded. Please try again in an hour." 429,
       session',
       mkApp (search_cache app) (search_history app)
         (<[user_id := kept]> (rate_limit_tracker app))).
Proof.
  intros user_id session' kept. unfold rate_limit_decorator.
  destruct (get_user_id (token req) session) as [u s] eqn:Hu. simpl in *.
  pose proof (check_rate_limit_verdict (t_check req) u (rate_limit_tracker app)) as Hv.
  pose proof (check_rate_limit_tracker (t_check req) u (rate_limit_tracker app)) as Ht.
  destruct (check_rate_limit (t_check req) u (rate_limit_tracker app))
    as [[allowed remaining] tracker]. simpl in *.
  injection Hv as -> ->. subst tracker. subst user_id kept.
  destruct (_ <? _); simpl; [|done].
  unfold record_search. by rewrite tracker_get_insert.
Qed.

(** C1 as amended.  A request whose query is empty or white space
    appends no history entry and leaves the cache alone, and the view
    [search] itself rejects it with status 400 before doing anything
    else.  The route runs the rate-limit decorator first: it prunes the
    record of the identity; when fewer than [RATE_LIMIT_SEARCHES]
    timestamps survive it records the request (one timestamp appended)
    and the answer is the 400 page; otherwise nothing is appended and
    the answer is the 429 page. *)
Theorem blank_query_rejected (rt : Runtime) (req : SearchRequest)
    (session : gmap string string) (app : AppState) :
  Py.all_space (default "" (form_query req)) = true →
  let user_id := fst (get_user_id (token req) session) in
  let kept := filter (λ ts, t_check req - ts < RATE_LIMIT_WINDOW)
                (tracker_get user_id (rate_limit_tracker app)) in
  let out := search_route rt req session app in
  let response := fst (fst out) in
  let app' := snd out in
  search rt req session app = (ErrorPage "Please enter a search query" 400, session, app)
  ∧ search_history app' = search_history app
  ∧ search_cache app' = search_cache app
  ∧ snd (fst out) = snd (get_user_id (token req) session)
  ∧ (Py.len kept < RATE_LIMIT_SEARCHES →
       response = ErrorPage "Please enter a search query" 400
       ∧ tracker_get user_id (rate_limit_tracker app') = kept ++ [t_record req])
  ∧ (RATE_LIMIT_SEARCHES <= Py.len kept →
       response = ErrorPage "Rate limit exceeded. Please try again in an hour." 429
       ∧ tracker_get user_id (rate_limit_tracker app') = kept).
Proof.
  intros Hq user_id kept out response app'.
  split; [by apply search_blank|].
  unfold response, app', out, search_route.
  rewrite rate_limit_decorator_run. fold user_id kept.
  destruct (Py.len kept <? RATE_LIMIT_SEARCHES) eqn:E.
  - rewrite search_blank by done. simpl. apply Z.ltb_lt in E.
    split; [done|]. split; [done|]. split; [done|]. split.
    + intros _. split; [done|]. by rewrite tracker_get_insert.
    + intros Hfull. lia.
  - simpl. apply Z.ltb_ge in E.
    split; [done|]. split; [done|]. split; [done|]. split.
    + intros Hfree. lia.
    + intros _. split; [done|]. by rewrite tracker_get_insert.
Qed.

Lemma blank_query_rejected_witness :
  let rt := mkRuntime ∅ 10 (λ s, s) in
  let req := mkSearchRequest (Some "   ") "5f2a" 1000 1000 1000 1000 1000
               "2024-01-01 00:00:00"
               (λ _ _, inl (mkExn ConnectionError "unreachable"))
               (mkBackends (λ _ _ _, inr "g") (λ _ _ _, inr "o")
                           (λ _ _, inl (mkExn ConnectionError "refused"))) in
  let out := search_route rt req ∅ (mkApp ∅ [] ∅) in
  Py.all_space (default "" (form_query req)) = true
  ∧ search_history (snd out) = []
  ∧ fst (fst out) = ErrorPage "Please enter a search query" 400.
Proof.
  intros rt req out.
  assert (Hq : Py.all_space (default "" (form_query req)) = true) by reflexivity.
  split; [exact Hq|].
  pose proof (blank_query_rejected rt req ∅ (mkApp ∅ [] ∅) Hq) as H.
  cbv zeta in H. destruct H as (_ & Hh & _ & _ & Hok & _).
  split; [exact Hh|]. apply Hok. by vm_compute.
Defined.

(** Against C1 as stated: the empty query of a fresh session is
    answered with the 400 page, and a timestamp has been appended to
    the record of its identity. *)
Lemma blank_query_consumes_slot :
  let rt := mkRuntime ∅ 10 (λ s, s) in
  let req := mkSearchRequest (Some "") "5f2a" 1000 1001 1002 1003 1004
               "2024-01-01 00:00:00"
               (λ _ _, inl (mkExn ConnectionError "unreachable"))
               (mkBackends (λ _ _ _, inr "g") (λ _ _ _, inr "o")
                           (λ _ _, inl (mkExn ConnectionError "refused"))) in
  let app := mkApp ∅ [] ∅ in
  let out := search_route rt req ∅ app in
  fst (fst out) = ErrorPage "Please enter a search query" 400
  ∧ tracker_get "5f2a" (rate_limit_tracker app) = []
  ∧ tracker_get "5f2a" (rate_limit_tracker (snd out)) = [1001]
  ∧ rate_limit_tracker (snd out) ≠ rate_limit_tracker app.
Proof.
  intros rt req app out.
  assert (Hafter : tracker_get "5f2a" (rate_limit_tracker (snd out)) = [1001])
    by (by vm_compute).
  split; [by vm_compute|]. split; [by vm_compute|]. split; [exact Hafter|].
  intros Heq. rewrite Heq in Hafter. by vm_compute in Hafter.
Qed.

(** ** Switching the backend *)

Lemma get_current_mode_user_id (token : string) (session : gmap string string) :
  get_current_mode (snd (get_user_id token session)) = get_current_mode session.
Proof. unfold get_current_mode. by rewrite get_user_id_mode. Qed.

(** What the undecorated view does with the session, and which
    generator call produced the answer of a results page. *)
Lemma search_mode (rt : Runtime) (req : SearchRequest)
    (session : gmap string string) (app : AppState) :
  let out := search rt req session app in
  get_current_mode (snd (fst out)) = get_current_mode session
  ∧ ∀ q a srcs mi rem,
      fst (fst out) = ResultsPage q a srcs mi rem →
      a = generate_answer (environ rt) (llm req) q srcs (get_current_mode session)
      ∧ mi = get_model_info (environ rt) (get_current_mode session).
Proof.
  unfold search.
  destruct (String.eqb (Py.strip (default "" (form_query req))) ""); [by split|].
  pose proof (get_current_mode_user_id (token req) session) as Hmode.
  destruct (get_user_id (token req) session) as [user_id session1].
  destruct (check_rate_limit (t_recheck req) user_id (rate_limit_tracker app))
    as [[allowed remaining] tracker].
  destruct (search_web_cached rt req _ (search_cache app)) as [[e|sources] cache];
    simpl in *; (split; [exact Hmode|]); intros q a srcs mi rem [=]; by subst.
Qed.

Lemma search_route_mode (rt : Runtime) (req : SearchRequest)
    (session : gmap string string) (app : AppState) :
  let out := search_route rt req session app in
  get_current_mode (snd (fst out)) = get_current_mode session
  ∧ ∀ q a srcs mi rem,
      fst (fst out) = ResultsPage q a srcs mi rem →
      a = generate_answer (environ rt) (llm req) q srcs (get_current_mode session)
      ∧ mi = get_model_info (environ rt) (get_current_mode session).
Proof.
  unfold search_route. rewrite rate_limit_decorator_run.
  pose proof (get_current_mode_user_id (token req) session) as Hmode.
  destruct (_ <? _).
  - rewrite <- Hmode. apply search_mode.
  - simpl. split; [exact Hmode|]. by intros q a srcs mi rem [=].
Qed.

Lemma serve_mode (rt : Runtime) (reqs : list ((AppState → AppState) * SearchRequest))
    (session : gmap string string) (app : AppState) :
  let run := serve rt reqs session app in
  get_current_mode (snd (fst run)) = get_current_mode session
  ∧ Forall2
      (λ step response,
         ∀ q a srcs mi rem,
           response = ResultsPage q a srcs mi rem →
           a = generate_answer (environ rt) (llm (snd step)) q srcs (get_current_mode session)
           ∧ mi = get_model_info (environ rt) (get_current_mode session))
      reqs (fst (fst run)).
Proof.
  revert session app. induction reqs as [|[others req] reqs IH]; intros session app.
  - simpl. split; [done | constructor].
  - simpl.
    pose proof (search_route_mode rt req session (others app)) as [Hm Hr].
    destruct (search_route rt req session (others app)) as [[r session'] app'].
    pose proof (IH session' app') as [Hm' Hr'].
    destruct (serve rt reqs session' app') as [[rs session''] app''].
    simpl in *. rewrite Hm in Hm', Hr'.
    split; [exact Hm'|]. constructor; [exact Hr | exact Hr'].
Qed.

(** C6.  A mode-switch request whose value is not a key of
    [MODEL_CONFIGS] is answered with the failure body and status 400
    and leaves the session, hence its mode, as it was.  A request with
    a recognized value (['groq'], ['openai'] or ['local']; an absent
    form field counts as ['groq']) is answered with status 200 and
    stores the value in the session; from then on, whatever other
    clients do to the process-wide state in between, every search of
    that session that renders a results page got its answer from the
    generator of that mode and shows that mode. *)
Theorem switch_mode_session (rt : Runtime) (form_mode : option string)
    (session : gmap string string) :
  let mode := default "groq" form_mode in
  let out := switch_mode rt form_mode session in
  (MODEL_CONFIGS (environ rt) !! mode = None →
     fst out = SwitchFailed ("Invalid mode: " +:+ mode)
     ∧ status (fst out) = 400
     ∧ snd out = session
     ∧ get_current_mode (snd out) = get_current_mode session)
  ∧ (is_Some (MODEL_CONFIGS (environ rt) !! mode) →
       (mode = "groq" ∨ mode = "openai" ∨ mode = "local")
       ∧ status (fst out) = 200
       ∧ snd out = <["ai_mode" := mode]> session
       ∧ get_current_mode (snd out) = mode
       ∧ ∀ reqs app,
           let run := serve rt reqs (snd out) app in
           get_current_mode (snd (fst run)) = mode
           ∧ Forall2
               (λ step response,
                  ∀ q a srcs mi rem,
                    response = ResultsPage q a srcs mi rem →
                    a = generate_answer (environ rt) (llm (snd step)) q srcs mode
                    ∧ mi_mode mi = mode
                    ∧ (mode = "groq" →
                         a = generate_answer_groq (environ rt) (llm (snd step)) q srcs)
                    ∧ (mode = "openai" →
                         a = generate_answer_openai (environ rt) (llm (snd step)) q srcs)
                    ∧ (mode = "local" →
                         a = generate_answer_local (environ rt) (llm (snd step)) q srcs))
               reqs (fst (fst run))).
Proof.
  intros mode out. unfold out, switch_mode. fold mode. split.
  - intros ->. by simpl.
  - intros [config Hconfig]. rewrite Hconfig. simpl.
    assert (Hget : get_current_mode (<["ai_mode" := mode]> session) = mode).
    { unfold get_current_mode. by rewrite lookup_insert_eq. }
    split.
    { rewrite MODEL_CONFIGS_lookup in Hconfig.
      destruct (decide (mode = "groq")); [by left|].
      destruct (decide (mode = "openai")); [by right; left|].
      destruct (decide (mode = "local")); [by right; right|done]. }
    split; [done|]. split; [done|]. split; [exact Hget|].
    intros reqs app.
    pose proof (serve_mode rt reqs (<["ai_mode" := mode]> session) app) as [Hm Hr].
    rewrite Hget in Hm, Hr.
    split; [exact Hm|].
    eapply Forall2_impl; [exact Hr|]. simpl.
    intros step response Hstep q a srcs mi rem Hresp.
    destruct (Hstep q a srcs mi rem Hresp) as [-> ->].
    split; [done|]. split; [done|].
    split; [|split]; intros Hmode; rewrite Hmode; reflexivity.
Qed.

Lemma switch_mode_session_witness :
  let rt := mkRuntime (<["GROQ_API_KEY" := "gk"]> ∅) 10 (λ s, s) in
  let llm := mkBackends (λ _ _ _, inr "from groq") (λ _ _ _, inr "from openai")
               (λ _ _, inr (mkOllama 200 (inr (Some "from ollama")))) in
  let req := mkSearchRequest (Some "capital of France") "5f2a" 1000 1001 1002 1003 1004
               "2024-01-01 00:00:00"
               (λ _ _, inl (mkExn ConnectionError "unreachable")) llm in
  (MODEL_CONFIGS (environ rt) !! "gemini" = None
   ∧ snd (switch_mode rt (Some "gemini") {[ "ai_mode" := "openai" ]})
     = {[ "ai_mode" := "openai" ]})
  ∧ (is_Some (MODEL_CONFIGS (environ rt) !! "local")
     ∧ ∃ q srcs mi rem,
         fst (fst (serve rt [(id, req)]
                     (snd (switch_mode rt (Some "local") ∅)) (mkApp ∅ [] ∅)))
         = [ResultsPage q "from ollama" srcs mi rem]).
Proof.
  intros rt llm req. split.
  - assert (Hnone : MODEL_CONFIGS (environ rt) !! "gemini" = None) by (by vm_compute).
    split; [exact Hnone|].
    pose proof (switch_mode_session rt (Some "gemini") {[ "ai_mode" := "openai" ]}) as H.
    cbv zeta in H. destruct H as [H _].
    by destruct (H Hnone) as (_ & _ & -> & _).
  - assert (Hsome : is_Some (MODEL_CONFIGS (environ rt) !! "local")).
    { rewrite MODEL_CONFIGS_lookup. simpl. eauto. }
    split; [exact Hsome|].
    pose proof (switch_mode_session rt (Some "local") ∅) as H.
    cbv zeta in H. destruct H as [_ H].
    destruct (H Hsome) as (_ & _ & _ & _ & Hrun).
    destruct (Hrun [(id, req)] (mkApp ∅ [] ∅)) as [_ Hall].
    destruct (fst (fst (serve rt [(id, req)]
                          (snd (switch_mode rt (Some "local") ∅)) (mkApp ∅ [] ∅))))
      as [|r rs] eqn:E; [by vm_compute in E|].
    vm_compute in E. injection E as <- <-.
    by repeat eexists.
Defined.

(** * Further properties of the code *)

(** ** [str.strip] and the validation of the query *)

(** X1. The view [search] answers with status 400 exactly when the
    submitted query is empty or made of white space only, in the sense
    of [str.isspace] (non-ASCII white space included).  Every other
    query is answered with a results page for the stripped query or,
    when the web search raises, with the page of status 500. *)
Theorem search_rejects_blank_only (rt : Runtime) (req : SearchRequest)
    (session : gmap string string) (app : AppState) :
  let response := fst (fst (search rt req session app)) in
  let submitted := default "" (form_query req) in
  (status response = 400 ↔ Py.all_space submitted = true)
  ∧ (Py.all_space submitted = false →
       (∃ answer sources model_info remaining,
          response = ResultsPage (Py.strip submitted) answer sources model_info remaining)
       ∨ (∃ e, response = ErrorPage ("An error occurred: " +:+ exn_str e) 500)).
Proof.
  intros response submitted. unfold response, search. fold submitted.
  destruct (String.eqb_spec (Py.strip submitted) "") as [Hblank|Hquery].
  - apply strip_empty_iff in Hblank. split; [by split|].
    intros Hno. by rewrite Hblank in Hno.
  - assert (Hno : Py.all_space submitted = false).
    { destruct (Py.all_space submitted) eqn:E; [|done].
      by apply strip_empty_iff in E. }
    destruct (get_user_id (token req) session) as [user_id session1].
    destruct (check_rate_limit (t_recheck req) user_id (rate_limit_tracker app))
      as [[allowed remaining] tracker].
    destruct (search_web_cached rt req _ (search_cache app)) as [[e|sources] cache];
      simpl; (split; [split; [done | by rewrite Hno]|]); intros _; eauto 10.
Qed.

Lemma search_rejects_blank_only_witness :
  let rt := mkRuntime ∅ 10 (λ s, s) in
  let req := mkSearchRequest (Some " rocq ") "5f2a" 1000 1001 1002 1003 1004
               "2024-01-01 00:00:00"
               (λ _ _, inl (mkExn ConnectionError "unreachable"))
               (mkBackends (λ _ _ _, inr "g") (λ _ _ _, inr "o")
                           (λ _ _, inl (mkExn ConnectionError "refused"))) in
  Py.all_space (default "" (form_query req)) = false
  ∧ status (fst (fst (search rt req ∅ (mkApp ∅ [] ∅)))) ≠ 400.
Proof.
  intros rt req.
  assert (Hq : Py.all_space (default "" (form_query req)) = false) by reflexivity.
  split; [exact Hq|].
  pose proof (search_rejects_blank_only rt req ∅ (mkApp ∅ [] ∅)) as H.
  cbv zeta in H. destruct H as [Hiff _].
  intros H400. apply Hiff in H400. rewrite Hq in H400. discriminate H400.
Defined.

(** A query of non-ASCII white space only (U+3000, U+00A0) is blank
    for [strip] and is rejected like the empty query. *)
Example search_rejects_unicode_blank :
  let rt := mkRuntime ∅ 10 (λ s, s) in
  let blank := string_of_list_ascii (Py.utf8 12288 ++ Py.utf8 160) in
  let req := mkSearchRequest (Some blank) "5f2a" 1000 1001 1002 1003 1004
               "2024-01-01 00:00:00"
               (λ _ _, inl (mkExn ConnectionError "unreachable"))
               (mkBackends (λ _ _ _, inr "g") (λ _ _ _, inr "o")
                           (λ _ _, inl (mkExn ConnectionError "refused"))) in
  search rt req ∅ (mkApp ∅ [] ∅)
  = (ErrorPage "Please enter a search query" 400, ∅, mkApp ∅ [] ∅).
Proof. by vm_compute. Qed.

(** X2. When the [ollama] process exits with code 0, [_generate_local]
    returns its standard output stripped: an answer with no leading and
    no trailing white space, which stripping again leaves unchanged.
    With any other exit code the answer is ["Error: "] followed by the
    standard error output, unstripped. *)
Theorem _generate_local_stripped (sdk : LLMHandler.Sdk) (self : LLMHandler.t)
    (prompt : string) (result : LLMHandler.Completed) :
  LLMHandler.ollama_run sdk (LLMHandler.model self) prompt = inr result →
  let answer := LLMHandler._generate_local sdk self prompt in
  (LLMHandler.returncode result = 0 →
     answer = Py.strip (LLMHandler.stdout result)
     ∧ Py.strip answer = answer
     ∧ (answer = "" ↔ Py.all_space (LLMHandler.stdout result) = true))
  ∧ (LLMHandler.returncode result ≠ 0 →
       answer = "Error: " +:+ LLMHandler.stderr result).
Proof.
  intros Hrun answer. unfold answer, LLMHandler._generate_local. rewrite Hrun.
  split.
  - intros ->. simpl. split; [done|]. split; [apply strip_idemp | apply strip_empty_iff].
  - intros Hcode. by destruct (Z.eqb_spec (LLMHandler.returncode result) 0).
Qed.

Lemma _generate_local_stripped_witness :
  let sdk := LLMHandler.mkSdk (λ key, inr key) (λ key, inr key)
               (λ _ _ _ _, inr "answer") (λ _ _ _ _, inr "answer")
               (λ _ _, inr (LLMHandler.mkCompleted 0 "  Paris.  " "")) in
  LLMHandler._generate_local sdk (LLMHandler.mk "local" "llama3.2:3b" None None) "capital?"
  = "Paris.".
Proof.
  intros sdk.
  destruct (_generate_local_stripped sdk (LLMHandler.mk "local" "llama3.2:3b" None None)
              "capital?" (LLMHandler.mkCompleted 0 "  Paris.  " "") eq_refl) as [H _].
  by destruct (H eq_refl) as [-> _].
Defined.

(** ** Identity of a session *)

Lemma get_user_id_known (token u : string) (session : gmap string string) :
  session !! "user_id" = Some u → get_user_id token session = (u, session).
Proof. intros H. unfold get_user_id. by rewrite H. Qed.

Lemma get_user_id_assigned (token : string) (session : gmap string string) :
  snd (get_user_id token session) !! "user_id" = Some (fst (get_user_id token session)).
Proof.
  unfold get_user_id. destruct (session !! "user_id") as [u|] eqn:E; simpl; [done|].
  apply lookup_insert_eq.
Qed.

Lemma search_session (rt : Runtime) (req : SearchRequest) (u : string)
    (session : gmap string string) (app : AppState) :
  session !! "user_id" = Some u →
  snd (fst (search rt req session app)) = session.
Proof.
  intros Hu. unfold search.
  destruct (String.eqb _ ""); [done|].
  rewrite (get_user_id_known _ u) by done.
  destruct (check_rate_limit _ _ _) as [[allowed remaining] tracker].
  by destruct (search_web_cached _ _ _ _) as [[e|sources] cache].
Qed.

(** X3. The identity of a session is created once and then kept: a
    second [get_user_id] returns the identity of the first and leaves
    the session as it is, whatever token the random source would give;
    the only thing the [/search] route changes in a session is this
    lazily created identity; [switch_mode] never touches it. *)
Theorem get_user_id_stable (tok : string) (session : gmap string string) :
  (∀ token',
     get_user_id token' (snd (get_user_id tok session)) = get_user_id tok session)
  ∧ (∀ u, session !! "user_id" = Some u → get_user_id tok session = (u, session))
  ∧ (∀ rt req app,
       snd (fst (search_route rt req session app)) = snd (get_user_id (token req) session))
  ∧ (∀ rt form_mode,
       snd (switch_mode rt form_mode session) !! "user_id" = session !! "user_id").
Proof.
  split.
  { intros token'. pose proof (get_user_id_assigned tok session) as H.
    destruct (get_user_id tok session) as [u s]. simpl in *.
    by apply get_user_id_known. }
  split; [intros u; apply get_user_id_known|].
  split.
  { intros rt req app. unfold search_route. rewrite rate_limit_decorator_run.
    destruct (_ <? _); [|done].
    eapply search_session, get_user_id_assigned. }
  intros rt form_mode. unfold switch_mode.
  destruct (MODEL_CONFIGS _ !! _); [|done]. simpl. by rewrite lookup_insert_ne.
Qed.

Lemma get_user_id_stable_witness :
  get_user_id "ffff" (snd (get_user_id "5f2a" ∅)) = ("5f2a", {[ "user_id" := "5f2a" ]}).
Proof.
  destruct (get_user_id_stable "5f2a" ∅) as [H _]. by rewrite H.
Defined.

(** ** Rate limiter: bounds, pruning, isolation *)

Lemma filter_filter_window (now later : Z) (l : list Z) :
  now <= later →
  filter (λ ts, later - ts < RATE_LIMIT_WINDOW) (filter (λ ts, now - ts < RATE_LIMIT_WINDOW) l)
  = filter (λ ts, later - ts < RATE_LIMIT_WINDOW) l.
Proof.
  intros Hle. induction l as [|ts l IH]; [done|].
  destruct (decide (later - ts < RATE_LIMIT_WINDOW)) as [Hl|Hl].
  - rewrite (filter_cons_True (λ ts, now - ts < RATE_LIMIT_WINDOW)) by lia.
    rewrite !filter_cons_True by done. by rewrite IH.
  - rewrite (filter_cons_False (λ ts, later - ts < RATE_LIMIT_WINDOW) ts l) by done.
    destruct (decide (now - ts < RATE_LIMIT_WINDOW)).
    + rewrite (filter_cons_True (λ ts, now - ts < RATE_LIMIT_WINDOW)) by done.
      by rewrite filter_cons_False.
    + by rewrite (filter_cons_False (λ ts, now - ts < RATE_LIMIT_WINDOW)).
Qed.

Lemma check_rate_limit_eq now user_id tracker :
  check_rate_limit now user_id tracker
  = (fst (check_rate_limit now user_id tracker),
     <[user_id := filter (λ ts, now - ts < RATE_LIMIT_WINDOW) (tracker_get user_id tracker)]>
       tracker).
Proof.
  rewrite <- check_rate_limit_tracker. by destruct (check_rate_limit now user_id tracker).
Qed.

(** X4. [check_rate_limit] reports a remaining quota between 0 and
    [RATE_LIMIT_SEARCHES], and allows exactly when that quota is
    positive.  It never lengthens a record, and its lazy pruning is
    harmless: a check at a later time gives the same verdict and leaves
    the same tracker whether or not an earlier check pruned first; in
    particular checking twice at the same time changes nothing. *)
Theorem check_rate_limit_pruning (now : Z) (user_id : string)
    (tracker : gmap string (list Z)) :
  let result := check_rate_limit now user_id tracker in
  0 <= snd (fst result) <= RATE_LIMIT_SEARCHES
  ∧ (fst (fst result) = true ↔ 0 < snd (fst result))
  ∧ (length (tracker_get user_id (snd result)) ≤ length (tracker_get user_id tracker))%nat
  ∧ (∀ later, now <= later →
       check_rate_limit later user_id (snd result) = check_rate_limit later user_id tracker)
  ∧ check_rate_limit now user_id (snd result) = result.
Proof.
  intros result.
  assert (Hlater : ∀ later, now <= later →
            check_rate_limit later user_id (snd result)
            = check_rate_limit later user_id tracker).
  { intros later Hle. unfold result.
    rewrite (check_rate_limit_eq later), (check_rate_limit_eq later user_id tracker).
    rewrite !check_rate_limit_verdict. cbv zeta.
    rewrite check_rate_limit_tracker, tracker_get_insert.
    rewrite filter_filter_window by done. by rewrite insert_insert_eq. }
  unfold result at 1 2 3 4 5.
  rewrite check_rate_limit_verdict, check_rate_limit_tracker, tracker_get_insert.
  cbv zeta. simpl.
  set (kept := filter _ _).
  assert (0 <= Py.len kept) by (unfold Py.len; lia).
  split; [unfold RATE_LIMIT_SEARCHES; lia|].
  split.
  { rewrite Z.ltb_lt. unfold RATE_LIMIT_SEARCHES. lia. }
  split; [apply length_filter|].
  split; [exact Hlater|].
  fold result. unfold result at 2.
  rewrite <- (Hlater now) by lia. done.
Qed.

Lemma check_rate_limit_pruning_witness :
  check_rate_limit 5000 "u" (snd (check_rate_limit 4000 "u" {[ "u" := [100; 3000; 3900] ]}))
  = check_rate_limit 5000 "u" {[ "u" := [100; 3000; 3900] ]}.
Proof.
  pose proof (check_rate_limit_pruning 4000 "u" {[ "u" := [100; 3000; 3900] ]}) as H.
  cbv zeta in H. destruct H as (_ & _ & _ & H & _). apply H. lia.
Defined.

(** ** Rate limiter along the route *)

Lemma search_known (rt : Runtime) (req : SearchRequest) (u : string)
    (session : gmap string string) (app : AppState) :
  session !! "user_id" = Some u →
  let out := search rt req session app in
  status (fst (fst out)) ≠ 429
  ∧ (rate_limit_tracker (snd out) = rate_limit_tracker app
     ∨ rate_limit_tracker (snd out)
       = <[u := filter (λ ts, t_recheck req - ts < RATE_LIMIT_WINDOW)
                  (tracker_get u (rate_limit_tracker app))]> (rate_limit_tracker app)).
Proof.
  intros Hu. unfold search.
  destruct (String.eqb _ ""); [by split; [|left]|].
  rewrite (get_user_id_known _ u) by done.
  rewrite check_rate_limit_eq.
  destruct (fst (check_rate_limit _ _ _)) as [allowed remaining].
  destruct (search_web_cached _ _ _ _) as [[e|sources] cache]; simpl;
    (split; [done | by right]).
Qed.

Lemma search_route_known (rt : Runtime) (req : SearchRequest) (u : string)
    (session : gmap string string) (app : AppState) :
  session !! "user_id" = Some u →
  let kept := filter (λ ts, t_check req - ts < RATE_LIMIT_WINDOW)
                (tracker_get u (rate_limit_tracker app)) in
  let out := search_route rt req session app in
  snd (fst out) = session
  ∧ (∀ v, v ≠ u → rate_limit_tracker (snd out) !! v = rate_limit_tracker app !! v)
  ∧ if Py.len kept <? RATE_LIMIT_SEARCHES then
      status (fst (fst out)) ≠ 429
      ∧ (tracker_get u (rate_limit_tracker (snd out)) = kept ++ [t_record req]
         ∨ tracker_get u (rate_limit_tracker (snd out))
           = filter (λ ts, t_recheck req - ts < RATE_LIMIT_WINDOW) (kept ++ [t_record req]))
    else
      status (fst (fst out)) = 429
      ∧ tracker_get u (rate_limit_tracker (snd out)) = kept.
Proof.
  intros Hu kept out. unfold out, search_route.
  rewrite rate_limit_decorator_run. rewrite (get_user_id_known _ u) by done.
  simpl fst. simpl snd. fold kept.
  destruct (Py.len kept <? RATE_LIMIT_SEARCHES).
  - set (app1 := mkApp _ _ _).
    pose proof (search_known rt req u session app1 Hu) as [Hstatus Htracker].
    split; [by eapply search_session|].
    assert (Hget : tracker_get u (rate_limit_tracker app1) = kept ++ [t_record req]).
    { unfold app1. simpl. by rewrite tracker_get_insert. }
    split.
    + intros v Hv. destruct Htracker as [-> | ->].
      * unfold app1. simpl. by rewrite !lookup_insert_ne.
      * unfold app1. simpl. by rewrite !lookup_insert_ne.
    + split; [exact Hstatus|].
      destruct Htracker as [-> | ->]; [by left|].
      right. by rewrite tracker_get_insert, Hget.
  - simpl. split; [done|]. split.
    + intros v Hv. by rewrite lookup_insert_ne.
    + split; [done|]. by rewrite tracker_get_insert.
Qed.

(** X5. A request to [/search] touches the rate record of its own
    identity only: the record of every other identity is, after the
    request, what it was before, whether the request was served,
    rejected as blank or refused by the limiter. *)
Theorem search_route_isolation (rt : Runtime) (req : SearchRequest)
    (session : gmap string string) (app : AppState) (v : string) :
  v ≠ fst (get_user_id (token req) session) →
  rate_limit_tracker (snd (search_route rt req session app)) !! v
  = rate_limit_tracker app !! v.
Proof.
  intros Hv. unfold search_route. rewrite rate_limit_decorator_run.
  pose proof (get_user_id_assigned (token req) session) as Hu.
  set (u := fst (get_user_id (token req) session)) in *.
  set (session' := snd (get_user_id (token req) session)) in *.
  destruct (_ <? _).
  - set (app1 := mkApp _ _ _).
    pose proof (search_known rt req u session' app1 Hu) as [_ [-> | ->]];
      unfold app1; simpl; by rewrite !lookup_insert_ne.
  - simpl. by rewrite lookup_insert_ne.
Qed.

Lemma search_route_isolation_witness :
  let rt := mkRuntime ∅ 10 (λ s, s) in
  let req := mkSearchRequest (Some "rocq") "5f2a" 5000 5001 5002 5003 5004
               "2024-01-01 00:00:00"
               (λ _ _, inl (mkExn ConnectionError "unreachable"))
               (mkBackends (λ _ _ _, inr "g") (λ _ _ _, inr "o")
                           (λ _ _, inl (mkExn ConnectionError "refused"))) in
  let app := mkApp ∅ [] {[ "other" := [100; 4900] ]} in
  "other" ≠ fst (get_user_id (token req) ∅)
  ∧ rate_limit_tracker (snd (search_route rt req ∅ app)) !! "other" = Some [100; 4900].
Proof.
  intros rt req app.
  assert (Hne : "other" ≠ fst (get_user_id (token req) ∅)) by discriminate.
  split; [exact Hne|].
  by rewrite (search_route_isolation rt req ∅ app "other" Hne).
Defined.

Lemma filter_window_range (lo hi now : Z) (l : list Z) :
  hi - lo < RATE_LIMIT_WINDOW → now <= hi →
  Forall (λ ts, lo <= ts <= hi) l →
  filter (λ ts, now - ts < RATE_LIMIT_WINDOW) l = l.
Proof.
  intros Hw Hnow Hall. apply filter_all.
  eapply Forall_impl; [exact Hall|]. simpl. lia.
Qed.

(** X6. The limiter enforces its quota on a run of requests of one
    session.  When all clock readings of the run and all timestamps
    already recorded for the identity lie within one window (an
    interval shorter than [RATE_LIMIT_WINDOW]) and the other clients
    leave the record of the identity alone, exactly the first
    [RATE_LIMIT_SEARCHES - already recorded] requests get past the
    limiter; each later one is answered with status 429.  From an empty
    record: the first 50 pass, the 51st is refused. *)
Theorem rate_limit_enforced (rt : Runtime) (u : string) (lo hi : Z)
    (reqs : list ((AppState → AppState) * SearchRequest))
    (session : gmap string string) (app : AppState) :
  session !! "user_id" = Some u →
  hi - lo < RATE_LIMIT_WINDOW →
  Forall (λ step,
            (lo <= t_check (snd step) <= hi)
            ∧ (lo <= t_record (snd step) <= hi)
            ∧ (lo <= t_recheck (snd step) <= hi)
            ∧ ∀ a, tracker_get u (rate_limit_tracker (fst step a))
                   = tracker_get u (rate_limit_tracker a)) reqs →
  Forall (λ ts, lo <= ts <= hi) (tracker_get u (rate_limit_tracker app)) →
  let responses := fst (fst (serve rt reqs session app)) in
  let room := (50 - length (tracker_get u (rate_limit_tracker app)))%nat in
  Forall (λ r, status r ≠ 429) (take room responses)
  ∧ Forall (λ r, status r = 429) (drop room responses)
  ∧ length responses = length reqs.
Proof.
  intros Hu Hw. revert app.
  induction reqs as [|[others req] reqs IH]; intros app Hreqs Hrec.
  { simpl. rewrite take_nil, drop_nil. by repeat split. }
  inversion Hreqs as [|? ? (Hc & Hr & Hrc & Hothers) Hrest]; subst.
  simpl in Hc, Hr, Hrc, Hothers.
  cbn [serve].
  pose proof (search_route_known rt req u session (others app) Hu) as Hstep.
  cbv zeta in Hstep. rewrite Hothers in Hstep.
  rewrite (filter_window_range lo hi) in Hstep by (done || lia).
  destruct (search_route rt req session (others app)) as [[r session'] app'].
  simpl in Hstep. destruct Hstep as (Hsess & _ & Hcase). subst session'.
  specialize (IH app' Hrest).
  destruct (serve rt reqs session app') as [[rs session''] app''].
  simpl in *.
  set (record := tracker_get u (rate_limit_tracker app)) in *.
  destruct (Py.len record <? RATE_LIMIT_SEARCHES) eqn:E.
  - apply Z.ltb_lt in E. unfold Py.len, RATE_LIMIT_SEARCHES in E.
    destruct Hcase as [Hstatus Hrec'].
    assert (Hnew : tracker_get u (rate_limit_tracker app') = record ++ [t_record req]).
    { destruct Hrec' as [-> | ->]; [done|].
      apply (filter_window_range lo hi); [done | lia|].
      apply Forall_app. split; [done|]. apply Forall_singleton. lia. }
    rewrite Hnew in IH. rewrite length_app in IH. simpl in IH.
    destruct IH as (Htake & Hdrop & Hlen).
    { apply Forall_app. split; [done|]. apply Forall_singleton. lia. }
    replace (50 - length record)%nat with (S (50 - (length record + 1)))%nat by lia.
    simpl. repeat split; [by constructor | done | by rewrite Hlen].
  - apply Z.ltb_ge in E. unfold Py.len, RATE_LIMIT_SEARCHES in E.
    destruct Hcase as [Hstatus Hrec'].
    rewrite Hrec' in IH. destruct (IH Hrec) as (Htake & Hdrop & Hlen).
    replace (50 - length record)%nat with 0%nat in * by lia.
    simpl. rewrite drop_0 in Hdrop.
    repeat split; [by constructor | by constructor | by rewrite Hlen].
Qed.

Lemma rate_limit_enforced_witness :
  let rt := mkRuntime ∅ 10 (λ s, s) in
  let req := mkSearchRequest (Some "rocq") "5f2a" 5000 5001 5002 5003 5004
               "2024-01-01 00:00:00"
               (λ _ _, inl (mkExn ConnectionError "unreachable"))
               (mkBackends (λ _ _ _, inr "g") (λ _ _ _, inr "o")
                           (λ _ _, inl (mkExn ConnectionError "refused"))) in
  let session : gmap string string := {[ "user_id" := "5f2a" ]} in
  let app := mkApp ∅ [] {[ "5f2a" := replicate 49 4000 ]} in
  let responses := fst (fst (serve rt [(id, req); (id, req)] session app)) in
  status <$> responses = [200; 429].
Proof.
  intros rt req session app responses.
  assert (Hreqs : Forall (λ step : (AppState → AppState) * SearchRequest,
            (4000 <= t_check (snd step) <= 5004)
            ∧ (4000 <= t_record (snd step) <= 5004)
            ∧ (4000 <= t_recheck (snd step) <= 5004)
            ∧ ∀ a, tracker_get "5f2a" (rate_limit_tracker (fst step a))
                   = tracker_get "5f2a" (rate_limit_tracker a))
          [(id, req); (id, req)]).
  { repeat constructor; simpl; lia. }
  assert (Hrec : Forall (λ ts, 4000 <= ts <= 5004)
                   (tracker_get "5f2a" (rate_limit_tracker app))).
  { apply Forall_replicate. lia. }
  pose proof (rate_limit_enforced rt "5f2a" 4000 5004 [(id, req); (id, req)] session app
                eq_refl ltac:(by vm_compute) Hreqs Hrec) as H.
  cbv zeta in H. destruct H as (_ & _ & _).
  by vm_compute.
Defined.

(** ** Result cache: frame and error behaviour *)

(** X7. A call through [cache_result] never touches the entry of
    another key.  When [func] raises, the exception is passed on and
    the cache is left exactly as it was (errors are not cached), which
    happens only when [func] was really called.  When the call returns
    a value, the cache afterwards holds that value under the key. *)
Theorem cache_result_frame {V W : Type} (duration : Z) (key : string)
    (func : W → Raises V * W) (t_check t_store : Z)
    (cache : gmap string (V * Z)) (w : W) :
  let out := cache_result duration key func t_check t_store cache w in
  (∀ k, k ≠ key → snd (fst out) !! k = cache !! k)
  ∧ (∀ e, fst (fst out) = inl e →
       snd (fst out) = cache ∧ fst (func w) = inl e ∧ snd out = snd (func w))
  ∧ (∀ v, fst (fst out) = inr v →
       ∃ ts, snd (fst out) !! key = Some (v, ts)
             ∧ (snd (fst out) = cache ∧ snd out = w ∧ t_check - ts < duration
                ∨ ts = t_store ∧ fst (func w) = inr v)).
Proof.
  intros out. unfold out, cache_result, call_and_store.
  destruct (cache !! key) as [[cached ts]|] eqn:Hk.
  - destruct (Z.ltb_spec (t_check - ts) duration) as [Hvalid|Hold].
    + simpl. split; [done|]. split; [done|].
      intros v [= <-]. exists ts. split; [done|]. by left.
    + destruct (func w) as [[e|result] w']; simpl.
      * split; [done|]. split; [by intros ? [= <-]|done].
      * split; [intros k Hne; by rewrite lookup_insert_ne|]. split; [done|].
        intros v [= <-]. exists t_store. split; [apply lookup_insert_eq | by right].
  - destruct (func w) as [[e|result] w']; simpl.
    + split; [done|]. split; [by intros ? [= <-]|done].
    + split; [intros k Hne; by rewrite lookup_insert_ne|]. split; [done|].
      intros v [= <-]. exists t_store. split; [apply lookup_insert_eq | by right].
Qed.

Lemma cache_result_frame_witness :
  let func := λ w : Z, (inl (mkExn OtherException "boom"), w + 1) : Raises Z * Z in
  let cache : gmap string (Z * Z) := {[ "other" := (1, 0) ]} in
  snd (fst (cache_result 10 "k" func 5 6 cache 0)) = cache.
Proof.
  intros func cache.
  pose proof (cache_result_frame 10 "k" func 5 6 cache 0) as H.
  cbv zeta in H. destruct H as (_ & H & _).
  by destruct (H (mkExn OtherException "boom") ltac:(by vm_compute)) as [-> _].
Defined.

(** ** Diagnostics of [search_web] *)

Lemma is_Timeout_RequestException e : is_Timeout e = true → is_RequestException e = true.
Proof. unfold is_Timeout, is_RequestException. by destruct (exn_class e). Qed.

Lemma search_web_failure (key : option string) (post : string → Z → Raises SerperData)
    (query : string) :
  Py.truthy key = false
  ∨ (∃ e, post query 5 = inl e ∧ is_RequestException e = true) →
  ∃ d, search_web key post query = inr [d] ∧ source d = "Error".
Proof.
  unfold search_web. intros [Hkey|(e & He & Hreq)].
  - rewrite Hkey. simpl. by eexists.
  - destruct (Py.truthy key); simpl; [|by eexists].
    rewrite He. destruct (is_Timeout e); [by eexists|].
    rewrite Hreq. by eexists.
Qed.

(** X8. What [search_web] hands to the generators.  A failed search
    (no Serper key, or a [requests] exception such as a time-out, a
    refused connection or a non-2xx status) gives exactly one entry
    tagged ["Error"], so the context of the prompt is empty, as for no
    sources at all.  A successful call never contains an ["Error"]
    entry: its entries are all tagged ["Serper"].  When Serper finds
    nothing, the single placeholder entry is tagged ["Serper"] too and
    does enter the prompt as if it were a search hit. *)
Theorem search_web_context (key : option string)
    (post : string → Z → Raises SerperData) (query : string) :
  (Py.truthy key = false
   ∨ (∃ e, post query 5 = inl e ∧ is_RequestException e = true) →
   ∃ d, search_web key post query = inr [d]
        ∧ source d = "Error"
        ∧ build_context [d] = ""
        ∧ ∀ q, hosted_prompt q [d] = hosted_prompt q []
               ∧ local_prompt q [d] = local_prompt q [])
  ∧ (∀ sources,
       search_web key post query = inr sources →
       (∃ d, sources = [d] ∧ source d = "Error")
       ∨ (Forall (λ s, source s = "Serper") sources
          ∧ build_context sources = Py.join (PyStr.NL +:+ PyStr.NL) (render_source <$> sources)))
  ∧ (Py.truthy key = true →
     ∀ data, post query 5 = inr data → default [] (organic data) = [] →
       search_web key post query = inr [no_results_found]
       ∧ build_context [no_results_found]
         = "**No Results Found**: Try a different search query.").
Proof.
  split.
  { intros Hfail. destruct (search_web_failure key post query Hfail) as (d & Hd & Hsrc).
    exists d. split; [done|]. split; [done|].
    assert (Hc : build_context [d] = build_context []).
    { apply build_context_filter.
      rewrite filter_cons_False; [done|]. rewrite Hsrc. intros Hne. by apply Hne. }
    split; [by rewrite Hc|].
    intros q. unfold hosted_prompt, local_prompt. by rewrite Hc. }
  split.
  { intros sources. unfold search_web.
    destruct (Py.truthy key); simpl; [|intros [= <-]; left; by eexists].
    destruct (post query 5) as [e|data].
    - destruct (is_Timeout e); [intros [= <-]; left; by eexists|].
      destruct (is_RequestException e); [intros [= <-]; left; by eexists|done].
    - assert (Htags : Forall (λ s, source s = "Serper")
                        (organic_source <$> Py.slice_to 5 (default [] (organic data)))).
      { apply Forall_fmap, Forall_forall. by intros item _. }
      assert (Hctx : ∀ l, Forall (λ s, source s = "Serper") l →
                build_context l = Py.join (PyStr.NL +:+ PyStr.NL) (render_source <$> l)).
      { intros l Hl. unfold build_context. rewrite filter_all; [done|].
        eapply Forall_impl; [exact Hl|]. by intros s ->. }
      destruct (organic_source <$> _) as [|s rest] eqn:E.
      + intros [= <-]. right. split; [by repeat constructor|].
        apply Hctx. by repeat constructor.
      + intros [= <-]. right. split; [done | by apply Hctx]. }
  intros Hkey data Hpost Hnone. unfold search_web.
  rewrite Hkey, Hpost, Hnone. simpl.
  split; [by destruct (0 <=? 5)|done].
Qed.

Lemma search_web_context_witness :
  build_context
    (match search_web (Some "key") (λ _ _, inl (mkExn ReadTimeout "timed out")) "rocq" with
     | inr sources => sources
     | inl _ => []
     end) = "".
Proof.
  destruct (search_web_context (Some "key")
              (λ _ _, inl (mkExn ReadTimeout "timed out")) "rocq") as [H _].
  destruct H as (d & -> & _ & Hc & _); [|exact Hc].
  right. by eexists.
Defined.

(** X9. Diagnostics are cached like results.  When the first search
    for a query fails with a [requests] exception or for lack of a key
    and no valid entry was cached, the diagnostic entry is stored; a
    second search for the same query less than 3600 seconds later gets
    that same diagnostic from the cache, whatever the provider would
    answer by then. *)
Theorem diagnostic_is_cached (rt : Runtime) (first second : SearchRequest)
    (query : string) (cache : gmap string (list SourceResult * Z)) :
  let key := cache_key "search_web" ("(" +:+ repr rt query +:+ ",)") "{}" in
  (cache !! key = None
   ∨ ∃ v ts, cache !! key = Some (v, ts) ∧ 3600 <= t_cache_check first - ts) →
  (Py.truthy (API_KEYS (environ rt) "serper") = false
   ∨ ∃ e, serper first query 5 = inl e ∧ is_RequestException e = true) →
  t_cache_check second - t_cache_store first < 3600 →
  let out1 := search_web_cached rt first query cache in
  let out2 := search_web_cached rt second query (snd out1) in
  ∃ d, source d = "Error"
       ∧ out1 = (inr [d], <[key := ([d], t_cache_store first)]> cache)
       ∧ out2 = (inr [d], snd out1).
Proof.
  intros key Hstale Hfail Hsoon out1 out2.
  destruct (search_web_failure _ (serper first) query Hfail) as (d & Hd & Hsrc).
  exists d. split; [done|].
  assert (H1 : out1 = (inr [d], <[key := ([d], t_cache_store first)]> cache)).
  { unfold out1, search_web_cached. fold key.
    destruct Hstale as [Hnone|(v & ts & Hsome & Hold)].
    - rewrite cache_result_miss by done. unfold call_and_store. by rewrite Hd.
    - erewrite cache_result_expired by done. unfold call_and_store. by rewrite Hd. }
  split; [exact H1|].
  unfold out2, search_web_cached. fold key. rewrite H1. simpl.
  erewrite cache_result_hit; [done | apply lookup_insert_eq | done].
Qed.

Lemma diagnostic_is_cached_witness :
  let rt := mkRuntime {[ "SERPER_API_KEY" := "key" ]} 10 (λ s, s) in
  let llm := mkBackends (λ _ _ _, inr "g") (λ _ _ _, inr "o")
               (λ _ _, inl (mkExn ConnectionError "refused")) in
  let first := mkSearchRequest (Some "rocq") "5f2a" 100 100 100 100 110 "t"
                 (λ _ _, inl (mkExn ReadTimeout "timed out")) llm in
  let second := mkSearchRequest (Some "rocq") "5f2a" 200 200 200 200 210 "t"
                  (λ _ _, inr (mkSerper (Some [mkOrganic (Some "Rocq") None None]) None))
                  llm in
  fst (search_web_cached rt second "rocq" (snd (search_web_cached rt first "rocq" ∅)))
  = inr [search_timeout].
Proof.
  intros rt llm first second.
  destruct (diagnostic_is_cached rt first second "rocq" ∅) as (d & _ & H1 & H2).
  - by left.
  - right. by eexists.
  - by vm_compute.
  - rewrite H2. rewrite H1. simpl.
    assert (Hd : fst (search_web_cached rt first "rocq" ∅) = inr [search_timeout])
      by (by vm_compute).
    rewrite H1 in Hd. simpl in Hd. by injection Hd as ->.
Defined.

(** ** Model information *)

(** X10. The backend shown with a page is the backend that answers.
    For every mode, [get_model_info] reports the mode as given and the
    backend name of exactly the generator [generate_answer] dispatches
    to: ["OpenAI"] with [generate_answer_openai], ["Ollama"] with
    [generate_answer_local], ["Groq API"] with [generate_answer_groq];
    a mode that is not a key of [MODEL_CONFIGS] is shown with Groq's
    backend and display name, and answered by Groq. *)
Theorem model_info_matches_dispatch (environ : gmap string string) (mode : string) :
  let info := get_model_info environ mode in
  mi_mode info = mode
  ∧ mi_status info = "active"
  ∧ ((mode = "openai" ∧ mi_backend info = "OpenAI"
      ∧ mi_model info = getenv environ "OPENAI_MODEL" "gpt-4o-mini"
      ∧ ∀ llm q s, generate_answer environ llm q s mode
                   = generate_answer_openai environ llm q s)
     ∨ (mode = "local" ∧ mi_backend info = "Ollama"
        ∧ mi_model info = getenv environ "LOCAL_MODEL" "llama2"
        ∧ ∀ llm q s, generate_answer environ llm q s mode
                     = generate_answer_local environ llm q s)
     ∨ (mode ≠ "openai" ∧ mode ≠ "local" ∧ mi_backend info = "Groq API"
        ∧ mi_model info
          = PyStr.replace "-versatile" ""
              (getenv environ "GROQ_MODEL" "llama-3.3-70b-versatile")
        ∧ ∀ llm q s, generate_answer environ llm q s mode
                     = generate_answer_groq environ llm q s)).
Proof.
  intros info. split; [done|]. split; [done|].
  unfold info, get_model_info, generate_answer. rewrite MODEL_CONFIGS_lookup.
  destruct (decide (mode = "groq")) as [->|Hg].
  { right; right. by repeat split. }
  destruct (decide (mode = "openai")) as [->|Ho].
  { left. by repeat split. }
  destruct (decide (mode = "local")) as [->|Hl].
  { right; left. by repeat split. }
  right; right. simpl.
  destruct (String.eqb_spec mode "openai"); [done|].
  destruct (String.eqb_spec mode "local"); [done|].
  by repeat split.
Qed.

(** X11. A successful [switch_mode] answers with the backend and the
    model that [get_model_info] reports for the session afterwards.
    Switching is idempotent and the last successful switch wins: a
    second request with the same value changes nothing more, and after
    two recognized values the session holds the second. *)
Theorem switch_mode_model_info (rt : Runtime) (form_mode : option string)
    (session : gmap string string) :
  let mode := default "groq" form_mode in
  is_Some (MODEL_CONFIGS (environ rt) !! mode) →
  let out := switch_mode rt form_mode session in
  let info := get_model_info (environ rt) (get_current_mode (snd out)) in
  fst out = SwitchDone mode (mi_backend info) (mi_model info)
  ∧ switch_mode rt form_mode (snd out) = out
  ∧ (∀ form_mode',
       is_Some (MODEL_CONFIGS (environ rt) !! default "groq" form_mode') →
       get_current_mode (snd (switch_mode rt form_mode' (snd out)))
       = default "groq" form_mode'
       ∧ snd (switch_mode rt form_mode' (snd out))
         = snd (switch_mode rt form_mode' session)).
Proof.
  intros mode [config Hconfig] out info.
  assert (Hout : out = (SwitchDone mode (backend config) (display_name config),
                        <["ai_mode" := mode]> session)).
  { unfold out, switch_mode. fold mode. by rewrite Hconfig. }
  assert (Hmode : get_current_mode (snd out) = mode).
  { rewrite Hout. unfold get_current_mode. simpl. by rewrite lookup_insert_eq. }
  split.
  { unfold info, get_model_info. rewrite Hmode, Hconfig. by rewrite Hout. }
  split.
  { rewrite Hout at 1. unfold switch_mode. fold mode. rewrite Hconfig. simpl.
    by rewrite insert_insert_eq. }
  intros form_mode' [config' Hconfig'].
  unfold switch_mode. rewrite Hconfig'. simpl. rewrite Hout. simpl.
  unfold get_current_mode. rewrite lookup_insert_eq.
  split; [done|]. by rewrite insert_insert_eq.
Qed.

Lemma switch_mode_model_info_witness :
  let rt := mkRuntime ∅ 10 (λ s, s) in
  fst (switch_mode rt None ∅) = SwitchDone "groq" "Groq API" "llama-3.3-70b".
Proof.
  intros rt.
  assert (Hsome : is_Some (MODEL_CONFIGS (environ rt) !! default "groq" None)).
  { rewrite MODEL_CONFIGS_lookup. simpl. eauto. }
  pose proof (switch_mode_model_info rt None ∅ Hsome) as H.
  cbv zeta in H. destruct H as [-> _]. by vm_compute.
Defined.

(** ** [WebSearch]: shaping of the results *)

Lemma _search_serper_result net self query max_results log data :
  WebSearch.serper_post net query max_results = inr data →
  fst (WebSearch._search_serper net self query max_results log)
  = inr (let results := WebSearch.organic_result
                          <$> Py.slice_to max_results (default [] (organic data)) in
         match knowledgeGraph data with
         | Some kg =>
             if Py.len results <? max_results then
               match kg_description kg with
               | Some description =>
                   mkSource (default "" (kg_title kg)) description
                            (default "" (kg_website kg)) "Knowledge Graph" :: results
               | None => results
               end
             else results
         | None => results
         end).
Proof.
  intros Hpost. unfold WebSearch._search_serper, WebSearch.bind, WebSearch.call,
    WebSearch.ret. by rewrite Hpost.
Qed.

(** X12. Shaping of a Serper answer, for a non-negative
    [max_results].  The organic hits are kept in order, cut at
    [max_results], each tagged ["Google (via Serper)"].  A knowledge
    graph with a description is put first, tagged ["Knowledge Graph"],
    when fewer than [max_results] organic hits were kept; it is dropped
    when the organic hits already fill [max_results], and ignored when
    it has no description. *)
Theorem _search_serper_shape (net : WebSearch.Providers) (self : WebSearch.t)
    (query : string) (max_results : Z) (log : list WebSearch.Provider)
    (data : SerperData) :
  0 <= max_results →
  WebSearch.serper_post net query max_results = inr data →
  let found := default [] (organic data) in
  let hits := WebSearch.organic_result <$> take (Z.to_nat max_results) found in
  let out := fst (WebSearch._search_serper net self query max_results log) in
  Forall (λ s, source s = "Google (via Serper)") hits
  ∧ (∀ kg description,
       knowledgeGraph data = Some kg → kg_description kg = Some description →
       Py.len found < max_results →
       out = inr (mkSource (default "" (kg_title kg)) description
                           (default "" (kg_website kg)) "Knowledge Graph" :: hits)
       ∧ hits = WebSearch.organic_result <$> found)
  ∧ (max_results <= Py.len found → out = inr hits ∧ Py.len hits = max_results)
  ∧ (knowledgeGraph data = None → out = inr hits)
  ∧ (∀ kg, knowledgeGraph data = Some kg → kg_description kg = None → out = inr hits).
Proof.
  intros Hmax Hpost found hits out.
  assert (Hout := _search_serper_result net self query max_results log data Hpost).
  fold out in Hout. cbv zeta in Hout. rewrite slice_to_nonneg in Hout by done.
  fold found hits in Hout.
  assert (Hlen : Py.len hits = Z.min max_results (Py.len found)).
  { unfold hits, Py.len. rewrite length_fmap, length_take. lia. }
  split.
  { apply Forall_fmap, Forall_forall. by intros r _. }
  split.
  { intros kg description Hkg Hdesc Hroom. rewrite Hout, Hkg, Hdesc.
    replace (Py.len hits <? max_results) with true by (symmetry; apply Z.ltb_lt; lia).
    split; [done|]. unfold hits. rewrite take_ge; [done|]. unfold Py.len in Hroom. lia. }
  split.
  { intros Hfull. split; [|lia]. rewrite Hout.
    destruct (knowledgeGraph data); [|done].
    by replace (Py.len hits <? max_results) with false by (symmetry; apply Z.ltb_ge; lia). }
  split.
  { intros Hkg. by rewrite Hout, Hkg. }
  intros kg Hkg Hdesc. rewrite Hout, Hkg, Hdesc. by destruct (_ <? _).
Qed.

Lemma _search_serper_shape_witness :
  let data := mkSerper (Some [mkOrganic (Some "A") None None; mkOrganic (Some "B") None None])
                       (Some (mkKG (Some "K") (Some "about K") None)) in
  let net := WebSearch.mkProviders (λ _ _, inr data) (λ _ _, inr []) in
  fst (WebSearch._search_serper net (WebSearch.mk (Some "key")) "q" 2 [])
  = inr [mkSource "A" "" "" "Google (via Serper)"; mkSource "B" "" "" "Google (via Serper)"].
Proof.
  intros data net.
  destruct (_search_serper_shape net (WebSearch.mk (Some "key")) "q" 2 [] data
              ltac:(lia) eq_refl) as (_ & _ & Hfull & _).
  destruct Hfull as [-> _]; [by vm_compute | done].
Defined.

Lemma hit_results_complete (hits : list DdgHit) :
  Forall (λ r, is_Some (d_title r) ∧ is_Some (d_body r) ∧ is_Some (d_href r)) hits →
  WebSearch.hit_results hits
  = inr ((λ r, mkSource (default "" (d_title r)) (default "" (d_body r))
                        (default "" (d_href r)) "DuckDuckGo") <$> hits).
Proof.
  induction 1 as [|r hits ([t Ht] & [b Hb] & [h Hh]) _ IH]; [done|].
  simpl. unfold WebSearch.hit_result. rewrite Ht, Hb, Hh. simpl. by rewrite IH.
Qed.

Lemma hit_results_incomplete (hits : list DdgHit) :
  Exists (λ r, d_title r = None ∨ d_body r = None ∨ d_href r = None) hits →
  ∃ e, WebSearch.hit_results hits = inl e ∧ exn_class e = KeyError.
Proof.
  induction 1 as [r hits Hbad|r hits _ IH]; simpl.
  - unfold WebSearch.hit_result.
    destruct (d_title r); [|by eexists].
    destruct (d_body r); [|by eexists].
    destruct (d_href r); [|by eexists].
    by destruct Hbad as [|[|]].
  - destruct (WebSearch.hit_result r) as [e|s] eqn:E.
    + unfold WebSearch.hit_result in E.
      destruct (d_title r); [|injection E as <-; by eexists].
      destruct (d_body r); [|injection E as <-; by eexists].
      destruct (d_href r); [done|injection E as <-; by eexists].
    + destruct IH as (e & -> & He). by eexists.
Qed.

(** X13. [_search_duckduckgo] is all or nothing.  When every hit has
    its three fields the result has one entry per hit, in order, tagged
    ["DuckDuckGo"]; when a single hit lacks a field the [KeyError]
    discards the whole answer and the result is the empty list, however
    many complete hits came with it. *)
Theorem _search_duckduckgo_all_or_nothing (net : WebSearch.Providers)
    (self : WebSearch.t) (query : string) (max_results : Z)
    (log : list WebSearch.Provider) (hits : list DdgHit) :
  WebSearch.ddgs_text net query max_results = inr hits →
  let out := fst (WebSearch._search_duckduckgo net self query max_results log) in
  (Forall (λ r, is_Some (d_title r) ∧ is_Some (d_body r) ∧ is_Some (d_href r)) hits →
     out = inr ((λ r, mkSource (default "" (d_title r)) (default "" (d_body r))
                               (default "" (d_href r)) "DuckDuckGo") <$> hits))
  ∧ (Exists (λ r, d_title r = None ∨ d_body r = None ∨ d_href r = None) hits →
       out = inr []).
Proof.
  intros Hhits out. unfold out. rewrite _search_duckduckgo_run, Hhits. simpl. split.
  - intros Hall. by rewrite hit_results_complete.
  - intros Hbad. by destruct (hit_results_incomplete hits Hbad) as (e & -> & _).
Qed.

Lemma _search_duckduckgo_all_or_nothing_witness :
  let hits := [mkDdg (Some "A") (Some "a") (Some "https://a.example");
               mkDdg (Some "B") None (Some "https://b.example")] in
  let net := WebSearch.mkProviders (λ _ _, inl (mkExn HTTPError "403")) (λ _ _, inr hits) in
  fst (WebSearch._search_duckduckgo net (WebSearch.mk None) "q" 5 []) = inr [].
Proof.
  intros hits net.
  destruct (_search_duckduckgo_all_or_nothing net (WebSearch.mk None) "q" 5 [] hits eq_refl)
    as [_ H].
  apply H. apply Exists_cons_tl, Exists_cons_hd. right; by left.
Defined.

Lemma hit_results_tags (hits : list DdgHit) (results : list SourceResult) :
  WebSearch.hit_results hits = inr results →
  Forall (λ s, source s = "DuckDuckGo") results.
Proof.
  revert results. induction hits as [|r hits IH]; intros results; simpl.
  - intros [= <-]. constructor.
  - unfold WebSearch.hit_result.
    destruct (d_title r); [|done]. destruct (d_body r); [|done].
    destruct (d_href r); [|done]. simpl.
    destruct (WebSearch.hit_results hits) as [|l]; [done|].
    intros [= <-]. constructor; [done|]. by apply IH.
Qed.

(** X14. [WebSearch.search] reports which call sequence produced its
    result, and that matches [get_search_stats]: the statistics name
    Serper as primary exactly when [search] calls Serper first, and
    name no fallback exactly when DuckDuckGo is the only call.  Every
    entry [search] returns is tagged ["Google (via Serper)"],
    ["Knowledge Graph"] or ["DuckDuckGo"], never ["Error"]. *)
Theorem get_search_stats_matches_search (net : WebSearch.Providers)
    (self : WebSearch.t) (query : string) (max_results : Z) :
  let stats := get_search_stats self in
  let out := WebSearch.search net self query max_results [] in
  (ss_primary stats = "Serper API (Google)" ↔ head (snd out) = Some WebSearch.Serper)
  ∧ (ss_fallback stats = "None" ↔ snd out = [WebSearch.DuckDuckGo])
  ∧ (ss_fallback stats = "DuckDuckGo" ↔ ss_primary stats = "Serper API (Google)")
  ∧ ∀ results, fst out = inr results →
      Forall (λ s, source s = "Google (via Serper)" ∨ source s = "Knowledge Graph"
                   ∨ source s = "DuckDuckGo") results
      ∧ Forall (λ s, source s ≠ "Error") results.
Proof.
  intros stats out.
  assert (Htags : ∀ results, fst out = inr results →
            Forall (λ s, source s = "Google (via Serper)" ∨ source s = "Knowledge Graph"
                         ∨ source s = "DuckDuckGo") results).
  { intros results. unfold out. rewrite search_run.
    assert (Hddg : ∀ log, fst (WebSearch._search_duckduckgo net self query max_results log)
                          = inr results →
              Forall (λ s, source s = "Google (via Serper)" ∨ source s = "Knowledge Graph"
                           ∨ source s = "DuckDuckGo") results).
    { intros log. rewrite _search_duckduckgo_run. simpl.
      destruct (WebSearch.ddgs_text net query max_results) as [e|hits];
        [intros [= <-]; constructor|].
      destruct (WebSearch.hit_results hits) as [e|l] eqn:E; [intros [= <-]; constructor|].
      intros [= <-]. eapply Forall_impl; [by eapply hit_results_tags|]. simpl. tauto. }
    destruct (Py.truthy (WebSearch.serper_key self)); [|apply Hddg].
    destruct (WebSearch.serper_post net query max_results) as [e|data] eqn:Hpost.
    - destruct (_search_serper_run net self query max_results []) as (r & Hrun & Hfail & _).
      rewrite Hrun, (Hfail e Hpost). apply Hddg.
    - pose proof (_search_serper_result net self query max_results [] data Hpost) as Hres.
      destruct (WebSearch._search_serper net self query max_results []) as [r log'].
      simpl in Hres. subst r. cbv zeta.
      set (organic_hits := WebSearch.organic_result <$> _).
      assert (Horg : Forall (λ s, source s = "Google (via Serper)" ∨ source s = "Knowledge Graph"
                                  ∨ source s = "DuckDuckGo") organic_hits).
      { apply Forall_fmap, Forall_forall. intros r _. by left. }
      assert (Hall : ∀ l,
                l = organic_hits
                ∨ (∃ kg d, l = mkSource (default "" (kg_title kg)) d
                                 (default "" (kg_website kg)) "Knowledge Graph"
                               :: organic_hits) →
                Forall (λ s, source s = "Google (via Serper)" ∨ source s = "Knowledge Graph"
                             ∨ source s = "DuckDuckGo") l).
      { intros l [->|(kg & d & ->)]; [done|]. constructor; [by right; left | done]. }
      match goal with
      | |- context [match ?shaped with [] => _ | _ :: _ => _ end] =>
          assert (Hshape : shaped = organic_hits
                           ∨ ∃ kg d, shaped = mkSource (default "" (kg_title kg)) d
                                                (default "" (kg_website kg)) "Knowledge Graph"
                                              :: organic_hits);
          [|destruct shaped as [|s rest] eqn:Es]
      end.
      + destruct (knowledgeGraph data) as [kg|]; [|by left].
        destruct (_ <? _); [|by left].
        destruct (kg_description kg) as [d|]; [right; by exists kg, d | by left].
      + apply Hddg.
      + simpl. intros [= <-]. by apply Hall. }
  split.
  { unfold stats, get_search_stats, out. rewrite search_run.
    destruct (Py.truthy (WebSearch.serper_key self)).
    - destruct (_search_serper_run net self query max_results []) as (r & -> & _).
      simpl. split; [intros _|done].
      destruct r as [e|[|x results]]; simpl; by rewrite ?_search_duckduckgo_run.
    - rewrite _search_duckduckgo_run. simpl. split; intros [=]. }
  split.
  { unfold stats, get_search_stats, out. rewrite search_run.
    destruct (Py.truthy (WebSearch.serper_key self)).
    - destruct (_search_serper_run net self query max_results []) as (r & -> & _).
      simpl. split; [done|].
      destruct r as [e|[|x results]]; simpl; rewrite ?_search_duckduckgo_run; by intros [=].
    - by rewrite _search_duckduckgo_run. }
  split.
  { unfold stats, get_search_stats. by destruct (Py.truthy _). }
  intros results Hres. split; [by apply Htags|].
  eapply Forall_impl; [by apply Htags|]. simpl.
  intros s [-> | [-> | ->]]; discriminate.
Qed.

Lemma get_search_stats_matches_search_witness :
  let net := WebSearch.mkProviders
               (λ _ _, inr (mkSerper (Some [mkOrganic (Some "Paris") None None]) None))
               (λ _ _, inr []) in
  ss_primary (get_search_stats (WebSearch.mk (Some "key"))) = "Serper API (Google)"
  ∧ head (snd (WebSearch.search net (WebSearch.mk (Some "key")) "q" 5 []))
    = Some WebSearch.Serper.
Proof.
  intros net.
  destruct (get_search_stats_matches_search net (WebSearch.mk (Some "key")) "q" 5)
    as [[H _] _].
  split; [reflexivity|]. by apply H.
Defined.

(** ** [LLMHandler]: what [generate] returns *)

(** X15. [generate] returns [None] exactly when the mode is none of
    ['local'], ['groq'], ['openai'].  In the three known modes it
    always returns text and never raises: in local mode what
    [_generate_local] returns for the full prompt; in a hosted mode the
    answer of the client, or ["Error generating response: "] followed by
    the message of whatever the client call raised.  The full prompt is
    the prompt alone when the context is empty, and otherwise the
    context, a blank line and the prompt. *)
Theorem generate_returns_text (sdk : LLMHandler.Sdk) (self : LLMHandler.t)
    (prompt context : string) (max_tokens : Z) :
  let full_prompt :=
    if String.eqb context "" then prompt
    else context +:+ PyStr.NL +:+ PyStr.NL +:+ prompt in
  let out := LLMHandler.generate sdk self prompt context max_tokens in
  (out = None ↔ LLMHandler.mode self ≠ "local" ∧ LLMHandler.mode self ≠ "groq"
                ∧ LLMHandler.mode self ≠ "openai")
  ∧ (LLMHandler.mode self = "local" →
       out = Some (LLMHandler._generate_local sdk self full_prompt))
  ∧ (LLMHandler.mode self = "groq" →
       out = Some match LLMHandler._generate_groq sdk self full_prompt max_tokens with
                  | inr answer => answer
                  | inl e => "Error generating response: " +:+ exn_str e
                  end)
  ∧ (LLMHandler.mode self = "openai" →
       out = Some match LLMHandler._generate_openai sdk self full_prompt max_tokens with
                  | inr answer => answer
                  | inl e => "Error generating response: " +:+ exn_str e
                  end).
Proof.
  intros full_prompt out.
  assert (Hfull : full_prompt
                  = match context with
                    | EmptyString => prompt
                    | _ => context +:+ PyStr.NL +:+ PyStr.NL +:+ prompt
                    end).
  { unfold full_prompt. by destruct context. }
  unfold out, LLMHandler.generate. rewrite <- Hfull.
  destruct (String.eqb_spec (LLMHandler.mode self) "local") as [Hl|Hl].
  { rewrite Hl. split; [split; [done | by intros (? & _)]|]. by repeat split. }
  destruct (String.eqb_spec (LLMHandler.mode self) "groq") as [Hg|Hg].
  { rewrite Hg.
    destruct (LLMHandler._generate_groq sdk self full_prompt max_tokens);
      (split; [split; [done | by intros (_ & ? & _)]|]); by repeat split. }
  destruct (String.eqb_spec (LLMHandler.mode self) "openai") as [Ho|Ho].
  { rewrite Ho.
    destruct (LLMHandler._generate_openai sdk self full_prompt max_tokens);
      (split; [split; [done | by intros (_ & _ & ?)]|]); by repeat split. }
  split; [by split|]. by repeat split.
Qed.

Lemma generate_returns_text_witness :
  let sdk := LLMHandler.mkSdk (λ k, inr k) (λ k, inr k)
               (λ _ _ _ _, inr "hosted") (λ _ _ _ _, inr "hosted")
               (λ _ _, inr (LLMHandler.mkCompleted 0 " local " "")) in
  LLMHandler.generate sdk (LLMHandler.mk "groq" "llama3-8b-8192" None None) "q" "ctx" 500
  = Some "Error generating response: 'LLMHandler' object has no attribute 'groq_client'".
Proof.
  intros sdk.
  pose proof (generate_returns_text sdk (LLMHandler.mk "groq" "llama3-8b-8192" None None)
                "q" "ctx" 500) as H.
  cbv zeta in H. destruct H as (_ & _ & H & _).
  rewrite H by reflexivity. by vm_compute.
Defined.

(** X16. A handler built by [__init__] has what its mode needs, and
    only that.  The mode is [LLM_MODE], ['local'] when unset.  In groq
    or openai mode the constructor builds the matching client from the
    matching key and fails exactly when that client constructor raises;
    in any other mode it builds no client and cannot fail.  On a
    constructed handler the method of the handler's own mode finds its
    client, so [generate], which calls only that method, never runs
    into a missing client attribute: in a hosted mode it returns the
    answer of the service on the built client, or the error text of what
    that call raised.  The method of the other hosted mode does lack
    its client: called directly, it raises the missing-attribute
    error. *)
Theorem __init___well_formed (sdk : LLMHandler.Sdk) (environ : gmap string string) :
  let mode := getenv environ "LLM_MODE" "local" in
  let full_prompt (prompt context : string) :=
    match context with
    | EmptyString => prompt
    | _ => context +:+ PyStr.NL +:+ PyStr.NL +:+ prompt
    end in
  let missing (name : string) : PyExn :=
    mkExn OtherException ("'LLMHandler' object has no attribute '" +:+ name +:+ "'") in
  (∀ self, LLMHandler.__init__ sdk environ = inr self →
     LLMHandler.mode self = mode
     ∧ (mode = "groq" →
          LLMHandler.Groq sdk (environ !! "GROQ_API_KEY")
          = inr (default None (LLMHandler.groq_client self))
          ∧ is_Some (LLMHandler.groq_client self)
          ∧ LLMHandler.model self = getenv environ "GROQ_MODEL" "llama3-8b-8192"
          ∧ (∀ prompt max_tokens,
               LLMHandler._generate_groq sdk self prompt max_tokens
               = LLMHandler.groq_create sdk (default None (LLMHandler.groq_client self))
                   (LLMHandler.model self) prompt max_tokens)
          ∧ LLMHandler.openai_client self = None
          ∧ (∀ prompt max_tokens,
               LLMHandler._generate_openai sdk self prompt max_tokens
               = inl (missing "openai_client"))
          ∧ (∀ prompt context max_tokens,
               LLMHandler.generate sdk self prompt context max_tokens
               = Some match LLMHandler.groq_create sdk
                              (default None (LLMHandler.groq_client self))
                              (LLMHandler.model self) (full_prompt prompt context)
                              max_tokens with
                      | inr answer => answer
                      | inl e => "Error generating response: " +:+ exn_str e
                      end))
     ∧ (mode = "openai" →
          LLMHandler.OpenAI sdk (environ !! "OPENAI_API_KEY")
          = inr (default None (LLMHandler.openai_client self))
          ∧ is_Some (LLMHandler.openai_client self)
          ∧ LLMHandler.model self = getenv environ "OPENAI_MODEL" "gpt-3.5-turbo"
          ∧ (∀ prompt max_tokens,
               LLMHandler._generate_openai sdk self prompt max_tokens
               = LLMHandler.openai_create sdk (default None (LLMHandler.openai_client self))
                   (LLMHandler.model self) prompt max_tokens)
          ∧ LLMHandler.groq_client self = None
          ∧ (∀ prompt max_tokens,
               LLMHandler._generate_groq sdk self prompt max_tokens
               = inl (missing "groq_client"))
          ∧ (∀ prompt context max_tokens,
               LLMHandler.generate sdk self prompt context max_tokens
               = Some match LLMHandler.openai_create sdk
                              (default None (LLMHandler.openai_client self))
                              (LLMHandler.model self) (full_prompt prompt context)
                              max_tokens with
                      | inr answer => answer
                      | inl e => "Error generating response: " +:+ exn_str e
                      end))
     ∧ (mode ≠ "groq" → mode ≠ "openai" →
          LLMHandler.model self = getenv environ "LOCAL_MODEL" "llama3.2:3b"
          ∧ LLMHandler.groq_client self = None ∧ LLMHandler.openai_client self = None
          ∧ (∀ prompt max_tokens,
               LLMHandler._generate_groq sdk self prompt max_tokens
               = inl (missing "groq_client"))
          ∧ (∀ prompt max_tokens,
               LLMHandler._generate_openai sdk self prompt max_tokens
               = inl (missing "openai_client"))))
  ∧ (∀ e, LLMHandler.__init__ sdk environ = inl e →
       (mode = "groq" ∧ LLMHandler.Groq sdk (environ !! "GROQ_API_KEY") = inl e)
       ∨ (mode = "openai" ∧ LLMHandler.OpenAI sdk (environ !! "OPENAI_API_KEY") = inl e))
  ∧ (environ !! "LLM_MODE" = None →
       LLMHandler.__init__ sdk environ
       = inr (LLMHandler.mk "local" (getenv environ "LOCAL_MODEL" "llama3.2:3b") None None)).
Proof.
  intros mode full_prompt missing. unfold LLMHandler.__init__. fold mode.
  split; [|split].
  - intros self.
    destruct (String.eqb_spec mode "groq") as [Hg|Hg].
    { destruct (LLMHandler.Groq sdk _) as [e|client]; [done|]. intros [= <-]. simpl.
      split; [done|]. split; [|split; [by rewrite Hg|done]].
      intros _. split; [done|]. split; [by eexists|]. split; [done|].
      split; [done|]. split; [done|]. split; [done|].
      intros prompt context max_tokens.
      unfold LLMHandler.generate, LLMHandler._generate_groq. simpl. rewrite Hg. simpl.
      fold (full_prompt prompt context).
      by destruct (LLMHandler.groq_create sdk client _ _ max_tokens). }
    destruct (String.eqb_spec mode "openai") as [Ho|Ho].
    { destruct (LLMHandler.OpenAI sdk _) as [e|client]; [done|]. intros [= <-]. simpl.
      split; [done|]. split; [done|]. split; [|done].
      intros _. split; [done|]. split; [by eexists|]. split; [done|].
      split; [done|]. split; [done|]. split; [done|].
      intros prompt context max_tokens.
      unfold LLMHandler.generate, LLMHandler._generate_openai. simpl. rewrite Ho. simpl.
      fold (full_prompt prompt context).
      by destruct (LLMHandler.openai_create sdk client _ _ max_tokens). }
    intros [= <-]. simpl. by repeat split.
  - intros e.
    destruct (String.eqb_spec mode "groq") as [Hg|Hg].
    { destruct (LLMHandler.Groq sdk _) as [e'|client]; [|done]. intros [= <-]. by left. }
    destruct (String.eqb_spec mode "openai") as [Ho|Ho]; [|done].
    destruct (LLMHandler.OpenAI sdk _) as [e'|client]; [|done]. intros [= <-]. by right.
  - intros Hunset. unfold mode, getenv. by rewrite Hunset.
Qed.

Lemma __init___well_formed_witness :
  let sdk := LLMHandler.mkSdk (λ key, inr key) (λ key, inr key)
               (λ _ _ prompt _, inr ("groq says: " +:+ prompt))
               (λ _ _ _ _, inl (mkExn OtherException "quota"))
               (λ _ _, inl (mkExn FileNotFoundError "ollama")) in
  let environ : gmap string string := {[ "LLM_MODE" := "groq" ]} in
  ∃ self, LLMHandler.__init__ sdk environ = inr self
          ∧ LLMHandler._generate_groq sdk self "hi" 500 = inr "groq says: hi"
          ∧ LLMHandler.generate sdk self "hi" "" 500 = Some "groq says: hi"
          ∧ LLMHandler._generate_openai sdk self "hi" 500
            = inl (mkExn OtherException
                     "'LLMHandler' object has no attribute 'openai_client'").
Proof.
  intros sdk environ.
  destruct (__init___well_formed sdk environ) as [H _]. cbv zeta in H.
  destruct (LLMHandler.__init__ sdk environ) as [e|self] eqn:E; [by vm_compute in E|].
  exists self. split; [done|].
  destruct (H self eq_refl) as (_ & Hg & _).
  destruct (Hg eq_refl) as (_ & _ & _ & -> & _ & -> & ->).
  vm_compute in E. injection E as <-. by repeat split.
Defined.

(** ** A served search *)

(** X17. What a served search does.  For a query that is not blank,
    from an identity under its limit, and with a cache holding only
    results of [search_web], the route either renders a results page
    or, when the web search raises, the page of status 500.  The
    results page shows the stripped query, between one and five
    sources, the answer of the generator of the session's mode on those
    sources, and a remaining quota that already counts this request;
    the search is put at the front of the history, cut at
    [MAX_HISTORY].  The 500 page leaves history and cache as they
    were. *)
Theorem search_route_served (rt : Runtime) (req : SearchRequest)
    (session : gmap string string) (app : AppState) :
  let submitted := default "" (form_query req) in
  let u := fst (get_user_id (token req) session) in
  let kept := filter (λ ts, t_check req - ts < RATE_LIMIT_WINDOW)
                (tracker_get u (rate_limit_tracker app)) in
  let mode := get_current_mode session in
  Py.all_space submitted = false →
  Py.len kept < RATE_LIMIT_SEARCHES →
  cache_ok (search_cache app) →
  0 <= MAX_HISTORY rt →
  let out := search_route rt req session app in
  (∃ answer sources remaining,
     fst (fst out)
     = ResultsPage (Py.strip submitted) answer sources
         (get_model_info (environ rt) mode) remaining
     ∧ sources ≠ [] ∧ Py.len sources <= 5
     ∧ answer = generate_answer (environ rt) (llm req) (Py.strip submitted) sources mode
     ∧ 0 <= remaining <= RATE_LIMIT_SEARCHES
     ∧ (t_recheck req - t_record req < RATE_LIMIT_WINDOW →
          remaining < RATE_LIMIT_SEARCHES)
     ∧ search_history (snd out)
       = take (Z.to_nat (MAX_HISTORY rt))
           (mkHistory (Py.strip submitted) mode (datetime_now req) :: search_history app)
     ∧ cache_ok (search_cache (snd out)))
  ∨ (∃ e, fst (fst out) = ErrorPage ("An error occurred: " +:+ exn_str e) 500
          ∧ search_history (snd out) = search_history app
          ∧ search_cache (snd out) = search_cache app).
Proof.
  intros submitted u kept mode Hquery Hroom Hcache Hcap out.
  unfold out, search_route. rewrite rate_limit_decorator_run. fold u kept.
  replace (Py.len kept <? RATE_LIMIT_SEARCHES) with true
    by (symmetry; by apply Z.ltb_lt).
  pose proof (get_user_id_assigned (token req) session) as Hu. fold u in Hu.
  pose proof (get_current_mode_user_id (token req) session) as Hmode. fold mode in Hmode.
  set (session1 := snd (get_user_id (token req) session)) in *.
  unfold search. fold submitted.
  destruct (String.eqb_spec (Py.strip submitted) "") as [Hblank|_].
  { apply strip_empty_iff in Hblank. by rewrite Hblank in Hquery. }
  rewrite (get_user_id_known _ u) by done. rewrite Hmode.
  cbn [rate_limit_tracker search_cache search_history].
  rewrite check_rate_limit_eq, check_rate_limit_verdict. cbv zeta.
  rewrite tracker_get_insert. cbn [fst snd].
  set (recheck := filter _ (kept ++ [t_record req])).
  pose proof (search_web_cached_shape rt req (Py.strip submitted) (search_cache app) Hcache)
    as Hshape.
  destruct (search_web_cached rt req (Py.strip submitted) (search_cache app))
    as [[e|sources] cache].
  - right. exists e. subst cache. by repeat split.
  - left. destruct Hshape as (Hne & Hlen & Hok).
    exists (generate_answer (environ rt) (llm req) (Py.strip submitted) sources mode),
      sources, (Z.max 0 (RATE_LIMIT_SEARCHES - Py.len recheck)).
    simpl. split; [done|]. split; [done|]. split; [done|]. split; [done|].
    assert (0 <= Py.len recheck) by (unfold Py.len; lia).
    split; [unfold RATE_LIMIT_SEARCHES; lia|].
    split.
    { intros Hself. unfold recheck.
      rewrite filter_app, (filter_cons_True _ (t_record req)) by done.
      unfold Py.len. rewrite length_app. simpl. unfold RATE_LIMIT_SEARCHES. lia. }
    split; [|done].
    unfold add_to_history. by rewrite slice_to_nonneg.
Qed.

Lemma search_route_served_witness :
  let rt := mkRuntime {[ "SERPER_API_KEY" := "key"; "GROQ_API_KEY" := "gk" ]} 10 (λ s, s) in
  let req := mkSearchRequest (Some " capital of France ") "5f2a" 1000 1001 1002 1003 1004
               "2024-01-01 00:00:00"
               (λ _ _, inr (mkSerper (Some [mkOrganic (Some "Paris") (Some "Capital") None])
                                     None))
               (mkBackends (λ _ _ _, inr "Paris.") (λ _ _ _, inr "o")
                           (λ _ _, inl (mkExn ConnectionError "refused"))) in
  let out := search_route rt req ∅ (mkApp ∅ [] ∅) in
  fst (fst out)
  = ResultsPage "capital of France" "Paris."
      [mkSource "Paris" "Capital" "#" "Serper"]
      (mkModelInfo "Groq API" "llama-3.3-70b" "groq" "active") 49
  ∧ search_history (snd out)
    = [mkHistory "capital of France" "groq" "2024-01-01 00:00:00"].
Proof.
  intros rt req out.
  assert (Hok : cache_ok ∅) by (intros k v ts; by rewrite lookup_empty).
  pose proof (search_route_served rt req ∅ (mkApp ∅ [] ∅) eq_refl
                ltac:(by vm_compute) Hok ltac:(by vm_compute)) as H.
  cbv zeta in H. destruct H as [_|(e & He & _)].
  - split; by vm_compute.
  - by vm_compute in He.
Defined.

(** ** The remaining views *)

Lemma insert_insert_tracker (u : string) (l l' : list Z) (tracker : gmap string (list Z)) :
  <[u := l]> (<[u := l']> tracker) = <[u := l]> tracker.
Proof. apply insert_insert_eq. Qed.

(** The limiter cannot tell a pruned record from the record it was
    pruned from. *)
Lemma rate_limit_decorator_pruned (func : View) (req : SearchRequest)
    (session : gmap string string) (app : AppState) (now : Z) (u : string) :
  session !! "user_id" = Some u → now <= t_check req →
  rate_limit_decorator func req session
    (mkApp (search_cache app) (search_history app)
       (<[u := filter (λ ts, now - ts < RATE_LIMIT_WINDOW)
                 (tracker_get u (rate_limit_tracker app))]> (rate_limit_tracker app)))
  = rate_limit_decorator func req session app.
Proof.
  intros Hu Hnow. rewrite !rate_limit_decorator_run.
  rewrite (get_user_id_known _ u) by done.
  cbn [fst snd rate_limit_tracker search_cache search_history].
  rewrite tracker_get_insert, filter_filter_window by done.
  by rewrite !insert_insert_tracker.
Qed.

(** X18. [/stats] is a read-only view as far as a client can tell.  It
    leaves cache and history alone, shows their sizes, reports a quota
    between 0 and the maximum, and records no search: the pruning it
    does on the caller's record is invisible to the limiter, so a
    later [/search] (at a clock reading not before that of [/stats])
    returns the same page and leaves the same state as if [/stats] had
    not been called.  Its one lasting effect is on the session: the
    identity, if the session had none. *)
Theorem stats_read_only (tok : string) (now : Z) (session : gmap string string)
    (app : AppState) (rt : Runtime) (req : SearchRequest) :
  now <= t_check req →
  let out := stats tok now session app in
  let session' := snd (fst out) in
  let app' := snd out in
  let s := fst (fst out) in
  session' = snd (get_user_id tok session)
  ∧ search_cache app' = search_cache app
  ∧ search_history app' = search_history app
  ∧ cache_size s = Z.of_nat (size (search_cache app))
  ∧ history_size s = Py.len (search_history app)
  ∧ current_mode s = get_current_mode session
  ∧ 0 <= stats_remaining s <= rate_limit_max s
  ∧ (∀ v, Py.len (tracker_get v (rate_limit_tracker app'))
          <= Py.len (tracker_get v (rate_limit_tracker app)))
  ∧ search_route rt req session' app' = search_route rt req session' app.
Proof.
  intros Hnow. unfold stats.
  pose proof (get_user_id_assigned tok session) as Hu.
  pose proof (get_current_mode_user_id tok session) as Hmode.
  destruct (get_user_id tok session) as [u session1]. cbn [fst snd] in Hu, Hmode.
  rewrite check_rate_limit_eq, check_rate_limit_verdict. cbv zeta. cbn [fst snd].
  cbn [search_cache search_history rate_limit_tracker cache_size history_size
       current_mode stats_remaining rate_limit_max].
  set (kept := filter _ (tracker_get u (rate_limit_tracker app))).
  assert (Hkept : Py.len kept <= Py.len (tracker_get u (rate_limit_tracker app))).
  { unfold Py.len, kept. pose proof (length_filter (λ ts, now - ts < RATE_LIMIT_WINDOW)
      (tracker_get u (rate_limit_tracker app))). lia. }
  assert (0 <= Py.len kept) by (unfold Py.len; lia).
  split; [done|]. split; [done|]. split; [done|]. split; [done|]. split; [done|].
  split; [done|]. split; [unfold RATE_LIMIT_SEARCHES; lia|]. split.
  - intros v. destruct (decide (v = u)) as [->|Hv].
    + by rewrite tracker_get_insert.
    + by rewrite tracker_get_insert_ne.
  - unfold search_route. by apply rate_limit_decorator_pruned.
Qed.

Lemma stats_read_only_witness :
  let rt := mkRuntime ∅ 10 (λ s, s) in
  let req := mkSearchRequest (Some "rust") "9e" 5000 5001 5002 5003 5004
               "2024-01-01 00:00:00" (λ _ _, inr (mkSerper None None))
               (mkBackends (λ _ _ _, inr "a") (λ _ _ _, inr "o")
                           (λ _ _, inl (mkExn ConnectionError "refused"))) in
  let app := mkApp ∅ [] {[ "ab" := [100; 2000; 4000] ]} in
  let out := stats "ab" 4500 ∅ app in
  stats_remaining (fst (fst out)) = 48
  ∧ tracker_get "ab" (rate_limit_tracker (snd out)) = [2000; 4000]
  ∧ search_route rt req (snd (fst out)) (snd out)
    = search_route rt req (snd (fst out)) app.
Proof.
  intros rt req app out.
  split; [by vm_compute|]. split; [by vm_compute|].
  apply (stats_read_only "ab" 4500 ∅ app rt req). by vm_compute.
Defined.

(** X19. The home page shows the newest searches of [/history].  After
    any run of insertions under a non-negative [MAX_HISTORY], [index]
    shows the first [min 5 MAX_HISTORY] of the inserted entries, newest
    first, followed by what the history held before; this is a prefix
    of what [/history] returns, whose count never exceeds
    [MAX_HISTORY].  After [clear_history] both are empty, while cache
    and rate records are untouched. *)
Theorem index_shows_latest (rt : Runtime) (session : gmap string string)
    (app : AppState) (entries : list HistoryEntry) :
  0 <= MAX_HISTORY rt → entries ≠ [] →
  let app' := mkApp (search_cache app)
                (add_all (MAX_HISTORY rt) entries (search_history app))
                (rate_limit_tracker app) in
  ix_history (index rt session app')
  = take (Z.to_nat (Z.min 5 (MAX_HISTORY rt))) (reverse entries ++ search_history app)
  ∧ ix_history (index rt session app') = take 5 (fst (history app'))
  ∧ Py.len (ix_history (index rt session app')) <= 5
  ∧ snd (history app') = Py.len (fst (history app'))
  ∧ snd (history app') <= MAX_HISTORY rt
  ∧ ix_history (index rt session (clear_history app')) = []
  ∧ history (clear_history app') = ([], 0)
  ∧ search_cache (clear_history app') = search_cache app
  ∧ rate_limit_tracker (clear_history app') = rate_limit_tracker app.
Proof.
  intros Hcap Hentries app'. unfold index, history, clear_history, app'.
  cbn [search_history search_cache rate_limit_tracker ix_history fst snd].
  rewrite add_all_take by done.
  rewrite (slice_to_nonneg 5) by lia.
  split.
  { rewrite take_take. f_equal. lia. }
  split; [done|]. split.
  { unfold Py.len. rewrite length_take. lia. }
  split; [done|]. split.
  { unfold Py.len. rewrite length_take. lia. }
  by repeat split.
Qed.

Lemma index_shows_latest_witness :
  let rt := mkRuntime ∅ 3 (λ s, s) in
  let e n := mkHistory n "groq" "2024-01-01 00:00:00" in
  let app := mkApp ∅ (add_all 3 [e "a"; e "b"; e "c"; e "d"] [e "z"]) ∅ in
  ix_history (index rt ∅ app) = [e "d"; e "c"; e "b"]
  ∧ snd (history app) <= 3.
Proof.
  intros rt e app.
  pose proof (index_shows_latest rt ∅ (mkApp ∅ [e "z"] ∅) [e "a"; e "b"; e "c"; e "d"]
                ltac:(by vm_compute) ltac:(done)) as H.
  cbv zeta in H. destruct H as (H1 & _ & _ & _ & H5 & _).
  split; [exact H1 | exact H5].
Defined.

(** X20. What [validate_api_keys] checks and what it means.  It
    returns [True] exactly when both the Serper and the Groq key are
    set and not empty, and it lists exactly the ones that are not, in
    that order; the OpenAI key plays no part.  A key it lists is a
    feature that cannot work: without the Serper key every
    [search_web] returns the key diagnostic without calling the
    provider, without the Groq key the Groq generator returns its key
    error without calling the service.  A passed validation says
    nothing about the [openai] mode, which still reports a missing
    key. *)
Theorem validate_api_keys_required (environ : gmap string string) :
  let missing := fst (validate_api_keys environ) in
  let ok := snd (validate_api_keys environ) in
  (ok = true ↔ Py.truthy (environ !! "SERPER_API_KEY") = true
               ∧ Py.truthy (environ !! "GROQ_API_KEY") = true)
  ∧ (ok = true ↔ missing = [])
  ∧ missing = filter (λ name, Py.truthy (environ !! name) = false)
                ["SERPER_API_KEY"; "GROQ_API_KEY"]
  ∧ (∀ v, validate_api_keys (<["OPENAI_API_KEY" := v]> environ) = validate_api_keys environ)
  ∧ validate_api_keys (delete "OPENAI_API_KEY" environ) = validate_api_keys environ
  ∧ ("SERPER_API_KEY" ∈ missing →
       ∀ post query, search_web (API_KEYS environ "serper") post query
                     = inr [api_key_not_configured])
  ∧ ("GROQ_API_KEY" ∈ missing →
       ∀ llm query sources,
         generate_answer_groq environ llm query sources
         = "Error: Groq API key not configured. Please add GROQ_API_KEY to your .env file.")
  ∧ (Py.truthy (environ !! "OPENAI_API_KEY") = false →
       ∀ llm query sources,
         generate_answer_openai environ llm query sources
         = "Error: OpenAI API key not configured. Please add OPENAI_API_KEY to your .env file.").
Proof.
  unfold validate_api_keys, API_KEYS. cbn [String.eqb Ascii.eqb Bool.eqb].
  cbv zeta.
  split; [|split; [|split; [|split; [|split; [|split; [|split]]]]]].
  - destruct (Py.truthy (environ !! "SERPER_API_KEY")),
             (Py.truthy (environ !! "GROQ_API_KEY")); simpl; intuition congruence.
  - destruct (Py.truthy (environ !! "SERPER_API_KEY")),
             (Py.truthy (environ !! "GROQ_API_KEY")); simpl; intuition congruence.
  - destruct (Py.truthy (environ !! "SERPER_API_KEY")) eqn:E1,
             (Py.truthy (environ !! "GROQ_API_KEY")) eqn:E2; simpl.
    + rewrite filter_cons_False by (rewrite E1; done).
      by rewrite filter_cons_False by (rewrite E2; done).
    + rewrite filter_cons_False by (rewrite E1; done).
      by rewrite filter_cons_True by done.
    + rewrite filter_cons_True by done.
      by rewrite filter_cons_False by (rewrite E2; done).
    + rewrite filter_cons_True by done.
      by rewrite filter_cons_True by done.
  - intros v. by rewrite !lookup_insert_ne by done.
  - by rewrite !lookup_delete_ne by done.
  - intros Hin post query. unfold search_web, API_KEYS. cbn [String.eqb Ascii.eqb Bool.eqb].
    destruct (Py.truthy (environ !! "SERPER_API_KEY")) eqn:E1; [|done].
    exfalso. destruct (Py.truthy (environ !! "GROQ_API_KEY")); simpl in Hin.
    + by apply elem_of_nil in Hin.
    + apply list_elem_of_singleton in Hin. discriminate Hin.
  - intros Hin llm query sources. unfold generate_answer_groq, API_KEYS.
    cbn [String.eqb Ascii.eqb Bool.eqb].
    destruct (Py.truthy (environ !! "GROQ_API_KEY")) eqn:E2; [|done].
    exfalso. destruct (Py.truthy (environ !! "SERPER_API_KEY")); simpl in Hin.
    + by apply elem_of_nil in Hin.
    + apply list_elem_of_singleton in Hin. discriminate Hin.
  - intros Hkey llm query sources. unfold generate_answer_openai, API_KEYS.
    cbn [String.eqb Ascii.eqb Bool.eqb]. by rewrite Hkey.
Qed.

Lemma validate_api_keys_required_witness :
  let environ : gmap string string := {[ "GROQ_API_KEY" := "gk"; "SERPER_API_KEY" := "" ]} in
  validate_api_keys environ = (["SERPER_API_KEY"], false)
  ∧ ∀ post query, search_web (API_KEYS environ "serper") post query
                  = inr [api_key_not_configured].
Proof.
  intros environ. split; [by vm_compute|].
  pose proof (validate_api_keys_required environ) as H.
  cbv zeta in H. destruct H as (_ & _ & _ & _ & _ & H & _).
  apply H. replace (fst (validate_api_keys environ)) with ["SERPER_API_KEY"]
    by (by vm_compute).
  by apply list_elem_of_singleton.
Defined.

(** ** Cache keys and clearing *)

Lemma string_app_length (s t : string) :
  String.length (s +:+ t) = (String.length s + String.length t)%nat.
Proof.
  induction s as [|a s IH]; [done|].
  change (String a s +:+ t) with (String a (s +:+ t)). simpl. by rewrite IH.
Qed.

Lemma string_app_inj_r (s1 s2 t : string) : s1 +:+ t = s2 +:+ t → s1 = s2.
Proof.
  revert s2. induction s1 as [|a s1 IH]; intros [|b s2] H.
  - done.
  - apply (f_equal String.length) in H.
    change ("" +:+ t) with t in H. rewrite string_app_length in H. simpl in H. lia.
  - apply (f_equal String.length) in H.
    change ("" +:+ t) with t in H. rewrite string_app_length in H. simpl in H. lia.
  - change (String a (s1 +:+ t) = String b (s2 +:+ t)) in H.
    injection H as -> H. f_equal. by apply IH.
Qed.

(** The key of [search_web] determines the [repr] of the query. *)
Lemma search_web_key_inj (r1 r2 : string) :
  cache_key "search_web" ("(" +:+ r1 +:+ ",)") "{}"
  = cache_key "search_web" ("(" +:+ r2 +:+ ",)") "{}" → r1 = r2.
Proof.
  unfold cache_key. intros H.
  apply (inj (String.app "search_web")) in H.
  apply (inj (String.app ":")) in H.
  change (("(" +:+ r1 +:+ ",)") +:+ ":{}" = ("(" +:+ r2 +:+ ",)") +:+ ":{}") in H.
  apply string_app_inj_r in H.
  apply (inj (String.app "(")) in H.
  by apply string_app_inj_r in H.
Qed.

(** X21. Each query has a cache entry of its own.  Since [repr] of a
    string determines the string, two different queries have different
    keys; a search for one query never overwrites or removes the cached
    result of another, so a later search for the other query still finds
    its entry and, while that entry is valid, returns it without
    consulting the provider. *)
Theorem search_web_cache_per_query (rt : Runtime) (req req' : SearchRequest)
    (q1 q2 : string) (cache : gmap string (list SourceResult * Z))
    (sources : list SourceResult) (timestamp : Z) :
  let key q := cache_key "search_web" ("(" +:+ repr rt q +:+ ",)") "{}" in
  (∀ a b, repr rt a = repr rt b → a = b) →
  q1 ≠ q2 →
  cache !! key q2 = Some (sources, timestamp) →
  t_cache_check req' - timestamp < 3600 →
  let cache' := snd (search_web_cached rt req q1 cache) in
  key q1 ≠ key q2
  ∧ cache' !! key q2 = Some (sources, timestamp)
  ∧ search_web_cached rt req' q2 cache' = (inr sources, cache').
Proof.
  intros key Hrepr Hq Hentry Hvalid cache'.
  assert (Hkey : key q1 ≠ key q2).
  { intros H. apply search_web_key_inj in H. by apply Hq, Hrepr. }
  assert (Hkept : cache' !! key q2 = Some (sources, timestamp)).
  { unfold cache', search_web_cached, cache_result, call_and_store. fold (key q1).
    destruct (cache !! key q1) as [[v ts]|];
      [destruct (t_cache_check req - ts <? 3600); [done|]|];
      (destruct (search_web _ _ _); simpl; [done|by rewrite lookup_insert_ne]). }
  split; [done|]. split; [done|].
  unfold search_web_cached. fold (key q2).
  by rewrite (cache_result_hit _ _ _ _ _ _ _ sources timestamp).
Qed.

Lemma search_web_cache_per_query_witness :
  let rt := mkRuntime {[ "SERPER_API_KEY" := "key" ]} 10 (λ s, s) in
  let llm := mkBackends (λ _ _ _, inr "a") (λ _ _ _, inr "o")
               (λ _ _, inl (mkExn ConnectionError "refused")) in
  let req := mkSearchRequest (Some "go") "t" 100 101 102 103 104 "2024-01-01 00:00:00"
               (λ _ _, inr (mkSerper (Some [mkOrganic (Some "Go") (Some "lang") None]) None))
               llm in
  let req' := mkSearchRequest (Some "rust") "t" 200 201 202 203 204 "2024-01-01 00:01:00"
                (λ _ _, inl (mkExn ReadTimeout "timed out")) llm in
  let cache := {[ "search_web:(rust,):{}" := ([mkSource "Rust" "lang" "#" "Serper"], 50) ]} in
  fst (search_web_cached rt req' "rust" (snd (search_web_cached rt req "go" cache)))
  = inr [mkSource "Rust" "lang" "#" "Serper"].
Proof.
  intros rt llm req req' cache.
  pose proof (search_web_cache_per_query rt req req' "go" "rust" cache
                [mkSource "Rust" "lang" "#" "Serper"] 50) as H.
  cbv zeta in H.
  destruct H as (_ & _ & H);
    [by intros a b | done | by vm_compute | by vm_compute |].
  by rewrite H.
Defined.

(** X22. After [clear_cache] the next search of any query goes to the
    provider: its result is what [search_web] computes now, and it
    becomes the only cache entry, stamped with the store time (an
    exception leaves the cache empty).  Clearing the cache changes
    neither the history nor any rate record. *)
Theorem clear_cache_recomputes (rt : Runtime) (req : SearchRequest) (query : string)
    (app : AppState) :
  let app' := clear_cache app in
  let key := cache_key "search_web" ("(" +:+ repr rt query +:+ ",)") "{}" in
  search_history app' = search_history app
  ∧ rate_limit_tracker app' = rate_limit_tracker app
  ∧ cache_ok (search_cache app')
  ∧ search_web_cached rt req query (search_cache app')
    = match search_web (API_KEYS (environ rt) "serper") (serper req) query with
      | inr sources => (inr sources, {[ key := (sources, t_cache_store req) ]})
      | inl e => (inl e, ∅)
      end.
Proof.
  intros app' key. unfold app', clear_cache.
  cbn [search_history rate_limit_tracker search_cache].
  split; [done|]. split; [done|]. split.
  { intros k v ts. by rewrite lookup_empty. }
  unfold search_web_cached. fold key.
  rewrite cache_result_miss by apply lookup_empty.
  unfold call_and_store.
  by destruct (search_web _ _ _).
Qed.
